(** * Triangle rendering demos (CPP/Triangle)

    A shallow embedding of the four OpenGL demo programs
    [simple_triangle.cpp], [triangle_demo.cpp], [textured_triangle.cpp] and
    [phong_triangle.cpp], and of the Phong fragment shader.

    - Host [float]s are IEEE-754 binary32 numbers ([SpecFloat], precision 24,
      emax 128); a decimal literal denotes its correctly rounded value.
    - GLFW, GLAD and OpenGL are the environment: a [World] holds the state
      the programs can observe or change, an [Env] the answers of the
      platform (does [glfwInit] succeed, does a shader compile, ...) and a
      [FrameEnv] what the user does during one loop iteration.
    - Every API call is appended to a trace, so that orderings can be stated.
    - A call through an OpenGL entry point that GLAD has not loaded kills the
      process: the world is marked [crashed] and stays as it is. A member
      that was never assigned holds what the environment says.
    - glm is an external library: a [mat4] records the glm call that built it.
    - The fragment shader is interpreted over the real numbers. *)

From Stdlib Require Import ZArith QArith List String Bool Lia Lra.
From Stdlib Require Reals.
From Stdlib Require RNsatz.
From Stdlib Require Import Floats.SpecFloat.
From stdpp Require Import gmap strings.
Import ListNotations.

Local Open Scope string_scope.
Local Open Scope Z_scope.

(* ================================================================= *)
(** ** Host floating point: binary32 *)

Definition f32 : Type := spec_float.

Definition f32_prec : Z := 24.
Definition f32_emax : Z := 128.

Definition f32_add : f32 -> f32 -> f32 := SFadd f32_prec f32_emax.
Definition f32_mul : f32 -> f32 -> f32 := SFmul f32_prec f32_emax.
Definition f32_div : f32 -> f32 -> f32 := SFdiv f32_prec f32_emax.
Definition f32_eqb : f32 -> f32 -> bool := SFeqb.
Definition f32_ltb : f32 -> f32 -> bool := SFltb.

(** [+0.0f] *)
Definition f32_zero : f32 := S754_zero false.

(** [(float) z] for an [int] z. *)
Definition f32_of_Z (z : Z) : f32 := binary_normalize f32_prec f32_emax z 0 false.

(** The literal [n/d] written in decimal, e.g. [0.01f] is [f32_lit 1 100]:
    the quotient is rounded once, to nearest even. *)
Definition f32_lit (n d : positive) : f32 :=
  f32_div (S754_finite false n 0) (S754_finite false d 0).

(** The exact value of a finite float, as a rational. *)
Definition f32_value (x : f32) : option Q :=
  match x with
  | S754_zero _ => Some 0%Q
  | S754_finite s m e =>
      let mag := (inject_Z (Z.pos m) * Qpower 2 e)%Q in
      Some (if s then Qopp mag else mag)
  | _ => None
  end.

Record vec3 : Type := mk_vec3 { vx : f32; vy : f32; vz : f32 }.

Definition vec3_eqb (a b : vec3) : bool :=
  f32_eqb (vx a) (vx b) && f32_eqb (vy a) (vy b) && f32_eqb (vz a) (vz b).

(** glm matrices, kept symbolic: the value is the call that produced it. *)
Inductive mat4 : Type :=
| mat4_identity                                   (* glm::mat4(1.0f) *)
| glm_rotate (m : mat4) (angle : f32) (axis : vec3)
| glm_lookAt (eye center up : vec3)
| glm_perspective (fovy aspect zNear zFar : f32).

(** [glm::radians]: degrees times the constant pi/180, in [float]. *)
Definition glm_radians (degrees : f32) : f32 :=
  f32_mul degrees
    (f32_lit 1745329251994329576923690768489 100000000000000000000000000000000).

(** The aspect ratio a projection matrix was computed with. *)
Definition aspect_of (m : mat4) : option f32 :=
  match m with
  | glm_perspective _ a _ _ => Some a
  | _ => None
  end.

Definition y_axis : vec3 := mk_vec3 f32_zero (f32_of_Z 1) f32_zero.

(* ================================================================= *)
(** ** The environment: GLFW, GLAD and OpenGL *)

Definition GLuint : Type := N.
Definition GLint : Type := Z.

Inductive Key : Type := KEY_ESCAPE | KEY_R | KEY_G | KEY_B | KEY_Y | KEY_W.

Inductive ShaderKind : Type := GL_VERTEX_SHADER | GL_FRAGMENT_SHADER.

(** What the host depends on in a shader's source text: the uniforms it
    declares, in order. *)
Record ShaderSource : Type := { src_uniforms : list string }.

Inductive UValue : Type := UMat4 (m : mat4) | UVec3 (v : vec3).

(** What a program does, in the order of its text: the calls it makes, and
    the assignments to members of the renderer object. *)
Inductive Call : Type :=
| Assign (member : string)
| GlfwInit
| GlfwWindowHint (hint : string) (value : string)
| GlfwCreateWindow (width height : Z) (title : string)
| GlfwTerminate
| GlfwMakeContextCurrent
| GlfwSetFramebufferSizeCallback
| GladLoadGLLoader
| GlfwWindowShouldClose
| GlfwSetWindowShouldClose (value : bool)
| GlfwGetKey (k : Key)
| GlfwSwapBuffers
| GlfwPollEvents
| GlEnable (cap : string)
| GlViewport (x y width height : Z)
| GlGenVertexArrays (name : GLuint)
| GlGenBuffers (name : GLuint)
| GlGenTextures (name : GLuint)
| GlBindVertexArray (name : GLuint)
| GlBindBuffer (name : GLuint)
| GlBufferData (data : list f32)
| GlVertexAttribPointer (index : N) (size : Z) (stride_floats offset_floats : Z)
| GlEnableVertexAttribArray (index : N)
| GlCreateShader (kind : ShaderKind) (name : GLuint)
| GlShaderSource (shader : GLuint)
| GlCompileShader (shader : GLuint)
| GlGetShaderiv (shader : GLuint)
| GlGetShaderInfoLog (shader : GLuint)
| GlCreateProgram (name : GLuint)
| GlAttachShader (program shader : GLuint)
| GlLinkProgram (program : GLuint)
| GlGetProgramiv (program : GLuint)
| GlGetProgramInfoLog (program : GLuint)
| GlDeleteShader (shader : GLuint)
| GlClearColor (r g b a : f32)
| GlClear (color depth : bool)
| GlUseProgram (program : GLuint)
| GlGetUniformLocation (program : GLuint) (name : string)
| GlUniformMatrix4fv (location : GLint) (value : mat4)
| GlUniform3fv (location : GLint) (value : vec3)
| GlActiveTexture (tex_unit : N)
| GlBindTexture (name : GLuint)
| GlTexParameteri (pname : string) (param : string)
| GlTexImage2D (width height : Z)
| GlGenerateMipmap
| GlDrawArrays (first count : Z)
| GlDeleteVertexArrays (name : GLuint)
| GlDeleteBuffers (name : GLuint)
| GlDeleteProgram (program : GLuint)
| GlDeleteTextures (name : GLuint)
| Cerr (message : string)
| Cout (message : string).

(** The platform's answers, fixed for one run of a program. *)
Record Env : Type := {
  glfwInit_ok : bool;
  createWindow_ok : bool;
  gladLoad_ok : bool;
  vertex_compile_ok : bool;
  fragment_compile_ok : bool;
  link_ok : bool;
  link_keeps : string -> bool;      (* false: the uniform is optimised out *)
  buffer_alloc_ok : bool;           (* false: the driver rejects glBufferData *)
  texture_alloc_ok : bool;          (* false: the driver rejects glTexImage2D *)
  info_log : GLuint -> string;      (* the info log the driver keeps for an object *)
  uninitialized : string -> GLuint  (* what a member holds that was never assigned *)
}.

Definition compile_ok (e : Env) (kind : ShaderKind) : bool :=
  match kind with
  | GL_VERTEX_SHADER => vertex_compile_ok e
  | GL_FRAGMENT_SHADER => fragment_compile_ok e
  end.

(** Which keys are down. *)
Record KeyState : Type := {
  escape_down : bool;
  r_down : bool;
  g_down : bool;
  b_down : bool;
  y_down : bool;
  w_down : bool
}.

(** What happens during one iteration of the render loop. *)
Record FrameEnv : Type := {
  keys : KeyState;                  (* the keys that are down *)
  close_request : bool;             (* the user closes the window *)
  resize_to : option (Z * Z)        (* the framebuffer is resized *)
}.

(** [glfwGetKey(window, k) == GLFW_PRESS] during the iteration. *)
Definition key_down (fe : FrameEnv) (k : Key) : bool :=
  match k with
  | KEY_ESCAPE => escape_down (keys fe)
  | KEY_R => r_down (keys fe)
  | KEY_G => g_down (keys fe)
  | KEY_B => b_down (keys fe)
  | KEY_Y => y_down (keys fe)
  | KEY_W => w_down (keys fe)
  end.

Record Shader : Type := {
  sh_kind : ShaderKind;
  sh_source : ShaderSource;
  sh_compiled : bool
}.

Record Program : Type := {
  pr_declared : list string;        (* uniforms of the attached shaders *)
  pr_linked : bool;
  pr_active : list string;          (* location i is the i-th active uniform *)
  pr_values : gmap Z UValue
}.

Record World : Type := {
  env : Env;
  frame : FrameEnv;
  context : bool;                   (* an OpenGL context is current *)
  gl_loaded : bool;                 (* GLAD's function pointers are set *)
  should_close : bool;
  resize_cb : bool;                 (* a framebuffer-size callback is installed *)
  viewport : Z * Z * Z * Z;
  next_name : GLuint;
  vaos : gset GLuint;
  buffers : gset GLuint;
  textures : gset GLuint;
  shaders : gmap GLuint Shader;
  programs : gmap GLuint Program;
  current_program : GLuint;
  gl_error : bool;                  (* an OpenGL error has been recorded *)
  trace : list Call;                (* newest call first *)
  fault : bool;                     (* undefined behaviour was reached *)
  crashed : bool                    (* the process has been killed *)
}.

Definition none_down : KeyState :=
  {| escape_down := false; r_down := false; g_down := false; b_down := false;
     y_down := false; w_down := false |}.

Definition no_keys : FrameEnv :=
  {| keys := none_down; close_request := false; resize_to := None |}.

(** The world when [main] starts. The first name the driver hands out is 1. *)
Definition initial_world (e : Env) : World :=
  {| env := e; frame := no_keys; context := false; gl_loaded := false;
     should_close := false; resize_cb := false; viewport := (0, 0, 0, 0);
     next_name := 1%N; vaos := ∅; buffers := ∅; textures := ∅;
     shaders := ∅; programs := ∅; current_program := 0%N;
     gl_error := false; trace := []; fault := false; crashed := false |}.

(** Field updates. *)
Definition set_frame (v : FrameEnv) (w : World) : World :=
  let '(Build_World env0 _ context0 gl_loaded0 should_close0 resize_cb0
    viewport0 next_name0 vaos0 buffers0 textures0 shaders0 programs0
    current_program0 gl_error0 trace0 fault0 crashed0) := w in
  {| env := env0; frame := v; context := context0; gl_loaded := gl_loaded0;
     should_close := should_close0; resize_cb := resize_cb0;
     viewport := viewport0; next_name := next_name0; vaos := vaos0;
     buffers := buffers0; textures := textures0; shaders := shaders0;
     programs := programs0; current_program := current_program0;
     gl_error := gl_error0; trace := trace0; fault := fault0;
     crashed := crashed0 |}.

Definition set_context (v : bool) (w : World) : World :=
  let '(Build_World env0 frame0 _ gl_loaded0 should_close0 resize_cb0
    viewport0 next_name0 vaos0 buffers0 textures0 shaders0 programs0
    current_program0 gl_error0 trace0 fault0 crashed0) := w in
  {| env := env0; frame := frame0; context := v; gl_loaded := gl_loaded0;
     should_close := should_close0; resize_cb := resize_cb0;
     viewport := viewport0; next_name := next_name0; vaos := vaos0;
     buffers := buffers0; textures := textures0; shaders := shaders0;
     programs := programs0; current_program := current_program0;
     gl_error := gl_error0; trace := trace0; fault := fault0;
     crashed := crashed0 |}.

Definition set_gl_loaded (v : bool) (w : World) : World :=
  let '(Build_World env0 frame0 context0 _ should_close0 resize_cb0 viewport0
    next_name0 vaos0 buffers0 textures0 shaders0 programs0 current_program0
    gl_error0 trace0 fault0 crashed0) := w in
  {| env := env0; frame := frame0; context := context0; gl_loaded := v;
     should_close := should_close0; resize_cb := resize_cb0;
     viewport := viewport0; next_name := next_name0; vaos := vaos0;
     buffers := buffers0; textures := textures0; shaders := shaders0;
     programs := programs0; current_program := current_program0;
     gl_error := gl_error0; trace := trace0; fault := fault0;
     crashed := crashed0 |}.

Definition set_should_close (v : bool) (w : World) : World :=
  let '(Build_World env0 frame0 context0 gl_loaded0 _ resize_cb0 viewport0
    next_name0 vaos0 buffers0 textures0 shaders0 programs0 current_program0
    gl_error0 trace0 fault0 crashed0) := w in
  {| env := env0; frame := frame0; context := context0;
     gl_loaded := gl_loaded0; should_close := v; resize_cb := resize_cb0;
     viewport := viewport0; next_name := next_name0; vaos := vaos0;
     buffers := buffers0; textures := textures0; shaders := shaders0;
     programs := programs0; current_program := current_program0;
     gl_error := gl_error0; trace := trace0; fault := fault0;
     crashed := crashed0 |}.

Definition set_resize_cb (v : bool) (w : World) : World :=
  let '(Build_World env0 frame0 context0 gl_loaded0 should_close0 _ viewport0
    next_name0 vaos0 buffers0 textures0 shaders0 programs0 current_program0
    gl_error0 trace0 fault0 crashed0) := w in
  {| env := env0; frame := frame0; context := context0;
     gl_loaded := gl_loaded0; should_close := should_close0; resize_cb := v;
     viewport := viewport0; next_name := next_name0; vaos := vaos0;
     buffers := buffers0; textures := textures0; shaders := shaders0;
     programs := programs0; current_program := current_program0;
     gl_error := gl_error0; trace := trace0; fault := fault0;
     crashed := crashed0 |}.

Definition set_viewport (v : Z * Z * Z * Z) (w : World) : World :=
  let '(Build_World env0 frame0 context0 gl_loaded0 should_close0 resize_cb0 _
    next_name0 vaos0 buffers0 textures0 shaders0 programs0 current_program0
    gl_error0 trace0 fault0 crashed0) := w in
  {| env := env0; frame := frame0; context := context0;
     gl_loaded := gl_loaded0; should_close := should_close0;
     resize_cb := resize_cb0; viewport := v; next_name := next_name0;
     vaos := vaos0; buffers := buffers0; textures := textures0;
     shaders := shaders0; programs := programs0;
     current_program := current_program0; gl_error := gl_error0;
     trace := trace0; fault := fault0; crashed := crashed0 |}.

Definition set_next_name (v : GLuint) (w : World) : World :=
  let '(Build_World env0 frame0 context0 gl_loaded0 should_close0 resize_cb0
    viewport0 _ vaos0 buffers0 textures0 shaders0 programs0 current_program0
    gl_error0 trace0 fault0 crashed0) := w in
  {| env := env0; frame := frame0; context := context0;
     gl_loaded := gl_loaded0; should_close := should_close0;
     resize_cb := resize_cb0; viewport := viewport0; next_name := v;
     vaos := vaos0; buffers := buffers0; textures := textures0;
     shaders := shaders0; programs := programs0;
     current_program := current_program0; gl_error := gl_error0;
     trace := trace0; fault := fault0; crashed := crashed0 |}.

Definition set_vaos (v : gset GLuint) (w : World) : World :=
  let '(Build_World env0 frame0 context0 gl_loaded0 should_close0 resize_cb0
    viewport0 next_name0 _ buffers0 textures0 shaders0 programs0
    current_program0 gl_error0 trace0 fault0 crashed0) := w in
  {| env := env0; frame := frame0; context := context0;
     gl_loaded := gl_loaded0; should_close := should_close0;
     resize_cb := resize_cb0; viewport := viewport0; next_name := next_name0;
     vaos := v; buffers := buffers0; textures := textures0;
     shaders := shaders0; programs := programs0;
     current_program := current_program0; gl_error := gl_error0;
     trace := trace0; fault := fault0; crashed := crashed0 |}.

Definition set_buffers (v : gset GLuint) (w : World) : World :=
  let '(Build_World env0 frame0 context0 gl_loaded0 should_close0 resize_cb0
    viewport0 next_name0 vaos0 _ textures0 shaders0 programs0 current_program0
    gl_error0 trace0 fault0 crashed0) := w in
  {| env := env0; frame := frame0; context := context0;
     gl_loaded := gl_loaded0; should_close := should_close0;
     resize_cb := resize_cb0; viewport := viewport0; next_name := next_name0;
     vaos := vaos0; buffers := v; textures := textures0; shaders := shaders0;
     programs := programs0; current_program := current_program0;
     gl_error := gl_error0; trace := trace0; fault := fault0;
     crashed := crashed0 |}.

Definition set_textures (v : gset GLuint) (w : World) : World :=
  let '(Build_World env0 frame0 context0 gl_loaded0 should_close0 resize_cb0
    viewport0 next_name0 vaos0 buffers0 _ shaders0 programs0 current_program0
    gl_error0 trace0 fault0 crashed0) := w in
  {| env := env0; frame := frame0; context := context0;
     gl_loaded := gl_loaded0; should_close := should_close0;
     resize_cb := resize_cb0; viewport := viewport0; next_name := next_name0;
     vaos := vaos0; buffers := buffers0; textures := v; shaders := shaders0;
     programs := programs0; current_program := current_program0;
     gl_error := gl_error0; trace := trace0; fault := fault0;
     crashed := crashed0 |}.

Definition set_shaders (v : gmap GLuint Shader) (w : World) : World :=
  let '(Build_World env0 frame0 context0 gl_loaded0 should_close0 resize_cb0
    viewport0 next_name0 vaos0 buffers0 textures0 _ programs0 current_program0
    gl_error0 trace0 fault0 crashed0) := w in
  {| env := env0; frame := frame0; context := context0;
     gl_loaded := gl_loaded0; should_close := should_close0;
     resize_cb := resize_cb0; viewport := viewport0; next_name := next_name0;
     vaos := vaos0; buffers := buffers0; textures := textures0; shaders := v;
     programs := programs0; current_program := current_program0;
     gl_error := gl_error0; trace := trace0; fault := fault0;
     crashed := crashed0 |}.

Definition set_programs (v : gmap GLuint Program) (w : World) : World :=
  let '(Build_World env0 frame0 context0 gl_loaded0 should_close0 resize_cb0
    viewport0 next_name0 vaos0 buffers0 textures0 shaders0 _ current_program0
    gl_error0 trace0 fault0 crashed0) := w in
  {| env := env0; frame := frame0; context := context0;
     gl_loaded := gl_loaded0; should_close := should_close0;
     resize_cb := resize_cb0; viewport := viewport0; next_name := next_name0;
     vaos := vaos0; buffers := buffers0; textures := textures0;
     shaders := shaders0; programs := v; current_program := current_program0;
     gl_error := gl_error0; trace := trace0; fault := fault0;
     crashed := crashed0 |}.

Definition set_current_program (v : GLuint) (w : World) : World :=
  let '(Build_World env0 frame0 context0 gl_loaded0 should_close0 resize_cb0
    viewport0 next_name0 vaos0 buffers0 textures0 shaders0 programs0 _
    gl_error0 trace0 fault0 crashed0) := w in
  {| env := env0; frame := frame0; context := context0;
     gl_loaded := gl_loaded0; should_close := should_close0;
     resize_cb := resize_cb0; viewport := viewport0; next_name := next_name0;
     vaos := vaos0; buffers := buffers0; textures := textures0;
     shaders := shaders0; programs := programs0; current_program := v;
     gl_error := gl_error0; trace := trace0; fault := fault0;
     crashed := crashed0 |}.

Definition set_gl_error (v : bool) (w : World) : World :=
  let '(Build_World env0 frame0 context0 gl_loaded0 should_close0 resize_cb0
    viewport0 next_name0 vaos0 buffers0 textures0 shaders0 programs0
    current_program0 _ trace0 fault0 crashed0) := w in
  {| env := env0; frame := frame0; context := context0;
     gl_loaded := gl_loaded0; should_close := should_close0;
     resize_cb := resize_cb0; viewport := viewport0; next_name := next_name0;
     vaos := vaos0; buffers := buffers0; textures := textures0;
     shaders := shaders0; programs := programs0;
     current_program := current_program0; gl_error := v; trace := trace0;
     fault := fault0; crashed := crashed0 |}.

Definition set_trace (v : list Call) (w : World) : World :=
  let '(Build_World env0 frame0 context0 gl_loaded0 should_close0 resize_cb0
    viewport0 next_name0 vaos0 buffers0 textures0 shaders0 programs0
    current_program0 gl_error0 _ fault0 crashed0) := w in
  {| env := env0; frame := frame0; context := context0;
     gl_loaded := gl_loaded0; should_close := should_close0;
     resize_cb := resize_cb0; viewport := viewport0; next_name := next_name0;
     vaos := vaos0; buffers := buffers0; textures := textures0;
     shaders := shaders0; programs := programs0;
     current_program := current_program0; gl_error := gl_error0; trace := v;
     fault := fault0; crashed := crashed0 |}.

Definition set_fault (v : bool) (w : World) : World :=
  let '(Build_World env0 frame0 context0 gl_loaded0 should_close0 resize_cb0
    viewport0 next_name0 vaos0 buffers0 textures0 shaders0 programs0
    current_program0 gl_error0 trace0 _ crashed0) := w in
  {| env := env0; frame := frame0; context := context0;
     gl_loaded := gl_loaded0; should_close := should_close0;
     resize_cb := resize_cb0; viewport := viewport0; next_name := next_name0;
     vaos := vaos0; buffers := buffers0; textures := textures0;
     shaders := shaders0; programs := programs0;
     current_program := current_program0; gl_error := gl_error0;
     trace := trace0; fault := v; crashed := crashed0 |}.

Definition set_crashed (v : bool) (w : World) : World :=
  let '(Build_World env0 frame0 context0 gl_loaded0 should_close0 resize_cb0
    viewport0 next_name0 vaos0 buffers0 textures0 shaders0 programs0
    current_program0 gl_error0 trace0 fault0 _) := w in
  {| env := env0; frame := frame0; context := context0;
     gl_loaded := gl_loaded0; should_close := should_close0;
     resize_cb := resize_cb0; viewport := viewport0; next_name := next_name0;
     vaos := vaos0; buffers := buffers0; textures := textures0;
     shaders := shaders0; programs := programs0;
     current_program := current_program0; gl_error := gl_error0;
     trace := trace0; fault := fault0; crashed := v |}.

(* ================================================================= *)
(** ** Programs as state transformers

    A method of a renderer class reads and writes the object's members (of
    type [R]) and the world. *)

Definition M (R A : Type) : Type := R -> World -> A * R * World.

Definition ret {R A} (a : A) : M R A := fun r w => (a, r, w).

Definition bind {R A B} (m : M R A) (k : A -> M R B) : M R B :=
  fun r w => let '(a, r1, w1) := m r w in k a r1 w1.

Notation "x <- c1 ;; c2" := (bind c1 (fun x => c2))
  (at level 100, c1 at next level, right associativity).
Notation "c1 ;; c2" := (bind c1 (fun _ => c2))
  (at level 100, right associativity).

Definition getR {R} : M R R := fun r w => (r, r, w).
Definition when {R} (b : bool) (m : M R unit) : M R unit := if b then m else ret tt.

Definition result {R A} (x : A * R * World) : A := fst (fst x).
Definition object {R A} (x : A * R * World) : R := snd (fst x).
Definition world {R A} (x : A * R * World) : World := snd x.

Definition log (c : Call) (w : World) : World := set_trace (c :: trace w) w.

(** A process that has been killed does nothing more: from a world that has
    [crashed], no statement of the program changes the world. [alive w w']
    is the world after a statement that would lead from [w] to [w']. (What
    the model computes for the object and for results from there on is of no
    consequence.) *)
Definition alive (w w' : World) : World := if crashed w then w else w'.

(** An assignment to the member called [name]. *)
Definition assign {R} (name : string) (f : R -> R) : M R unit :=
  fun r w => (tt, f r, alive w (log (Assign name) w)).

(** The calls [m] makes when a running process executes it from [r], [w],
    oldest first. *)
Definition emitted {R A} (m : M R A) (r : R) (w : World) : list Call :=
  rev (trace (world (m r (set_crashed false (set_trace [] w))))).

Section Primitives.
Context {R : Type}.

(** *** Members and streams *)

Definition unassigned {A} (h : option A) : bool :=
  match h with Some _ => false | None => true end.

(** Reading the member called [name]. Reading a member that no constructor
    or method has assigned is undefined behaviour; the process goes on with
    whatever the member's storage holds. *)
Definition rd (name : string) (h : option GLuint) : M R GLuint :=
  fun r w => (default (uninitialized (env w) name) h, r,
              alive w (set_fault (unassigned h || fault w) w)).

(** [std::cerr << ... << std::endl] and [std::cout << ... << std::endl]:
    [msg] is the text written before the final end of line. *)
Definition cerr (msg : string) : M R unit :=
  fun r w => (tt, r, alive w (log (Cerr msg) w)).
Definition cout (msg : string) : M R unit :=
  fun r w => (tt, r, alive w (log (Cout msg) w)).

(** The character [\n] (code 10) inside a string literal. *)
Definition newline_char : Ascii.ascii :=
  Ascii.Ascii false true false true false false false false.
Definition newline : string := String newline_char EmptyString.

(** *** GLFW and GLAD *)

Definition glfwInit : M R bool :=
  fun r w => (glfwInit_ok (env w), r, alive w (log GlfwInit w)).

Definition glfwWindowHint (hint value : string) : M R unit :=
  fun r w => (tt, r, alive w (log (GlfwWindowHint hint value) w)).

(** Returns the window, or [0] (a null pointer) when creation fails. *)
Definition glfwCreateWindow (width height : Z) (title : string) : M R N :=
  fun r w => ((if createWindow_ok (env w) then 1%N else 0%N), r,
              alive w (log (GlfwCreateWindow width height title) w)).

Definition glfwMakeContextCurrent (window : N) : M R unit :=
  fun r w => (tt, r, alive w (set_context (negb (window =? 0)%N)
                                (log GlfwMakeContextCurrent w))).

Definition glfwSetFramebufferSizeCallback : M R unit :=
  fun r w => (tt, r, alive w (set_resize_cb true
                                (log GlfwSetFramebufferSizeCallback w))).

(** Loading needs a current context; on success the entry points are set. *)
Definition gladLoadGLLoader : M R bool :=
  fun r w => let ok := context w && gladLoad_ok (env w) in
             (ok, r, alive w (set_gl_loaded (gl_loaded w || ok)
                                (log GladLoadGLLoader w))).

(** Destroys the window and its context; allowed at any time. *)
Definition glfwTerminate : M R unit :=
  fun r w => (tt, r, alive w (set_context false (log GlfwTerminate w))).

Definition glfwWindowShouldClose : M R bool :=
  fun r w => (should_close w, r, alive w (log GlfwWindowShouldClose w)).

Definition glfwSetWindowShouldClose (v : bool) : M R unit :=
  fun r w => (tt, r, alive w (set_should_close v
                                (log (GlfwSetWindowShouldClose v) w))).

(** [glfwGetKey(window, k) == GLFW_PRESS] *)
Definition glfwGetKey (k : Key) : M R bool :=
  fun r w => (key_down (frame w) k, r, alive w (log (GlfwGetKey k) w)).

Definition glfwSwapBuffers : M R unit :=
  fun r w => (tt, r, alive w (log GlfwSwapBuffers w)).

(** Delivers this iteration's events: a close request sets the close flag, a
    resize runs the installed framebuffer-size callback [cb]. *)
Definition glfwPollEvents (cb : Z -> Z -> M R unit) : M R unit :=
  fun r w =>
    if crashed w then (tt, r, w) else
    let w1 := set_should_close (should_close w || close_request (frame w))
                (log GlfwPollEvents w) in
    match resize_to (frame w) with
    | Some (width, height) => if resize_cb w then cb width height r w1 else (tt, r, w1)
    | None => (tt, r, w1)
    end.

(** The user's actions during the iteration that starts now. *)
Definition begin_frame (fe : FrameEnv) : M R unit :=
  fun r w => (tt, r, set_frame fe w).

(** *** OpenGL

    GLAD leaves every entry point null until [gladLoadGLLoader] has
    succeeded: a call through one of them kills the process in that call,
    which is never made. So does, here, a command issued without a current
    context, which is undefined (no program reaches it with the entry
    points loaded). Otherwise the call returns [val] and has the effect
    [eff]. *)

(** OpenGL can be used: the process runs, the entry points are loaded and a
    context is current. *)
Definition gl_ready (w : World) : bool :=
  gl_loaded w && context w && negb (crashed w).

Definition crash (w : World) : World := set_crashed true (set_fault true w).

Definition gl_call {A} (c : Call) (dflt : A) (val : World -> A) (eff : World -> World)
  : M R A :=
  fun r w => if gl_ready w
             then (val w, r, eff (log c w))
             else (dflt, r, alive w (crash w)).

Definition gl_cmd (c : Call) (eff : World -> World) : M R unit :=
  gl_call c tt (fun _ => tt) eff.

Definition gl_gen (mk : GLuint -> Call) (eff : GLuint -> World -> World) : M R GLuint :=
  fun r w =>
    let n := next_name w in
    gl_call (mk n) 0%N (fun _ => n) (fun w1 => eff n (set_next_name (N.succ n) w1)) r w.

Definition glEnable (cap : string) : M R unit := gl_cmd (GlEnable cap) id.

Definition glViewport (x y width height : Z) : M R unit :=
  gl_cmd (GlViewport x y width height) (set_viewport (x, y, width, height)).

Definition glGenVertexArrays : M R GLuint :=
  gl_gen GlGenVertexArrays (fun n w => set_vaos ({[ n ]} ∪ vaos w) w).

Definition glGenBuffers : M R GLuint :=
  gl_gen GlGenBuffers (fun n w => set_buffers ({[ n ]} ∪ buffers w) w).

Definition glGenTextures : M R GLuint :=
  gl_gen GlGenTextures (fun n w => set_textures ({[ n ]} ∪ textures w) w).

Definition glBindVertexArray (n : GLuint) : M R unit := gl_cmd (GlBindVertexArray n) id.
Definition glBindBuffer (n : GLuint) : M R unit := gl_cmd (GlBindBuffer n) id.

(** The driver may reject the allocation; that only records an error. *)
Definition glBufferData (data : list f32) : M R unit :=
  gl_cmd (GlBufferData data)
    (fun w => set_gl_error (negb (buffer_alloc_ok (env w)) || gl_error w) w).

Definition glVertexAttribPointer (index : N) (size stride offset : Z) : M R unit :=
  gl_cmd (GlVertexAttribPointer index size stride offset) id.

Definition glEnableVertexAttribArray (index : N) : M R unit :=
  gl_cmd (GlEnableVertexAttribArray index) id.

Definition glCreateShader (kind : ShaderKind) : M R GLuint :=
  gl_gen (GlCreateShader kind)
    (fun n w => set_shaders
       (<[ n := {| sh_kind := kind; sh_source := {| src_uniforms := [] |};
                   sh_compiled := false |} ]> (shaders w)) w).

Definition glShaderSource (sh : GLuint) (src : ShaderSource) : M R unit :=
  gl_cmd (GlShaderSource sh)
    (fun w => set_shaders
       (alter (fun s => {| sh_kind := sh_kind s; sh_source := src;
                           sh_compiled := sh_compiled s |}) sh (shaders w)) w).

Definition glCompileShader (sh : GLuint) : M R unit :=
  gl_cmd (GlCompileShader sh)
    (fun w => set_shaders
       (alter (fun s => {| sh_kind := sh_kind s; sh_source := sh_source s;
                           sh_compiled := compile_ok (env w) (sh_kind s) |})
              sh (shaders w)) w).

(** [glGetShaderiv(sh, GL_COMPILE_STATUS, &success)] *)
Definition glGetShaderiv (sh : GLuint) : M R bool :=
  gl_call (GlGetShaderiv sh) false
    (fun w => match shaders w !! sh with
              | Some s => sh_compiled s
              | None => false
              end) id.

(** [glGetShaderInfoLog(sh, 512, nullptr, infoLog)]: the text now in
    [infoLog]. *)
Definition glGetShaderInfoLog (sh : GLuint) : M R string :=
  gl_call (GlGetShaderInfoLog sh) EmptyString (fun w => info_log (env w) sh) id.

Definition glCreateProgram : M R GLuint :=
  gl_gen GlCreateProgram
    (fun n w => set_programs
       (<[ n := {| pr_declared := []; pr_linked := false; pr_active := [];
                   pr_values := ∅ |} ]> (programs w)) w).

(** The program now also declares the uniforms of the shader's source. *)
Definition glAttachShader (p sh : GLuint) : M R unit :=
  gl_cmd (GlAttachShader p sh)
    (fun w =>
       set_programs
         (alter (fun pr =>
                   {| pr_declared :=
                        pr_declared pr ++
                        match shaders w !! sh with
                        | Some s => src_uniforms (sh_source s)
                        | None => []
                        end;
                      pr_linked := pr_linked pr; pr_active := pr_active pr;
                      pr_values := pr_values pr |}) p (programs w)) w).

(** After a successful link the active uniforms are the declared ones the
    linker keeps; their locations are their positions in that list. *)
Definition glLinkProgram (p : GLuint) : M R unit :=
  gl_cmd (GlLinkProgram p)
    (fun w =>
       set_programs
         (alter (fun pr =>
                   {| pr_declared := pr_declared pr; pr_linked := link_ok (env w);
                      pr_active := if link_ok (env w)
                                   then List.filter (link_keeps (env w)) (pr_declared pr)
                                   else [];
                      pr_values := ∅ |}) p (programs w)) w).

(** [glGetProgramiv(p, GL_LINK_STATUS, &success)] *)
Definition glGetProgramiv (p : GLuint) : M R bool :=
  gl_call (GlGetProgramiv p) false
    (fun w => match programs w !! p with
              | Some pr => pr_linked pr
              | None => false
              end) id.

(** [glGetProgramInfoLog(p, 512, nullptr, infoLog)]: the text now in
    [infoLog]. *)
Definition glGetProgramInfoLog (p : GLuint) : M R string :=
  gl_call (GlGetProgramInfoLog p) EmptyString (fun w => info_log (env w) p) id.

Definition glDeleteShader (sh : GLuint) : M R unit :=
  gl_cmd (GlDeleteShader sh) (fun w => set_shaders (delete sh (shaders w)) w).

Definition glClearColor (r g b a : f32) : M R unit := gl_cmd (GlClearColor r g b a) id.
Definition glClear (color depth : bool) : M R unit := gl_cmd (GlClear color depth) id.

Definition glUseProgram (p : GLuint) : M R unit :=
  gl_cmd (GlUseProgram p) (set_current_program p).

(** The position of [name] among the active uniforms, or -1. *)
Fixpoint uniform_location (name : string) (active : list string) : GLint :=
  match active with
  | [] => -1
  | n :: rest =>
      if String.eqb n name then 0
      else let l := uniform_location name rest in
           if l <? 0 then -1 else l + 1
  end.

Definition has_program (p : GLuint) (ps : gmap GLuint Program) : bool :=
  match ps !! p with Some _ => true | None => false end.

Definition program_location (name : string) (p : GLuint) (ps : gmap GLuint Program)
  : GLint :=
  match ps !! p with
  | Some pr => uniform_location name (pr_active pr)
  | None => -1
  end.

(** The location of [name] in program [p], -1 when [name] is not active. *)
Definition glGetUniformLocation (p : GLuint) (name : string) : M R GLint :=
  gl_call (GlGetUniformLocation p name) (-1)
    (fun w => program_location name p (programs w))
    (fun w => set_gl_error (negb (has_program p (programs w)) || gl_error w) w).

(** [glUniform*] on the current program [cur]: location -1 is silently
    ignored, a location of the program receives the value, and any other
    location records GL_INVALID_OPERATION. *)
Definition uniform_accepts (loc : GLint) (cur : GLuint) (ps : gmap GLuint Program)
  : bool :=
  match ps !! cur with
  | Some pr => (0 <=? loc) && (loc <? Z.of_nat (length (pr_active pr)))
  | None => false
  end.

Definition with_values (pr : Program) (vals : gmap Z UValue) : Program :=
  {| pr_declared := pr_declared pr; pr_linked := pr_linked pr;
     pr_active := pr_active pr; pr_values := vals |}.

Definition uniform_store (loc : GLint) (v : UValue) (cur : GLuint)
    (ps : gmap GLuint Program) : gmap GLuint Program :=
  if uniform_accepts loc cur ps
  then alter (fun pr => with_values pr (<[ loc := v ]> (pr_values pr))) cur ps
  else ps.

Definition set_uniform (loc : GLint) (v : UValue) (w : World) : World :=
  set_programs (uniform_store loc v (current_program w) (programs w))
    (set_gl_error
       (negb (loc =? -1) && negb (uniform_accepts loc (current_program w) (programs w))
        || gl_error w)
       w).

Definition glUniformMatrix4fv (loc : GLint) (m : mat4) : M R unit :=
  gl_cmd (GlUniformMatrix4fv loc m) (set_uniform loc (UMat4 m)).

Definition glUniform3fv (loc : GLint) (v : vec3) : M R unit :=
  gl_cmd (GlUniform3fv loc v) (set_uniform loc (UVec3 v)).

Definition glActiveTexture (tex_unit : N) : M R unit := gl_cmd (GlActiveTexture tex_unit) id.
Definition glBindTexture (n : GLuint) : M R unit := gl_cmd (GlBindTexture n) id.

Definition glTexParameteri (pname param : string) : M R unit :=
  gl_cmd (GlTexParameteri pname param) id.

(** The driver may reject the allocation; that only records an error. *)
Definition glTexImage2D (width height : Z) : M R unit :=
  gl_cmd (GlTexImage2D width height)
    (fun w => set_gl_error (negb (texture_alloc_ok (env w)) || gl_error w) w).

Definition glGenerateMipmap : M R unit := gl_cmd GlGenerateMipmap id.

Definition glDrawArrays (first count : Z) : M R unit := gl_cmd (GlDrawArrays first count) id.

(** Deleting: unused names and 0 are silently ignored, except that
    [glDeleteProgram] records GL_INVALID_VALUE for an unused non-zero name. *)
Definition glDeleteVertexArrays (n : GLuint) : M R unit :=
  gl_cmd (GlDeleteVertexArrays n) (fun w => set_vaos (vaos w ∖ {[ n ]}) w).

Definition glDeleteBuffers (n : GLuint) : M R unit :=
  gl_cmd (GlDeleteBuffers n) (fun w => set_buffers (buffers w ∖ {[ n ]}) w).

Definition glDeleteTextures (n : GLuint) : M R unit :=
  gl_cmd (GlDeleteTextures n) (fun w => set_textures (textures w ∖ {[ n ]}) w).

Definition glDeleteProgram (p : GLuint) : M R unit :=
  gl_cmd (GlDeleteProgram p)
    (fun w =>
       set_programs (delete p (programs w))
         (set_gl_error
            (negb (p =? 0)%N && negb (has_program p (programs w)) || gl_error w) w)).

End Primitives.

(** How a process ends: [main] returned [code], or the process was killed. *)
Inductive Outcome : Type := Exited (code : Z) | Aborted.

(* ================================================================= *)
(** ** phong_triangle.cpp *)

Module Phong.

Definition vertexShaderSource : ShaderSource :=
  {| src_uniforms := ["model"; "view"; "projection"] |}.

Definition fragmentShaderSource : ShaderSource :=
  {| src_uniforms := ["lightPos"; "viewPos"; "lightColor"; "objectColor"] |}.

(** The members of [PhongTriangleRenderer]. [None] is a member that has not
    been assigned yet. *)
Record Renderer : Type := {
  window : option N;
  VAO : option GLuint;
  VBO : option GLuint;
  shaderProgram : option GLuint;
  width : Z;
  height : Z;
  lightPos : vec3;
  lightColor : vec3;
  objectColor : vec3;
  viewPos : vec3;
  model : mat4;
  view : mat4;
  projection : mat4;
  rotationAngle : f32
}.

Definition set_window (v : option N) (r : Renderer) : Renderer :=
  let '(Build_Renderer _ VAO0 VBO0 shaderProgram0 width0 height0 lightPos0
    lightColor0 objectColor0 viewPos0 model0 view0 projection0 rotationAngle0)
    := r in
  {| window := v; VAO := VAO0; VBO := VBO0; shaderProgram := shaderProgram0;
     width := width0; height := height0; lightPos := lightPos0;
     lightColor := lightColor0; objectColor := objectColor0;
     viewPos := viewPos0; model := model0; view := view0;
     projection := projection0; rotationAngle := rotationAngle0 |}.

Definition set_VAO (v : option GLuint) (r : Renderer) : Renderer :=
  let '(Build_Renderer window0 _ VBO0 shaderProgram0 width0 height0 lightPos0
    lightColor0 objectColor0 viewPos0 model0 view0 projection0 rotationAngle0)
    := r in
  {| window := window0; VAO := v; VBO := VBO0; shaderProgram := shaderProgram0;
     width := width0; height := height0; lightPos := lightPos0;
     lightColor := lightColor0; objectColor := objectColor0;
     viewPos := viewPos0; model := model0; view := view0;
     projection := projection0; rotationAngle := rotationAngle0 |}.

Definition set_VBO (v : option GLuint) (r : Renderer) : Renderer :=
  let '(Build_Renderer window0 VAO0 _ shaderProgram0 width0 height0 lightPos0
    lightColor0 objectColor0 viewPos0 model0 view0 projection0 rotationAngle0)
    := r in
  {| window := window0; VAO := VAO0; VBO := v; shaderProgram := shaderProgram0;
     width := width0; height := height0; lightPos := lightPos0;
     lightColor := lightColor0; objectColor := objectColor0;
     viewPos := viewPos0; model := model0; view := view0;
     projection := projection0; rotationAngle := rotationAngle0 |}.

Definition set_shaderProgram (v : option GLuint) (r : Renderer) : Renderer :=
  let '(Build_Renderer window0 VAO0 VBO0 _ width0 height0 lightPos0
    lightColor0 objectColor0 viewPos0 model0 view0 projection0 rotationAngle0)
    := r in
  {| window := window0; VAO := VAO0; VBO := VBO0; shaderProgram := v;
     width := width0; height := height0; lightPos := lightPos0;
     lightColor := lightColor0; objectColor := objectColor0;
     viewPos := viewPos0; model := model0; view := view0;
     projection := projection0; rotationAngle := rotationAngle0 |}.

Definition set_objectColor (v : vec3) (r : Renderer) : Renderer :=
  let '(Build_Renderer window0 VAO0 VBO0 shaderProgram0 width0 height0
    lightPos0 lightColor0 _ viewPos0 model0 view0 projection0 rotationAngle0)
    := r in
  {| window := window0; VAO := VAO0; VBO := VBO0;
     shaderProgram := shaderProgram0; width := width0; height := height0;
     lightPos := lightPos0; lightColor := lightColor0; objectColor := v;
     viewPos := viewPos0; model := model0; view := view0;
     projection := projection0; rotationAngle := rotationAngle0 |}.

Definition set_model (v : mat4) (r : Renderer) : Renderer :=
  let '(Build_Renderer window0 VAO0 VBO0 shaderProgram0 width0 height0
    lightPos0 lightColor0 objectColor0 viewPos0 _ view0 projection0
    rotationAngle0) := r in
  {| window := window0; VAO := VAO0; VBO := VBO0;
     shaderProgram := shaderProgram0; width := width0; height := height0;
     lightPos := lightPos0; lightColor := lightColor0;
     objectColor := objectColor0; viewPos := viewPos0; model := v;
     view := view0; projection := projection0;
     rotationAngle := rotationAngle0 |}.

Definition set_rotationAngle (v : f32) (r : Renderer) : Renderer :=
  let '(Build_Renderer window0 VAO0 VBO0 shaderProgram0 width0 height0
    lightPos0 lightColor0 objectColor0 viewPos0 model0 view0 projection0 _) :=
    r in
  {| window := window0; VAO := VAO0; VBO := VBO0;
     shaderProgram := shaderProgram0; width := width0; height := height0;
     lightPos := lightPos0; lightColor := lightColor0;
     objectColor := objectColor0; viewPos := viewPos0; model := model0;
     view := view0; projection := projection0; rotationAngle := v |}.

(** Reading the handle member called [name]. *)
Definition member (name : string) (f : Renderer -> option GLuint) : M Renderer GLuint :=
  fun r w => rd name (f r) r w.

(** The constructor: [window], [VAO], [VBO] and [shaderProgram] are left
    unassigned. *)
Definition PhongTriangleRenderer : Renderer :=
  let viewPos0 := mk_vec3 f32_zero f32_zero (f32_of_Z 3) in
  {| window := None; VAO := None; VBO := None; shaderProgram := None;
     width := 800; height := 600;
     lightPos := mk_vec3 (f32_of_Z 2) (f32_of_Z 2) (f32_of_Z 2);
     lightColor := mk_vec3 (f32_of_Z 1) (f32_of_Z 1) (f32_of_Z 1);
     objectColor := mk_vec3 (f32_lit 3 10) (f32_lit 7 10) (f32_lit 9 10);
     viewPos := viewPos0;
     model := mat4_identity;
     view := glm_lookAt viewPos0 (mk_vec3 f32_zero f32_zero f32_zero)
                        (mk_vec3 f32_zero (f32_of_Z 1) f32_zero);
     projection := glm_perspective (glm_radians (f32_of_Z 45))
                     (f32_div (f32_of_Z 800) (f32_of_Z 600))
                     (f32_lit 1 10) (f32_of_Z 100);
     rotationAngle := f32_zero |}.

Definition vertices : list f32 :=
  let h := f32_lit 1 2 in
  let z := f32_zero in
  let o := f32_of_Z 1 in
  [ z; h; z;             z; z; o;
    SFopp h; SFopp h; z; z; z; o;
    h; SFopp h; z;       z; z; o ].

Definition setupBuffers : M Renderer unit :=
  vao <- glGenVertexArrays ;; assign "VAO" (set_VAO (Some vao)) ;;
  vbo <- glGenBuffers ;; assign "VBO" (set_VBO (Some vbo)) ;;
  (h <- member "VAO" VAO ;; glBindVertexArray h) ;;
  (h <- member "VBO" VBO ;; glBindBuffer h) ;;
  glBufferData vertices ;;
  glVertexAttribPointer 0%N 3 6 0 ;;
  glEnableVertexAttribArray 0%N ;;
  glVertexAttribPointer 1%N 3 6 3 ;;
  glEnableVertexAttribArray 1%N ;;
  glBindVertexArray 0%N.

Definition createShaders : M Renderer bool :=
  vertexShader <- glCreateShader GL_VERTEX_SHADER ;;
  glShaderSource vertexShader vertexShaderSource ;;
  glCompileShader vertexShader ;;
  success <- glGetShaderiv vertexShader ;;
  if negb success then
    infoLog <- glGetShaderInfoLog vertexShader ;;
    cerr ("Vertex shader compilation failed: " ++ infoLog) ;;
    ret false
  else
  fragmentShader <- glCreateShader GL_FRAGMENT_SHADER ;;
  glShaderSource fragmentShader fragmentShaderSource ;;
  glCompileShader fragmentShader ;;
  success <- glGetShaderiv fragmentShader ;;
  if negb success then
    infoLog <- glGetShaderInfoLog fragmentShader ;;
    cerr ("Fragment shader compilation failed: " ++ infoLog) ;;
    ret false
  else
  p <- glCreateProgram ;; assign "shaderProgram" (set_shaderProgram (Some p)) ;;
  (p <- member "shaderProgram" shaderProgram ;; glAttachShader p vertexShader) ;;
  (p <- member "shaderProgram" shaderProgram ;; glAttachShader p fragmentShader) ;;
  (p <- member "shaderProgram" shaderProgram ;; glLinkProgram p) ;;
  success <- (p <- member "shaderProgram" shaderProgram ;; glGetProgramiv p) ;;
  if negb success then
    infoLog <- (p <- member "shaderProgram" shaderProgram ;; glGetProgramInfoLog p) ;;
    cerr ("Shader program linking failed: " ++ infoLog) ;;
    ret false
  else
  glDeleteShader vertexShader ;;
  glDeleteShader fragmentShader ;;
  ret true.

Definition framebufferSizeCallback (width height : Z) : M Renderer unit :=
  glViewport 0 0 width height.

Definition init : M Renderer bool :=
  ok <- glfwInit ;;
  if negb ok then
    cerr "Failed to initialize GLFW" ;;
    ret false
  else
  glfwWindowHint "GLFW_CONTEXT_VERSION_MAJOR" "3" ;;
  glfwWindowHint "GLFW_CONTEXT_VERSION_MINOR" "3" ;;
  glfwWindowHint "GLFW_OPENGL_PROFILE" "GLFW_OPENGL_CORE_PROFILE" ;;
  r <- getR ;;
  win <- glfwCreateWindow (width r) (height r) "Phong Triangle Demo" ;;
  assign "window" (set_window (Some win)) ;;
  if (win =? 0)%N then
    cerr "Failed to create GLFW window" ;;
    glfwTerminate ;;
    ret false
  else
  glfwMakeContextCurrent win ;;
  glfwSetFramebufferSizeCallback ;;
  ok <- gladLoadGLLoader ;;
  if negb ok then
    cerr "Failed to initialize GLAD" ;;
    ret false
  else
  ok <- createShaders ;;
  if negb ok then
    ret false
  else
  setupBuffers ;;
  glEnable "GL_DEPTH_TEST" ;;
  ret true.

Definition render : M Renderer unit :=
  glClearColor (f32_lit 1 10) (f32_lit 1 10) (f32_lit 1 10) (f32_of_Z 1) ;;
  glClear true true ;;
  (p <- member "shaderProgram" shaderProgram ;; glUseProgram p) ;;
  assign "rotationAngle" (fun r => set_rotationAngle (f32_add (rotationAngle r) (f32_lit 1 100)) r) ;;
  assign "model" (fun r => set_model (glm_rotate mat4_identity (rotationAngle r) y_axis) r) ;;
  modelLoc <- (p <- member "shaderProgram" shaderProgram ;; glGetUniformLocation p "model") ;;
  viewLoc <- (p <- member "shaderProgram" shaderProgram ;; glGetUniformLocation p "view") ;;
  projLoc <- (p <- member "shaderProgram" shaderProgram ;; glGetUniformLocation p "projection") ;;
  lightPosLoc <- (p <- member "shaderProgram" shaderProgram ;; glGetUniformLocation p "lightPos") ;;
  lightColorLoc <- (p <- member "shaderProgram" shaderProgram ;; glGetUniformLocation p "lightColor") ;;
  objectColorLoc <- (p <- member "shaderProgram" shaderProgram ;; glGetUniformLocation p "objectColor") ;;
  viewPosLoc <- (p <- member "shaderProgram" shaderProgram ;; glGetUniformLocation p "viewPos") ;;
  (r <- getR ;; glUniformMatrix4fv modelLoc (model r)) ;;
  (r <- getR ;; glUniformMatrix4fv viewLoc (view r)) ;;
  (r <- getR ;; glUniformMatrix4fv projLoc (projection r)) ;;
  (r <- getR ;; glUniform3fv lightPosLoc (lightPos r)) ;;
  (r <- getR ;; glUniform3fv lightColorLoc (lightColor r)) ;;
  (r <- getR ;; glUniform3fv objectColorLoc (objectColor r)) ;;
  (r <- getR ;; glUniform3fv viewPosLoc (viewPos r)) ;;
  (h <- member "VAO" VAO ;; glBindVertexArray h) ;;
  glDrawArrays 0 3 ;;
  glBindVertexArray 0%N.

Definition red : vec3 := mk_vec3 (f32_lit 9 10) (f32_lit 3 10) (f32_lit 3 10).
Definition green : vec3 := mk_vec3 (f32_lit 3 10) (f32_lit 9 10) (f32_lit 3 10).
Definition blue : vec3 := mk_vec3 (f32_lit 3 10) (f32_lit 3 10) (f32_lit 9 10).
Definition yellow : vec3 := mk_vec3 (f32_lit 9 10) (f32_lit 9 10) (f32_lit 3 10).

Definition processInput : M Renderer unit :=
  (pressed <- glfwGetKey KEY_ESCAPE ;; when pressed (glfwSetWindowShouldClose true)) ;;
  (pressed <- glfwGetKey KEY_R ;; when pressed (assign "objectColor" (set_objectColor red))) ;;
  (pressed <- glfwGetKey KEY_G ;; when pressed (assign "objectColor" (set_objectColor green))) ;;
  (pressed <- glfwGetKey KEY_B ;; when pressed (assign "objectColor" (set_objectColor blue))) ;;
  (pressed <- glfwGetKey KEY_Y ;; when pressed (assign "objectColor" (set_objectColor yellow))).

(** One iteration of the loop in [run], during which the user does [fe]. *)
Definition iteration (fe : FrameEnv) : M Renderer unit :=
  begin_frame fe ;;
  processInput ;;
  render ;;
  glfwSwapBuffers ;;
  glfwPollEvents framebufferSizeCallback.

(** The loop of [run], over the iterations the user's actions are given for.
    The result tells whether the loop was left. *)
Fixpoint run (frames : list FrameEnv) : M Renderer bool :=
  closing <- glfwWindowShouldClose ;;
  if closing then ret true
  else match frames with
       | [] => ret false
       | fe :: rest => iteration fe ;; run rest
       end.

(** The loop body repeated, once for each element of [frames]. *)
Fixpoint iterations (frames : list FrameEnv) : M Renderer unit :=
  match frames with
  | [] => ret tt
  | fe :: rest => iteration fe ;; iterations rest
  end.

(** The colour keys in the order [processInput] checks them. *)
Definition color_keys : list (Key * vec3) :=
  [(KEY_R, red); (KEY_G, green); (KEY_B, blue); (KEY_Y, yellow)].

(** The uniforms [render] offers, in the order it sets them. *)
Definition offered (r : Renderer) : list (string * UValue) :=
  [("model", UMat4 (model r)); ("view", UMat4 (view r));
   ("projection", UMat4 (projection r)); ("lightPos", UVec3 (lightPos r));
   ("lightColor", UVec3 (lightColor r)); ("objectColor", UVec3 (objectColor r));
   ("viewPos", UVec3 (viewPos r))].

Definition cleanup : M Renderer unit :=
  (h <- member "VAO" VAO ;; glDeleteVertexArrays h) ;;
  (h <- member "VBO" VBO ;; glDeleteBuffers h) ;;
  (p <- member "shaderProgram" shaderProgram ;; glDeleteProgram p) ;;
  glfwTerminate.

(** The body of [main]: the value returned, or [None] while the loop is
    still running when [frames] ends. *)
Definition main_body (frames : list FrameEnv) : M Renderer (option Z) :=
  ok <- init ;;
  if negb ok then
    cerr "Failed to initialize renderer" ;;
    ret (Some (-1))
  else
  cout "Phong Triangle Demo" ;;
  cout "Controls:" ;;
  cout "  R - Red color" ;;
  cout "  G - Green color" ;;
  cout "  B - Blue color" ;;
  cout "  Y - Yellow color" ;;
  cout "  ESC - Exit" ;;
  left <- run frames ;;
  ret (if left then Some 0 else None).

(** [main], with the construction of [renderer] and, on return, its
    destructor, which calls [cleanup]. *)
Definition main (e : Env) (frames : list FrameEnv) : option Z * Renderer * World :=
  (code <- main_body frames ;;
   match code with
   | Some c => cleanup ;; ret (Some c)
   | None => ret None
   end) PhongTriangleRenderer (initial_world e).

End Phong.

(* ================================================================= *)
(** ** textured_triangle.cpp *)

Module Textured.

Definition vertexShaderSource : ShaderSource :=
  {| src_uniforms := ["model"; "view"; "projection"] |}.

Definition fragmentShaderSource : ShaderSource :=
  {| src_uniforms := ["texture1"; "objectColor"] |}.

(** The members of [TexturedTriangleRenderer]. [None] is a member that has
    not been assigned yet. *)
Record Renderer : Type := {
  window : option N;
  VAO : option GLuint;
  VBO : option GLuint;
  shaderProgram : option GLuint;
  texture : option GLuint;
  width : Z;
  height : Z;
  objectColor : vec3;
  model : mat4;
  view : mat4;
  projection : mat4;
  rotationAngle : f32
}.

Definition set_window (v : option N) (r : Renderer) : Renderer :=
  let '(Build_Renderer _ VAO0 VBO0 shaderProgram0 texture0 width0 height0
    objectColor0 model0 view0 projection0 rotationAngle0) := r in
  {| window := v; VAO := VAO0; VBO := VBO0; shaderProgram := shaderProgram0;
     texture := texture0; width := width0; height := height0;
     objectColor := objectColor0; model := model0; view := view0;
     projection := projection0; rotationAngle := rotationAngle0 |}.

Definition set_VAO (v : option GLuint) (r : Renderer) : Renderer :=
  let '(Build_Renderer window0 _ VBO0 shaderProgram0 texture0 width0 height0
    objectColor0 model0 view0 projection0 rotationAngle0) := r in
  {| window := window0; VAO := v; VBO := VBO0; shaderProgram := shaderProgram0;
     texture := texture0; width := width0; height := height0;
     objectColor := objectColor0; model := model0; view := view0;
     projection := projection0; rotationAngle := rotationAngle0 |}.

Definition set_VBO (v : option GLuint) (r : Renderer) : Renderer :=
  let '(Build_Renderer window0 VAO0 _ shaderProgram0 texture0 width0 height0
    objectColor0 model0 view0 projection0 rotationAngle0) := r in
  {| window := window0; VAO := VAO0; VBO := v; shaderProgram := shaderProgram0;
     texture := texture0; width := width0; height := height0;
     objectColor := objectColor0; model := model0; view := view0;
     projection := projection0; rotationAngle := rotationAngle0 |}.

Definition set_shaderProgram (v : option GLuint) (r : Renderer) : Renderer :=
  let '(Build_Renderer window0 VAO0 VBO0 _ texture0 width0 height0
    objectColor0 model0 view0 projection0 rotationAngle0) := r in
  {| window := window0; VAO := VAO0; VBO := VBO0; shaderProgram := v;
     texture := texture0; width := width0; height := height0;
     objectColor := objectColor0; model := model0; view := view0;
     projection := projection0; rotationAngle := rotationAngle0 |}.

Definition set_texture (v : option GLuint) (r : Renderer) : Renderer :=
  let '(Build_Renderer window0 VAO0 VBO0 shaderProgram0 _ width0 height0
    objectColor0 model0 view0 projection0 rotationAngle0) := r in
  {| window := window0; VAO := VAO0; VBO := VBO0;
     shaderProgram := shaderProgram0; texture := v; width := width0;
     height := height0; objectColor := objectColor0; model := model0;
     view := view0; projection := projection0;
     rotationAngle := rotationAngle0 |}.

Definition set_objectColor (v : vec3) (r : Renderer) : Renderer :=
  let '(Build_Renderer window0 VAO0 VBO0 shaderProgram0 texture0 width0
    height0 _ model0 view0 projection0 rotationAngle0) := r in
  {| window := window0; VAO := VAO0; VBO := VBO0;
     shaderProgram := shaderProgram0; texture := texture0; width := width0;
     height := height0; objectColor := v; model := model0; view := view0;
     projection := projection0; rotationAngle := rotationAngle0 |}.

Definition set_model (v : mat4) (r : Renderer) : Renderer :=
  let '(Build_Renderer window0 VAO0 VBO0 shaderProgram0 texture0 width0
    height0 objectColor0 _ view0 projection0 rotationAngle0) := r in
  {| window := window0; VAO := VAO0; VBO := VBO0;
     shaderProgram := shaderProgram0; texture := texture0; width := width0;
     height := height0; objectColor := objectColor0; model := v; view := view0;
     projection := projection0; rotationAngle := rotationAngle0 |}.

Definition set_rotationAngle (v : f32) (r : Renderer) : Renderer :=
  let '(Build_Renderer window0 VAO0 VBO0 shaderProgram0 texture0 width0
    height0 objectColor0 model0 view0 projection0 _) := r in
  {| window := window0; VAO := VAO0; VBO := VBO0;
     shaderProgram := shaderProgram0; texture := texture0; width := width0;
     height := height0; objectColor := objectColor0; model := model0;
     view := view0; projection := projection0; rotationAngle := v |}.

(** Reading the handle member called [name]. *)
Definition member (name : string) (f : Renderer -> option GLuint) : M Renderer GLuint :=
  fun r w => rd name (f r) r w.

Definition white : vec3 := mk_vec3 (f32_of_Z 1) (f32_of_Z 1) (f32_of_Z 1).
Definition red : vec3 := mk_vec3 (f32_of_Z 1) (f32_lit 3 10) (f32_lit 3 10).
Definition green : vec3 := mk_vec3 (f32_lit 3 10) (f32_of_Z 1) (f32_lit 3 10).
Definition blue : vec3 := mk_vec3 (f32_lit 3 10) (f32_lit 3 10) (f32_of_Z 1).

(** The constructor: [window], [VAO], [VBO], [shaderProgram] and [texture]
    are left unassigned. *)
Definition TexturedTriangleRenderer : Renderer :=
  {| window := None; VAO := None; VBO := None; shaderProgram := None;
     texture := None;
     width := 800; height := 600;
     objectColor := white;
     model := mat4_identity;
     view := glm_lookAt (mk_vec3 f32_zero f32_zero (f32_of_Z 3))
                        (mk_vec3 f32_zero f32_zero f32_zero)
                        (mk_vec3 f32_zero (f32_of_Z 1) f32_zero);
     projection := glm_perspective (glm_radians (f32_of_Z 45))
                     (f32_div (f32_of_Z 800) (f32_of_Z 600))
                     (f32_lit 1 10) (f32_of_Z 100);
     rotationAngle := f32_zero |}.

Definition vertices : list f32 :=
  let h := f32_lit 1 2 in
  let z := f32_zero in
  let o := f32_of_Z 1 in
  [ z; h; z;             h; o;
    SFopp h; SFopp h; z; z; z;
    h; SFopp h; z;       o; z ].

Definition setupBuffers : M Renderer unit :=
  vao <- glGenVertexArrays ;; assign "VAO" (set_VAO (Some vao)) ;;
  vbo <- glGenBuffers ;; assign "VBO" (set_VBO (Some vbo)) ;;
  (h <- member "VAO" VAO ;; glBindVertexArray h) ;;
  (h <- member "VBO" VBO ;; glBindBuffer h) ;;
  glBufferData vertices ;;
  glVertexAttribPointer 0%N 3 5 0 ;;
  glEnableVertexAttribArray 0%N ;;
  glVertexAttribPointer 1%N 2 5 3 ;;
  glEnableVertexAttribArray 1%N ;;
  glBindVertexArray 0%N.

(** The RGB bytes [loadTexture] writes for the texel at ([x], [y]). *)
Definition textureData (x y : Z) : Z * Z * Z :=
  let isEven := ((x / 8) + (y / 8)) mod 2 =? 0 in
  if isEven then (255, 255, 255) else (255, 100, 100).

Definition loadTexture : M Renderer bool :=
  let textureWidth := 64 in
  let textureHeight := 64 in
  t <- glGenTextures ;; assign "texture" (set_texture (Some t)) ;;
  (t <- member "texture" texture ;; glBindTexture t) ;;
  glTexParameteri "GL_TEXTURE_WRAP_S" "GL_REPEAT" ;;
  glTexParameteri "GL_TEXTURE_WRAP_T" "GL_REPEAT" ;;
  glTexParameteri "GL_TEXTURE_MIN_FILTER" "GL_LINEAR" ;;
  glTexParameteri "GL_TEXTURE_MAG_FILTER" "GL_LINEAR" ;;
  glTexImage2D textureWidth textureHeight ;;
  glGenerateMipmap ;;
  ret true.

Definition createShaders : M Renderer bool :=
  vertexShader <- glCreateShader GL_VERTEX_SHADER ;;
  glShaderSource vertexShader vertexShaderSource ;;
  glCompileShader vertexShader ;;
  success <- glGetShaderiv vertexShader ;;
  if negb success then
    infoLog <- glGetShaderInfoLog vertexShader ;;
    cerr ("Vertex shader compilation failed: " ++ infoLog) ;;
    ret false
  else
  fragmentShader <- glCreateShader GL_FRAGMENT_SHADER ;;
  glShaderSource fragmentShader fragmentShaderSource ;;
  glCompileShader fragmentShader ;;
  success <- glGetShaderiv fragmentShader ;;
  if negb success then
    infoLog <- glGetShaderInfoLog fragmentShader ;;
    cerr ("Fragment shader compilation failed: " ++ infoLog) ;;
    ret false
  else
  p <- glCreateProgram ;; assign "shaderProgram" (set_shaderProgram (Some p)) ;;
  (p <- member "shaderProgram" shaderProgram ;; glAttachShader p vertexShader) ;;
  (p <- member "shaderProgram" shaderProgram ;; glAttachShader p fragmentShader) ;;
  (p <- member "shaderProgram" shaderProgram ;; glLinkProgram p) ;;
  success <- (p <- member "shaderProgram" shaderProgram ;; glGetProgramiv p) ;;
  if negb success then
    infoLog <- (p <- member "shaderProgram" shaderProgram ;; glGetProgramInfoLog p) ;;
    cerr ("Shader program linking failed: " ++ infoLog) ;;
    ret false
  else
  glDeleteShader vertexShader ;;
  glDeleteShader fragmentShader ;;
  ret true.

Definition framebufferSizeCallback (width height : Z) : M Renderer unit :=
  glViewport 0 0 width height.

Definition init : M Renderer bool :=
  ok <- glfwInit ;;
  if negb ok then
    cerr "Failed to initialize GLFW" ;;
    ret false
  else
  glfwWindowHint "GLFW_CONTEXT_VERSION_MAJOR" "3" ;;
  glfwWindowHint "GLFW_CONTEXT_VERSION_MINOR" "3" ;;
  glfwWindowHint "GLFW_OPENGL_PROFILE" "GLFW_OPENGL_CORE_PROFILE" ;;
  r <- getR ;;
  win <- glfwCreateWindow (width r) (height r) "Textured Triangle Demo" ;;
  assign "window" (set_window (Some win)) ;;
  if (win =? 0)%N then
    cerr "Failed to create GLFW window" ;;
    glfwTerminate ;;
    ret false
  else
  glfwMakeContextCurrent win ;;
  glfwSetFramebufferSizeCallback ;;
  ok <- gladLoadGLLoader ;;
  if negb ok then
    cerr "Failed to initialize GLAD" ;;
    ret false
  else
  ok <- createShaders ;;
  if negb ok then
    ret false
  else
  setupBuffers ;;
  ok <- loadTexture ;;
  if negb ok then
    ret false
  else
  glEnable "GL_DEPTH_TEST" ;;
  ret true.

Definition render : M Renderer unit :=
  glClearColor (f32_lit 2 10) (f32_lit 3 10) (f32_lit 3 10) (f32_of_Z 1) ;;
  glClear true true ;;
  (p <- member "shaderProgram" shaderProgram ;; glUseProgram p) ;;
  assign "rotationAngle" (fun r => set_rotationAngle (f32_add (rotationAngle r) (f32_lit 1 100)) r) ;;
  assign "model" (fun r => set_model (glm_rotate mat4_identity (rotationAngle r) y_axis) r) ;;
  modelLoc <- (p <- member "shaderProgram" shaderProgram ;; glGetUniformLocation p "model") ;;
  viewLoc <- (p <- member "shaderProgram" shaderProgram ;; glGetUniformLocation p "view") ;;
  projLoc <- (p <- member "shaderProgram" shaderProgram ;; glGetUniformLocation p "projection") ;;
  objectColorLoc <- (p <- member "shaderProgram" shaderProgram ;; glGetUniformLocation p "objectColor") ;;
  (r <- getR ;; glUniformMatrix4fv modelLoc (model r)) ;;
  (r <- getR ;; glUniformMatrix4fv viewLoc (view r)) ;;
  (r <- getR ;; glUniformMatrix4fv projLoc (projection r)) ;;
  (r <- getR ;; glUniform3fv objectColorLoc (objectColor r)) ;;
  glActiveTexture 0%N ;;
  (t <- member "texture" texture ;; glBindTexture t) ;;
  (h <- member "VAO" VAO ;; glBindVertexArray h) ;;
  glDrawArrays 0 3 ;;
  glBindVertexArray 0%N.

Definition processInput : M Renderer unit :=
  (pressed <- glfwGetKey KEY_ESCAPE ;; when pressed (glfwSetWindowShouldClose true)) ;;
  (pressed <- glfwGetKey KEY_R ;; when pressed (assign "objectColor" (set_objectColor red))) ;;
  (pressed <- glfwGetKey KEY_G ;; when pressed (assign "objectColor" (set_objectColor green))) ;;
  (pressed <- glfwGetKey KEY_B ;; when pressed (assign "objectColor" (set_objectColor blue))) ;;
  (pressed <- glfwGetKey KEY_W ;; when pressed (assign "objectColor" (set_objectColor white))).

(** One iteration of the loop in [run], during which the user does [fe]. *)
Definition iteration (fe : FrameEnv) : M Renderer unit :=
  begin_frame fe ;;
  processInput ;;
  render ;;
  glfwSwapBuffers ;;
  glfwPollEvents framebufferSizeCallback.

Fixpoint run (frames : list FrameEnv) : M Renderer bool :=
  closing <- glfwWindowShouldClose ;;
  if closing then ret true
  else match frames with
       | [] => ret false
       | fe :: rest => iteration fe ;; run rest
       end.

(** The loop body repeated, once for each element of [frames]. *)
Fixpoint iterations (frames : list FrameEnv) : M Renderer unit :=
  match frames with
  | [] => ret tt
  | fe :: rest => iteration fe ;; iterations rest
  end.

(** The colour keys in the order [processInput] checks them. *)
Definition color_keys : list (Key * vec3) :=
  [(KEY_R, red); (KEY_G, green); (KEY_B, blue); (KEY_W, white)].

Definition cleanup : M Renderer unit :=
  (h <- member "VAO" VAO ;; glDeleteVertexArrays h) ;;
  (h <- member "VBO" VBO ;; glDeleteBuffers h) ;;
  (p <- member "shaderProgram" shaderProgram ;; glDeleteProgram p) ;;
  (t <- member "texture" texture ;; glDeleteTextures t) ;;
  glfwTerminate.

Definition main_body (frames : list FrameEnv) : M Renderer (option Z) :=
  ok <- init ;;
  if negb ok then
    cerr "Failed to initialize renderer" ;;
    ret (Some (-1))
  else
  cout "Textured Triangle Demo" ;;
  cout "Controls:" ;;
  cout "  R - Red tint" ;;
  cout "  G - Green tint" ;;
  cout "  B - Blue tint" ;;
  cout "  W - White (no tint)" ;;
  cout "  ESC - Exit" ;;
  left <- run frames ;;
  ret (if left then Some 0 else None).

Definition main (e : Env) (frames : list FrameEnv) : option Z * Renderer * World :=
  (code <- main_body frames ;;
   match code with
   | Some c => cleanup ;; ret (Some c)
   | None => ret None
   end) TexturedTriangleRenderer (initial_world e).

End Textured.

(* ================================================================= *)
(** ** simple_triangle.cpp *)

Module Simple.

(** Neither shader declares a uniform. *)
Definition vertexShaderSource : ShaderSource := {| src_uniforms := [] |}.
Definition fragmentShaderSource : ShaderSource := {| src_uniforms := [] |}.

(** The members of [SimpleTriangleRenderer]; [window] is a pointer, 0 when
    null. The constructor assigns all of them. *)
Record Renderer : Type := {
  window : N;
  VAO : GLuint;
  VBO : GLuint;
  shaderProgram : GLuint
}.

Definition set_window (v : N) (r : Renderer) : Renderer :=
  let '(Build_Renderer _ VAO0 VBO0 shaderProgram0) := r in
  {| window := v; VAO := VAO0; VBO := VBO0; shaderProgram := shaderProgram0 |}.

Definition set_VAO (v : GLuint) (r : Renderer) : Renderer :=
  let '(Build_Renderer window0 _ VBO0 shaderProgram0) := r in
  {| window := window0; VAO := v; VBO := VBO0;
     shaderProgram := shaderProgram0 |}.

Definition set_VBO (v : GLuint) (r : Renderer) : Renderer :=
  let '(Build_Renderer window0 VAO0 _ shaderProgram0) := r in
  {| window := window0; VAO := VAO0; VBO := v;
     shaderProgram := shaderProgram0 |}.

Definition set_shaderProgram (v : GLuint) (r : Renderer) : Renderer :=
  let '(Build_Renderer window0 VAO0 VBO0 _) := r in
  {| window := window0; VAO := VAO0; VBO := VBO0; shaderProgram := v |}.

Definition vertices : list f32 :=
  let h := f32_lit 1 2 in
  let z := f32_zero in
  [ SFopp h; SFopp h; z;
    h; SFopp h; z;
    z; h; z ].

Definition SimpleTriangleRenderer : Renderer :=
  {| window := 0%N; VAO := 0%N; VBO := 0%N; shaderProgram := 0%N |}.

Definition createShaders : M Renderer bool :=
  vertexShader <- glCreateShader GL_VERTEX_SHADER ;;
  glShaderSource vertexShader vertexShaderSource ;;
  glCompileShader vertexShader ;;
  success <- glGetShaderiv vertexShader ;;
  if negb success then
    infoLog <- glGetShaderInfoLog vertexShader ;;
    cerr ("ERROR::SHADER::VERTEX::COMPILATION_FAILED" ++ newline ++ infoLog) ;;
    ret false
  else
  fragmentShader <- glCreateShader GL_FRAGMENT_SHADER ;;
  glShaderSource fragmentShader fragmentShaderSource ;;
  glCompileShader fragmentShader ;;
  success <- glGetShaderiv fragmentShader ;;
  if negb success then
    infoLog <- glGetShaderInfoLog fragmentShader ;;
    cerr ("ERROR::SHADER::FRAGMENT::COMPILATION_FAILED" ++ newline ++ infoLog) ;;
    ret false
  else
  p <- glCreateProgram ;; assign "shaderProgram" (set_shaderProgram p) ;;
  (r <- getR ;; glAttachShader (shaderProgram r) vertexShader) ;;
  (r <- getR ;; glAttachShader (shaderProgram r) fragmentShader) ;;
  (r <- getR ;; glLinkProgram (shaderProgram r)) ;;
  success <- (r <- getR ;; glGetProgramiv (shaderProgram r)) ;;
  if negb success then
    infoLog <- (r <- getR ;; glGetProgramInfoLog (shaderProgram r)) ;;
    cerr ("ERROR::PROGRAM::LINKING_FAILED" ++ newline ++ infoLog) ;;
    ret false
  else
  glDeleteShader vertexShader ;;
  glDeleteShader fragmentShader ;;
  ret true.

Definition setupBuffers : M Renderer unit :=
  vao <- glGenVertexArrays ;; assign "VAO" (set_VAO vao) ;;
  (r <- getR ;; glBindVertexArray (VAO r)) ;;
  vbo <- glGenBuffers ;; assign "VBO" (set_VBO vbo) ;;
  (r <- getR ;; glBindBuffer (VBO r)) ;;
  glBufferData vertices ;;
  glVertexAttribPointer 0%N 3 3 0 ;;
  glEnableVertexAttribArray 0%N ;;
  glBindBuffer 0%N ;;
  glBindVertexArray 0%N.

Definition framebufferSizeCallback (width height : Z) : M Renderer unit :=
  glViewport 0 0 width height.

Definition init : M Renderer bool :=
  ok <- glfwInit ;;
  if negb ok then
    cerr "Failed to initialize GLFW" ;;
    ret false
  else
  glfwWindowHint "GLFW_CONTEXT_VERSION_MAJOR" "3" ;;
  glfwWindowHint "GLFW_CONTEXT_VERSION_MINOR" "3" ;;
  glfwWindowHint "GLFW_OPENGL_PROFILE" "GLFW_OPENGL_CORE_PROFILE" ;;
  glfwWindowHint "GLFW_OPENGL_FORWARD_COMPAT" "GL_TRUE" ;;
  win <- glfwCreateWindow 800 600 "Simple Triangle (C++)" ;;
  assign "window" (set_window win) ;;
  if (win =? 0)%N then
    cerr "Failed to create GLFW window" ;;
    glfwTerminate ;;
    ret false
  else
  glfwMakeContextCurrent win ;;
  glfwSetFramebufferSizeCallback ;;
  ok <- gladLoadGLLoader ;;
  if negb ok then
    cerr "Failed to initialize GLAD" ;;
    ret false
  else
  ok <- createShaders ;;
  if negb ok then
    ret false
  else
  setupBuffers ;;
  ret true.

Definition render : M Renderer unit :=
  glClearColor (f32_lit 2 10) (f32_lit 3 10) (f32_lit 3 10) (f32_of_Z 1) ;;
  glClear true false ;;
  (r <- getR ;; glUseProgram (shaderProgram r)) ;;
  (r <- getR ;; glBindVertexArray (VAO r)) ;;
  glDrawArrays 0 3 ;;
  glfwSwapBuffers ;;
  glfwPollEvents framebufferSizeCallback.

(** One iteration of the loop in [run], during which the user does [fe]. *)
Definition iteration (fe : FrameEnv) : M Renderer unit :=
  begin_frame fe ;;
  render ;;
  (pressed <- glfwGetKey KEY_ESCAPE ;; when pressed (glfwSetWindowShouldClose true)).

(** The loop of [run]; the result tells whether the loop was left. *)
Fixpoint run_loop (frames : list FrameEnv) : M Renderer bool :=
  closing <- glfwWindowShouldClose ;;
  if closing then ret true
  else match frames with
       | [] => ret false
       | fe :: rest => iteration fe ;; run_loop rest
       end.

Definition run (frames : list FrameEnv) : M Renderer bool :=
  cout "Simple Triangle Demo is running!" ;;
  cout "Press ESC or close window to exit" ;;
  run_loop frames.

Definition cleanup : M Renderer unit :=
  (r <- getR ;; when (negb (VAO r =? 0)%N) (glDeleteVertexArrays (VAO r))) ;;
  (r <- getR ;; when (negb (VBO r =? 0)%N) (glDeleteBuffers (VBO r))) ;;
  (r <- getR ;; when (negb (shaderProgram r =? 0)%N) (glDeleteProgram (shaderProgram r))) ;;
  (r <- getR ;; when (negb (window r =? 0)%N) glfwTerminate).

Definition main_body (frames : list FrameEnv) : M Renderer (option Z) :=
  ok <- init ;;
  if negb ok then
    cerr "Failed to initialize renderer" ;;
    ret (Some (-1))
  else
  left <- run frames ;;
  ret (if left then Some 0 else None).

Definition main (e : Env) (frames : list FrameEnv) : option Z * Renderer * World :=
  (code <- main_body frames ;;
   match code with
   | Some c => cleanup ;; ret (Some c)
   | None => ret None
   end) SimpleTriangleRenderer (initial_world e).

End Simple.

(* ================================================================= *)
(** ** triangle_demo.cpp *)

Module Demo.

(** Neither shader declares a uniform. *)
Definition vertexShaderSource : ShaderSource := {| src_uniforms := [] |}.
Definition fragmentShaderSource : ShaderSource := {| src_uniforms := [] |}.

(** The members of [TriangleRenderer]; [window] is a pointer, 0 when null.
    The constructor assigns all of them. *)
Record Renderer : Type := {
  window : N;
  shaderProgram : GLuint;
  VAO : GLuint;
  VBO : GLuint
}.

Definition set_window (v : N) (r : Renderer) : Renderer :=
  let '(Build_Renderer _ shaderProgram0 VAO0 VBO0) := r in
  {| window := v; shaderProgram := shaderProgram0; VAO := VAO0; VBO := VBO0 |}.

Definition set_shaderProgram (v : GLuint) (r : Renderer) : Renderer :=
  let '(Build_Renderer window0 _ VAO0 VBO0) := r in
  {| window := window0; shaderProgram := v; VAO := VAO0; VBO := VBO0 |}.

Definition set_VAO (v : GLuint) (r : Renderer) : Renderer :=
  let '(Build_Renderer window0 shaderProgram0 _ VBO0) := r in
  {| window := window0; shaderProgram := shaderProgram0; VAO := v;
     VBO := VBO0 |}.

Definition set_VBO (v : GLuint) (r : Renderer) : Renderer :=
  let '(Build_Renderer window0 shaderProgram0 VAO0 _) := r in
  {| window := window0; shaderProgram := shaderProgram0; VAO := VAO0;
     VBO := v |}.

Definition vertices : list f32 :=
  let h := f32_lit 1 2 in
  let z := f32_zero in
  let o := f32_of_Z 1 in
  [ SFopp h; SFopp h; z;  o; z; z;
    h; SFopp h; z;        z; o; z;
    z; h; z;              z; z; o ].

Definition TriangleRenderer : Renderer :=
  {| window := 0%N; shaderProgram := 0%N; VAO := 0%N; VBO := 0%N |}.

Definition checkShaderCompilation (shader : GLuint) (type : string) : M Renderer bool :=
  success <- glGetShaderiv shader ;;
  if negb success then
    infoLog <- glGetShaderInfoLog shader ;;
    cerr ("ERROR::SHADER::" ++ type ++ "::COMPILATION_FAILED" ++ newline ++ infoLog) ;;
    ret false
  else
  ret true.

Definition checkProgramLinking : M Renderer bool :=
  success <- (r <- getR ;; glGetProgramiv (shaderProgram r)) ;;
  if negb success then
    infoLog <- (r <- getR ;; glGetProgramInfoLog (shaderProgram r)) ;;
    cerr ("ERROR::PROGRAM::LINKING_FAILED" ++ newline ++ infoLog) ;;
    ret false
  else
  ret true.

Definition createShaders : M Renderer bool :=
  vertexShader <- glCreateShader GL_VERTEX_SHADER ;;
  glShaderSource vertexShader vertexShaderSource ;;
  glCompileShader vertexShader ;;
  ok <- checkShaderCompilation vertexShader "Vertex" ;;
  if negb ok then
    ret false
  else
  fragmentShader <- glCreateShader GL_FRAGMENT_SHADER ;;
  glShaderSource fragmentShader fragmentShaderSource ;;
  glCompileShader fragmentShader ;;
  ok <- checkShaderCompilation fragmentShader "Fragment" ;;
  if negb ok then
    ret false
  else
  p <- glCreateProgram ;; assign "shaderProgram" (set_shaderProgram p) ;;
  (r <- getR ;; glAttachShader (shaderProgram r) vertexShader) ;;
  (r <- getR ;; glAttachShader (shaderProgram r) fragmentShader) ;;
  (r <- getR ;; glLinkProgram (shaderProgram r)) ;;
  ok <- checkProgramLinking ;;
  if negb ok then
    ret false
  else
  glDeleteShader vertexShader ;;
  glDeleteShader fragmentShader ;;
  ret true.

Definition setupBuffers : M Renderer unit :=
  vao <- glGenVertexArrays ;; assign "VAO" (set_VAO vao) ;;
  (r <- getR ;; glBindVertexArray (VAO r)) ;;
  vbo <- glGenBuffers ;; assign "VBO" (set_VBO vbo) ;;
  (r <- getR ;; glBindBuffer (VBO r)) ;;
  glBufferData vertices ;;
  glVertexAttribPointer 0%N 3 6 0 ;;
  glEnableVertexAttribArray 0%N ;;
  glVertexAttribPointer 1%N 3 6 3 ;;
  glEnableVertexAttribArray 1%N ;;
  glBindBuffer 0%N ;;
  glBindVertexArray 0%N.

Definition framebufferSizeCallback (width height : Z) : M Renderer unit :=
  glViewport 0 0 width height.

Definition init : M Renderer bool :=
  ok <- glfwInit ;;
  if negb ok then
    cerr "Failed to initialize GLFW" ;;
    ret false
  else
  glfwWindowHint "GLFW_CONTEXT_VERSION_MAJOR" "3" ;;
  glfwWindowHint "GLFW_CONTEXT_VERSION_MINOR" "3" ;;
  glfwWindowHint "GLFW_OPENGL_PROFILE" "GLFW_OPENGL_CORE_PROFILE" ;;
  glfwWindowHint "GLFW_OPENGL_FORWARD_COMPAT" "GL_TRUE" ;;
  win <- glfwCreateWindow 800 600 "Triangle Demo - Computer Graphics (C++)" ;;
  assign "window" (set_window win) ;;
  if (win =? 0)%N then
    cerr "Failed to create GLFW window" ;;
    glfwTerminate ;;
    ret false
  else
  glfwMakeContextCurrent win ;;
  glfwSetFramebufferSizeCallback ;;
  ok <- gladLoadGLLoader ;;
  if negb ok then
    cerr "Failed to initialize GLAD" ;;
    ret false
  else
  ok <- createShaders ;;
  if negb ok then
    ret false
  else
  setupBuffers ;;
  ret true.

Definition render : M Renderer unit :=
  glClearColor (f32_lit 2 10) (f32_lit 3 10) (f32_lit 3 10) (f32_of_Z 1) ;;
  glClear true false ;;
  (r <- getR ;; glUseProgram (shaderProgram r)) ;;
  (r <- getR ;; glBindVertexArray (VAO r)) ;;
  glDrawArrays 0 3 ;;
  glfwSwapBuffers ;;
  glfwPollEvents framebufferSizeCallback.

(** One iteration of the loop in [run], during which the user does [fe]. *)
Definition iteration (fe : FrameEnv) : M Renderer unit :=
  begin_frame fe ;;
  render ;;
  (pressed <- glfwGetKey KEY_ESCAPE ;; when pressed (glfwSetWindowShouldClose true)).

(** The loop of [run]; the result tells whether the loop was left. *)
Fixpoint run_loop (frames : list FrameEnv) : M Renderer bool :=
  closing <- glfwWindowShouldClose ;;
  if closing then ret true
  else match frames with
       | [] => ret false
       | fe :: rest => iteration fe ;; run_loop rest
       end.

Definition run (frames : list FrameEnv) : M Renderer bool :=
  cout "Triangle Demo is running!" ;;
  cout "Press ESC or close window to exit" ;;
  run_loop frames.

Definition cleanup : M Renderer unit :=
  (r <- getR ;; when (negb (VAO r =? 0)%N) (glDeleteVertexArrays (VAO r))) ;;
  (r <- getR ;; when (negb (VBO r =? 0)%N) (glDeleteBuffers (VBO r))) ;;
  (r <- getR ;; when (negb (shaderProgram r =? 0)%N) (glDeleteProgram (shaderProgram r))) ;;
  (r <- getR ;; when (negb (window r =? 0)%N) glfwTerminate).

Definition main_body (frames : list FrameEnv) : M Renderer (option Z) :=
  ok <- init ;;
  if negb ok then
    cerr "Failed to initialize renderer" ;;
    ret (Some (-1))
  else
  left <- run frames ;;
  ret (if left then Some 0 else None).

Definition main (e : Env) (frames : list FrameEnv) : option Z * Renderer * World :=
  (code <- main_body frames ;;
   match code with
   | Some c => cleanup ;; ret (Some c)
   | None => ret None
   end) TriangleRenderer (initial_world e).

End Demo.

(* ================================================================= *)
(** ** Vocabulary of the properties *)

(** The status the process ends with. *)
Definition outcome {R} (x : option Z * R * World) : option Outcome :=
  match result x with
  | Some c => Some (if crashed (world x) then Aborted else Exited c)
  | None => None
  end.

#[global] Instance Key_eq_dec : EqDecision Key.
Proof. solve_decision. Defined.

(** Among colour keys checked in the order [keys], the colour of the last
    one that is down. *)
Definition last_held (keys : list (Key * vec3)) (down : Key -> bool) : option vec3 :=
  fold_left (fun acc kc => if down (fst kc) then Some (snd kc) else acc) keys None.

(** The keys checked after [k]. *)
Fixpoint checked_after (k : Key) (keys : list (Key * vec3)) : list Key :=
  match keys with
  | [] => []
  | kc :: rest => if bool_decide (fst kc = k) then map fst rest else checked_after k rest
  end.

(** The keys [glfwGetKey] is asked about, in order. *)
Definition keys_polled (cs : list Call) : list Key :=
  omap (fun c => match c with GlfwGetKey k => Some k | _ => None end) cs.

(** [n] additions of [0.01f], one after the other, starting from [a]. *)
Definition accumulate (n : nat) (a : f32) : f32 :=
  Nat.iter n (fun x => f32_add x (f32_lit 1 100)) a.

(** Does the finite float [x] have exactly the value [q]? *)
Definition f32_exactly (x : f32) (q : Q) : bool :=
  match f32_value x with
  | Some v => Qeq_bool v q
  | None => false
  end.

(** The exact value of [0.01f]. *)
Definition delta : Q := 10737418 # (2 ^ 30).

(** [6.2831855f], the [float] nearest to 2 pi. *)
Definition two_pi : f32 := f32_lit 62831853071795864769 10000000000000000000.

(** The steps of one iteration of a render loop, with what tells one way
    of taking a step from another: the buffers cleared, the program used,
    the vertex array bound (0 unbinds), the range of vertices drawn. *)
Inductive Step : Type :=
| PollInput                            (* glfwGetKey and what the key does *)
| SetClearColor                        (* glClearColor *)
| ClearFrame (color depth : bool)      (* glClear *)
| UseShader (program : GLuint)         (* glUseProgram *)
| AdvanceRotation                      (* rotationAngle and model *)
| PushUniforms                         (* glGetUniformLocation, glUniform* *)
| BindTexture                          (* glActiveTexture, glBindTexture *)
| BindGeometry (vao : GLuint)          (* glBindVertexArray *)
| Draw (first count : Z)               (* glDrawArrays *)
| Present                              (* glfwSwapBuffers *)
| PollEvents.                          (* glfwPollEvents and its callbacks *)

#[global] Instance Step_eq_dec : EqDecision Step.
Proof. solve_decision. Defined.

(** The step an event of an iteration belongs to. *)
Definition step_of (c : Call) : option Step :=
  match c with
  | GlfwGetKey _ | GlfwSetWindowShouldClose _ => Some PollInput
  | Assign member =>
      if String.eqb member "objectColor" then Some PollInput
      else if String.eqb member "rotationAngle" || String.eqb member "model"
           then Some AdvanceRotation
           else None
  | GlClearColor _ _ _ _ => Some SetClearColor
  | GlClear color depth => Some (ClearFrame color depth)
  | GlUseProgram p => Some (UseShader p)
  | GlGetUniformLocation _ _ | GlUniformMatrix4fv _ _ | GlUniform3fv _ _ =>
      Some PushUniforms
  | GlActiveTexture _ | GlBindTexture _ => Some BindTexture
  | GlBindVertexArray n => Some (BindGeometry n)
  | GlDrawArrays first count => Some (Draw first count)
  | GlfwSwapBuffers => Some Present
  | GlfwPollEvents | GlViewport _ _ _ _ => Some PollEvents
  | _ => None
  end.

(** A list without the repetitions of an element next to itself. *)
Fixpoint squeeze (l : list Step) : list Step :=
  match l with
  | [] => []
  | a :: rest =>
      match rest with
      | b :: _ => if bool_decide (a = b) then squeeze rest else a :: squeeze rest
      | [] => [a]
      end
  end.

(** The steps a sequence of events goes through. *)
Definition steps (cs : list Call) : list Step := squeeze (omap step_of cs).

(** Events that only occur while a frame is rendered. *)
Definition is_frame_call (c : Call) : bool :=
  match c with
  | GlClear _ _ | GlDrawArrays _ _ | GlfwSwapBuffers | GlfwPollEvents
  | GlfwWindowShouldClose => true
  | _ => false
  end.

Definition is_draw (c : Call) : bool :=
  match c with GlDrawArrays _ _ => true | _ => false end.

Definition is_cerr (c : Call) : bool :=
  match c with Cerr _ => true | _ => false end.

(** The values a program's uniforms have after [offers] are set one by one,
    each at the location of its name; a name without location is skipped. *)
Definition upload_one (active : list string) (o : string * UValue)
    (vals : gmap Z UValue) : gmap Z UValue :=
  let l := uniform_location (fst o) active in
  if l =? -1 then vals else <[ l := snd o ]> vals.

Definition upload (active : list string) (offers : list (string * UValue))
    (vals : gmap Z UValue) : gmap Z UValue :=
  fold_left (fun vs o => upload_one active o vs) offers vals.

(** Setting a uniform by name: look the location up, then set the value. *)
Definition set_by_name {R} (p : GLuint) (name : string) (v : UValue) : M R unit :=
  loc <- glGetUniformLocation p name ;;
  match v with
  | UMat4 m => glUniformMatrix4fv loc m
  | UVec3 c => glUniform3fv loc c
  end.

(** Does [name] have a location among [active]? *)
Definition has_location (active : list string) (name : string) : bool :=
  negb (uniform_location name active =? -1).

(** Does the user ask for the end of the loop during the iteration (Escape
    down, or the window closed)? *)
Definition closes (fe : FrameEnv) : bool := key_down fe KEY_ESCAPE || close_request fe.

(** Sample environments. *)
Definition all_ok : Env :=
  {| glfwInit_ok := true; createWindow_ok := true; gladLoad_ok := true;
     vertex_compile_ok := true; fragment_compile_ok := true; link_ok := true;
     link_keeps := fun _ => true;
     buffer_alloc_ok := true; texture_alloc_ok := true;
     info_log := fun _ => EmptyString; uninitialized := fun _ => 0%N |}.

Definition no_glfw : Env :=
  {| glfwInit_ok := false; createWindow_ok := true; gladLoad_ok := true;
     vertex_compile_ok := true; fragment_compile_ok := true; link_ok := true;
     link_keeps := fun _ => true;
     buffer_alloc_ok := true; texture_alloc_ok := true;
     info_log := fun _ => EmptyString; uninitialized := fun _ => 0%N |}.

Definition holding (ks : list Key) : FrameEnv :=
  {| keys := {| escape_down := bool_decide (KEY_ESCAPE ∈ ks);
                r_down := bool_decide (KEY_R ∈ ks);
                g_down := bool_decide (KEY_G ∈ ks);
                b_down := bool_decide (KEY_B ∈ ks);
                y_down := bool_decide (KEY_Y ∈ ks);
                w_down := bool_decide (KEY_W ∈ ks) |};
     close_request := false; resize_to := None |}.

Definition resizing (width height : Z) : FrameEnv :=
  {| keys := none_down; close_request := false; resize_to := Some (width, height) |}.

(** A colour key held for some iterations, then released: while it is held,
    and no key checked after it is down, the object colour is that key's
    colour after every iteration, and it stays so while no colour key is
    down. *)
Definition key_holds_color {R} (iterations : list FrameEnv -> M R unit)
    (objectColor : R -> vec3) (keys : list (Key * vec3)) : Prop :=
  forall k c (held released : list FrameEnv) r w,
    In (k, c) keys ->
    held <> [] ->
    (forall fe, In fe held ->
       key_down fe k = true /\
       forall k', In k' (checked_after k keys) -> key_down fe k' = false) ->
    (forall fe k' c', In fe released -> In (k', c') keys -> key_down fe k' = false) ->
    (forall n, (1 <= n <= List.length held)%nat ->
       objectColor (object (iterations (firstn n held) r w)) = c) /\
    (forall n, objectColor (object (iterations (held ++ firstn n released)%list r w)) = c).

(** The matrices set at uniform location [loc], oldest first. *)
Definition uploads (loc : GLint) (cs : list Call) : list mat4 :=
  omap (fun c => match c with
                 | GlUniformMatrix4fv l m => if l =? loc then Some m else None
                 | _ => None
                 end) cs.

(** The members after [Phong.render], after [Phong.processInput] when the
    keys are [down], and after one iteration of the loop. *)
Definition Phong_after_render (r : Phong.Renderer) : Phong.Renderer :=
  let angle := f32_add (Phong.rotationAngle r) (f32_lit 1 100) in
  Phong.set_model (glm_rotate mat4_identity angle y_axis)
    (Phong.set_rotationAngle angle r).

Definition Phong_after_input (down : Key -> bool) (r : Phong.Renderer) : Phong.Renderer :=
  match last_held Phong.color_keys down with
  | Some c => Phong.set_objectColor c r
  | None => r
  end.

Definition Phong_after_iteration (r : Phong.Renderer) (fe : FrameEnv) : Phong.Renderer :=
  Phong_after_render (Phong_after_input (key_down fe) r).

(** The same for the textured renderer. *)
Definition Textured_after_render (r : Textured.Renderer) : Textured.Renderer :=
  let angle := f32_add (Textured.rotationAngle r) (f32_lit 1 100) in
  Textured.set_model (glm_rotate mat4_identity angle y_axis)
    (Textured.set_rotationAngle angle r).

Definition Textured_after_input (down : Key -> bool) (r : Textured.Renderer)
  : Textured.Renderer :=
  match last_held Textured.color_keys down with
  | Some c => Textured.set_objectColor c r
  | None => r
  end.

Definition Textured_after_iteration (r : Textured.Renderer) (fe : FrameEnv)
  : Textured.Renderer :=
  Textured_after_render (Textured_after_input (key_down fe) r).

(** The colour after the iterations [fes], from the colour [c0]. *)
Definition color_after (keys : list (Key * vec3)) (fes : list FrameEnv) (c0 : vec3) : vec3 :=
  fold_left (fun c fe => default c (last_held keys (key_down fe))) fes c0.

(** The handle members of the renderer have been assigned. *)
Definition Phong_assigned (r : Phong.Renderer) : Prop :=
  is_Some (Phong.VAO r) /\ is_Some (Phong.VBO r) /\ is_Some (Phong.shaderProgram r).

Definition Textured_assigned (r : Textured.Renderer) : Prop :=
  is_Some (Textured.VAO r) /\ is_Some (Textured.VBO r) /\
  is_Some (Textured.shaderProgram r) /\ is_Some (Textured.texture r).

(** The viewport after an iteration in which the framebuffer is resized as
    [fe] says. *)
Definition viewport_after (fe : FrameEnv) (w : World) : Z * Z * Z * Z :=
  match resize_to fe with
  | Some (width, height) => if resize_cb w then (0, 0, width, height) else viewport w
  | None => viewport w
  end.

(** How a world [w] where OpenGL is usable relates to a later world [w']:
    OpenGL is still usable, no fault has been added, the callback, the
    platform and the user's actions are the same, and the close flag and
    the viewport are [sc] and [vp]. *)
Definition effect (w w' : World) (sc : bool) (vp : Z * Z * Z * Z) : Prop :=
  gl_ready w' = true /\
  fault w' = fault w /\
  resize_cb w' = resize_cb w /\
  env w' = env w /\
  frame w' = frame w /\
  should_close w' = sc /\
  viewport w' = vp.

(** A world in which a window with its context exists and OpenGL is loaded,
    and Phong renderers whose handles are assigned. *)
Definition ready_world : World :=
  set_resize_cb true (set_gl_loaded true (set_context true (initial_world all_ok))).

Definition Phong_sample : Phong.Renderer :=
  Phong.set_shaderProgram (Some 3%N)
    (Phong.set_VBO (Some 5%N) (Phong.set_VAO (Some 4%N) Phong.PhongTriangleRenderer)).

(** The render loop all four programs share: check the close flag, run one
    iteration, repeat. *)
Fixpoint loop {R} (iteration : FrameEnv -> M R unit) (frames : list FrameEnv) : M R bool :=
  closing <- glfwWindowShouldClose ;;
  if closing then ret true
  else match frames with
       | [] => ret false
       | fe :: rest => iteration fe ;; loop iteration rest
       end.

(** Every step the platform can refuse before the loop succeeds. *)
Definition startup_ok (e : Env) : bool :=
  glfwInit_ok e && createWindow_ok e && gladLoad_ok e &&
  vertex_compile_ok e && fragment_compile_ok e && link_ok e.

(** Initialization fails exactly when a startup step fails; then [main]
    returns -1 without having rendered a frame, and the process does not end
    with status 0. When all steps succeed and the user ends the loop, the
    process ends with status 0. *)
Definition startup_contract {R} (init : M R bool) (ctor : R)
    (main : Env -> list FrameEnv -> option Z * R * World) : Prop :=
  forall e frames,
    result (init ctor (initial_world e)) = startup_ok e /\
    (startup_ok e = false ->
       result (main e frames) = Some (-1) /\
       existsb is_frame_call (trace (world (main e frames))) = false /\
       outcome (main e frames) <> Some (Exited 0)) /\
    (startup_ok e = true -> existsb closes frames = true ->
       outcome (main e frames) = Some (Exited 0)).

(** All startup steps succeed, but the driver rejects the texture. *)
Definition no_texture : Env :=
  {| glfwInit_ok := true; createWindow_ok := true; gladLoad_ok := true;
     vertex_compile_ok := true; fragment_compile_ok := true; link_ok := true;
     link_keeps := fun _ => true;
     buffer_alloc_ok := true; texture_alloc_ok := false;
     info_log := fun _ => EmptyString; uninitialized := fun _ => 0%N |}.

Definition escape : FrameEnv := holding [KEY_ESCAPE].

(** The linker optimises the [lightPos] uniform out. *)
Definition drops_lightPos : Env :=
  {| glfwInit_ok := true; createWindow_ok := true; gladLoad_ok := true;
     vertex_compile_ok := true; fragment_compile_ok := true; link_ok := true;
     link_keeps := fun name => negb (String.eqb name "lightPos");
     buffer_alloc_ok := true; texture_alloc_ok := true;
     info_log := fun _ => EmptyString; uninitialized := fun _ => 0%N |}.

(** *** The events of one iteration *)

(** What asking for key [k] adds to the trace: the call, and what the key
    does ([effect]) when it is down. *)
Definition key_events (fe : FrameEnv) (k : Key) (effect : Call) : list Call :=
  GlfwGetKey k :: if key_down fe k then [effect] else [].

(** The events of [processInput], given the colour keys it checks. *)
Definition input_events (fe : FrameEnv) (color_keys : list Key) : list Call :=
  key_events fe KEY_ESCAPE (GlfwSetWindowShouldClose true) ++
  flat_map (fun k => key_events fe k (Assign "objectColor")) color_keys.

(** The events of the framebuffer-size callback that [glfwPollEvents] runs. *)
Definition resize_events (w : World) (fe : FrameEnv) : list Call :=
  match resize_to fe with
  | Some (width, height) => if resize_cb w then [GlViewport 0 0 width height] else []
  | None => []
  end.

(** The events of an iteration of the Phong program: [p] and [vao] are the
    program and the vertex array, [loc] gives the location of a uniform in
    [p], and [r] are the members when the iteration ends. *)
Definition Phong_frame_events (w : World) (fe : FrameEnv) (p vao : GLuint)
    (loc : string -> GLint) (r : Phong.Renderer) : list Call :=
  input_events fe [KEY_R; KEY_G; KEY_B; KEY_Y] ++
  [ GlClearColor (f32_lit 1 10) (f32_lit 1 10) (f32_lit 1 10) (f32_of_Z 1);
    GlClear true true;
    GlUseProgram p;
    Assign "rotationAngle";
    Assign "model";
    GlGetUniformLocation p "model";
    GlGetUniformLocation p "view";
    GlGetUniformLocation p "projection";
    GlGetUniformLocation p "lightPos";
    GlGetUniformLocation p "lightColor";
    GlGetUniformLocation p "objectColor";
    GlGetUniformLocation p "viewPos";
    GlUniformMatrix4fv (loc "model") (Phong.model r);
    GlUniformMatrix4fv (loc "view") (Phong.view r);
    GlUniformMatrix4fv (loc "projection") (Phong.projection r);
    GlUniform3fv (loc "lightPos") (Phong.lightPos r);
    GlUniform3fv (loc "lightColor") (Phong.lightColor r);
    GlUniform3fv (loc "objectColor") (Phong.objectColor r);
    GlUniform3fv (loc "viewPos") (Phong.viewPos r);
    GlBindVertexArray vao;
    GlDrawArrays 0 3;
    GlBindVertexArray 0%N;
    GlfwSwapBuffers;
    GlfwPollEvents ] ++
  resize_events w fe.

(** The same for the textured program, whose texture is [t]. *)
Definition Textured_frame_events (w : World) (fe : FrameEnv) (p vao t : GLuint)
    (loc : string -> GLint) (r : Textured.Renderer) : list Call :=
  input_events fe [KEY_R; KEY_G; KEY_B; KEY_W] ++
  [ GlClearColor (f32_lit 2 10) (f32_lit 3 10) (f32_lit 3 10) (f32_of_Z 1);
    GlClear true true;
    GlUseProgram p;
    Assign "rotationAngle";
    Assign "model";
    GlGetUniformLocation p "model";
    GlGetUniformLocation p "view";
    GlGetUniformLocation p "projection";
    GlGetUniformLocation p "objectColor";
    GlUniformMatrix4fv (loc "model") (Textured.model r);
    GlUniformMatrix4fv (loc "view") (Textured.view r);
    GlUniformMatrix4fv (loc "projection") (Textured.projection r);
    GlUniform3fv (loc "objectColor") (Textured.objectColor r);
    GlActiveTexture 0%N;
    GlBindTexture t;
    GlBindVertexArray vao;
    GlDrawArrays 0 3;
    GlBindVertexArray 0%N;
    GlfwSwapBuffers;
    GlfwPollEvents ] ++
  resize_events w fe.

(** The same for the simple and the colour program. *)
Definition plain_frame_events (w : World) (fe : FrameEnv) (p vao : GLuint) : list Call :=
  [ GlClearColor (f32_lit 2 10) (f32_lit 3 10) (f32_lit 3 10) (f32_of_Z 1);
    GlClear true false;
    GlUseProgram p;
    GlBindVertexArray vao;
    GlDrawArrays 0 3;
    GlfwSwapBuffers;
    GlfwPollEvents ] ++
  resize_events w fe ++
  key_events fe KEY_ESCAPE (GlfwSetWindowShouldClose true).

(** The order of the steps of an iteration: in the Phong program, in the
    textured program, and in the two programs without input handling in
    [processInput]. *)
Definition Phong_order (p vao : GLuint) : list Step :=
  [PollInput; SetClearColor; ClearFrame true true; UseShader p; AdvanceRotation;
   PushUniforms; BindGeometry vao; Draw 0 3; BindGeometry 0%N; Present; PollEvents].

Definition Textured_order (p vao : GLuint) : list Step :=
  [PollInput; SetClearColor; ClearFrame true true; UseShader p; AdvanceRotation;
   PushUniforms; BindTexture; BindGeometry vao; Draw 0 3; BindGeometry 0%N;
   Present; PollEvents].

Definition plain_order (p vao : GLuint) : list Step :=
  [SetClearColor; ClearFrame true false; UseShader p; BindGeometry vao; Draw 0 3;
   Present; PollEvents; PollInput].

(** The uniforms whose location is asked for, in order. *)
Definition uniforms_looked_up (cs : list Call) : list string :=
  omap (fun c => match c with GlGetUniformLocation _ name => Some name | _ => None end) cs.

(** The window cannot be created. *)
Definition no_window : Env :=
  {| glfwInit_ok := true; createWindow_ok := false; gladLoad_ok := true;
     vertex_compile_ok := true; fragment_compile_ok := true; link_ok := true;
     link_keeps := fun _ => true;
     buffer_alloc_ok := true; texture_alloc_ok := true;
     info_log := fun _ => EmptyString; uninitialized := fun _ => 0%N |}.

(** The deletions of OpenGL objects among the events [cs]. *)
Definition deletions (cs : list Call) : list Call :=
  List.filter (fun c => match c with
                        | GlDeleteVertexArrays _ | GlDeleteBuffers _
                        | GlDeleteProgram _ | GlDeleteTextures _ => true
                        | _ => false
                        end) cs.

(* ================================================================= *)
(** ** The Phong fragment shader, over the reals

    [fragmentShaderSource] of phong_triangle.cpp. GLSL leaves the precision
    of its operations to the implementation; here they are exact. *)

Module PhongShader.
Import Reals.
Local Open Scope R_scope.

Record vec3 : Type := mk { cx : R; cy : R; cz : R }.

Definition vadd (a b : vec3) : vec3 := mk (cx a + cx b) (cy a + cy b) (cz a + cz b).
Definition vsub (a b : vec3) : vec3 := mk (cx a - cx b) (cy a - cy b) (cz a - cz b).
Definition vmul (a b : vec3) : vec3 := mk (cx a * cx b) (cy a * cy b) (cz a * cz b).
Definition vneg (a : vec3) : vec3 := mk (- cx a) (- cy a) (- cz a).
Definition scale (s : R) (a : vec3) : vec3 := mk (s * cx a) (s * cy a) (s * cz a).
Definition dot (a b : vec3) : R := cx a * cx b + cy a * cy b + cz a * cz b.
Definition length (a : vec3) : R := sqrt (dot a a).
Definition normalize (a : vec3) : vec3 := scale (/ length a) a.

(** [reflect(I, N) = I - 2 * dot(N, I) * N] *)
Definition reflect (I N : vec3) : vec3 := vsub I (scale (2 * dot N I) N).

Definition zero : vec3 := mk 0 0 0.

Section Main.
Variables lightPos viewPos lightColor objectColor : vec3.   (* uniforms *)
Variables FragPos Normal : vec3.                            (* inputs *)

Definition ambientStrength : R := 0.1.
Definition ambient : vec3 := scale ambientStrength lightColor.

Definition norm : vec3 := normalize Normal.
Definition lightDir : vec3 := normalize (vsub lightPos FragPos).
Definition diff : R := Rmax (dot norm lightDir) 0.
Definition diffuse : vec3 := scale diff lightColor.

Definition specularStrength : R := 0.5.
Definition viewDir : vec3 := normalize (vsub viewPos FragPos).
Definition reflectDir : vec3 := reflect (vneg lightDir) norm.
Definition spec : R := Rmax (dot viewDir reflectDir) 0 ^ 32.
Definition specular : vec3 := scale (specularStrength * spec) lightColor.

Definition result : vec3 := vmul (vadd (vadd ambient diffuse) specular) objectColor.

(** [FragColor = vec4(result, 1.0)] *)
Definition FragColor : vec3 * R := (result, 1).

End Main.

(** A fragment at the origin facing +z, lit from +x, seen from -x or +x. *)
Definition facing_z : vec3 := mk 0 0 1.
Definition plus_x : vec3 := mk 1 0 0.
Definition minus_x : vec3 := mk (-1) 0 0.
Definition white : vec3 := mk 1 1 1.

End PhongShader.

(* ================================================================= *)
(** ** Vocabulary of the further properties *)

(** Events that set the platform up or tear it down: initialisation, the
    creation and deletion of objects, and console output. *)
Definition is_lifecycle (c : Call) : bool :=
  match c with
  | GlfwInit | GlfwCreateWindow _ _ _ | GlfwTerminate | GladLoadGLLoader
  | GlGenVertexArrays _ | GlGenBuffers _ | GlGenTextures _
  | GlCreateShader _ _ | GlCreateProgram _
  | GlDeleteShader _ | GlDeleteVertexArrays _ | GlDeleteBuffers _
  | GlDeleteProgram _ | GlDeleteTextures _
  | Cerr _ | Cout _ => true
  | _ => false
  end.

Definition lifecycle (cs : list Call) : list Call := List.filter is_lifecycle cs.

Definition is_terminate (c : Call) : bool :=
  match c with GlfwTerminate => true | _ => false end.

(** The draw calls made so far. *)
Definition draws (w : World) : nat := List.length (List.filter is_draw (trace w)).

(** How often GLFW has been terminated so far. *)
Definition terminations (w : World) : nat :=
  List.length (List.filter is_terminate (trace w)).


(** A render loop that is left with the iteration in which the user asks
    for the end: that iteration is still run in full (one draw call per
    iteration run), and the user's actions after it play no part. As long
    as the user does not ask for the end, the loop goes on, one frame per
    iteration. *)
Definition stops_at_first_close {R} (run : list FrameEnv -> M R bool)
    (usable : R -> Prop) : Prop :=
  (forall pre fe rest r w,
     gl_ready w = true -> usable r -> should_close w = false ->
     existsb closes pre = false -> closes fe = true ->
     let x := run (pre ++ fe :: rest)%list r w in
     result x = true /\
     x = run (pre ++ [fe])%list r w /\
     draws (world x) = (draws w + List.length pre + 1)%nat) /\
  (forall frames r w,
     gl_ready w = true -> usable r -> should_close w = false ->
     existsb closes frames = false ->
     let x := run frames r w in
     result x = false /\
     draws (world x) = (draws w + List.length frames)%nat).

(** The first startup step the platform refuses, counted from 0 in the
    order GLFW, window, GLAD, vertex shader, fragment shader, link. *)
Definition first_failure (e : Env) : option nat :=
  if negb (glfwInit_ok e) then Some 0%nat
  else if negb (createWindow_ok e) then Some 1%nat
  else if negb (gladLoad_ok e) then Some 2%nat
  else if negb (vertex_compile_ok e) then Some 3%nat
  else if negb (fragment_compile_ok e) then Some 4%nat
  else if negb (link_ok e) then Some 5%nat
  else None.


(** Do the OpenGL entry points get loaded? They do when GLFW starts, the
    window with its context is created and GLAD succeeds. *)
Definition gl_loads (e : Env) : bool :=
  glfwInit_ok e && createWindow_ok e && gladLoad_ok e.



(** [main] returns: the startup fails, or the user ends the loop. *)
Definition returns (e : Env) (frames : list FrameEnv) : bool :=
  negb (startup_ok e) || existsb closes frames.

(** The part of the world that belongs to OpenGL, and whether the process
    runs. *)
Definition gl_state (w : World) :=
  (context w, gl_loaded w, vaos w, buffers w, textures w, shaders w, programs w,
   current_program w, gl_error w, crashed w).

(** Is one of the colour keys [keys] down in one of the iterations [fes]? *)
Definition color_key_pressed (keys : list (Key * vec3)) (fes : list FrameEnv) : bool :=
  existsb (fun fe => existsb (fun kc => key_down fe (fst kc)) keys) fes.

(** The value the uniform called [name] of program [p] holds. *)
Definition uniform_value (w : World) (p : GLuint) (name : string) : option UValue :=
  match programs w !! p with
  | Some pr => pr_values pr !! uniform_location name (pr_active pr)
  | None => None
  end.

(** The uniforms [Textured.render] offers, in the order it sets them. *)
Definition Textured_offered (r : Textured.Renderer) : list (string * UValue) :=
  [("model", UMat4 (Textured.model r)); ("view", UMat4 (Textured.view r));
   ("projection", UMat4 (Textured.projection r));
   ("objectColor", UVec3 (Textured.objectColor r))].

(** *** Vertex data *)

(** A vertex attribute as [glVertexAttribPointer] declares it: the number
    of components, then the stride and the offset, counted in floats. *)
Record Attribute : Type := {
  att_index : N;
  att_size : Z;
  att_stride : Z;
  att_offset : Z
}.

Definition attributes (cs : list Call) : list Attribute :=
  omap (fun c => match c with
                 | GlVertexAttribPointer i size stride offset =>
                     Some {| att_index := i; att_size := size;
                             att_stride := stride; att_offset := offset |}
                 | _ => None
                 end) cs.

Definition enabled (cs : list Call) : list N :=
  omap (fun c => match c with GlEnableVertexAttribArray i => Some i | _ => None end) cs.

Definition uploaded (cs : list Call) : list (list f32) :=
  omap (fun c => match c with GlBufferData data => Some data | _ => None end) cs.

Definition drawn (cs : list Call) : list (Z * Z) :=
  omap (fun c => match c with GlDrawArrays first count => Some (first, count) | _ => None end)
       cs.

(** The positions in the buffer that are read through attribute [a] when
    the vertices [first], ..., [first + count - 1] are drawn. *)
Definition fetched (a : Attribute) (d : Z * Z) : list Z :=
  flat_map (fun v => map (fun i => v * att_stride a + att_offset a + i)
                         (seqZ 0 (att_size a)))
           (seqZ (fst d) (snd d)).

(** The draw calls of [render] read, through the attributes [setupBuffers]
    declares, each float of the uploaded array once, and nothing else. *)
Definition reads_whole_buffer {R} (setupBuffers render : M R unit)
    (vertices : list f32) : Prop :=
  forall r w,
    gl_ready w = true ->
    let cs := emitted setupBuffers r w in
    let reads := flat_map (fun d => flat_map (fun a => fetched a d) (attributes cs))
                          (drawn (emitted render r w)) in
    uploaded cs = [vertices] /\
    enabled cs = map att_index (attributes cs) /\
    Forall (fun i => 0 <= i < Z.of_nat (List.length vertices)) reads /\
    List.NoDup reads /\
    List.length reads = List.length vertices.

(** *** The texture *)

(** The array [textureData] of [loadTexture] while it is filled: [None] is
    a byte that has not been written. Writing outside the array is an
    error. *)
Definition store_byte (index value : Z) (a : list (option Z)) : option (list (option Z)) :=
  if (0 <=? index) && (index <? Z.of_nat (List.length a))
  then Some (<[ Z.to_nat index := Some value ]> a)
  else None.

(** [for (i = ...; ...; i++) body] over the values [range] of [i], with a
    body that can fail. *)
Fixpoint for_each {S} (body : Z -> S -> option S) (range : list Z) (s : S) : option S :=
  match range with
  | [] => Some s
  | i :: rest =>
      match body i s with
      | Some s' => for_each body rest s'
      | None => None
      end
  end.

(** The body of the inner loop: the three bytes of the texel at ([x], [y]). *)
Definition fill_texel (textureWidth x y : Z) (a : list (option Z))
  : option (list (option Z)) :=
  let index := (y * textureWidth + x) * 3 in
  let '(red, green, blue) := Textured.textureData x y in
  match store_byte index red a with
  | Some a1 =>
      match store_byte (index + 1) green a1 with
      | Some a2 => store_byte (index + 2) blue a2
      | None => None
      end
  | None => None
  end.

(** The two loops of [loadTexture], over an array of
    [textureWidth * textureHeight * 3] bytes. *)
Definition fill_textureData (textureWidth textureHeight : Z) : option (list (option Z)) :=
  for_each (fun y => for_each (fun x => fill_texel textureWidth x y) (seqZ 0 textureWidth))
           (seqZ 0 textureHeight)
           (replicate (Z.to_nat (textureWidth * textureHeight * 3)) None).

(** A component of an RGB triple. *)
Definition channel (c : Z) (rgb : Z * Z * Z) : Z :=
  let '(red, green, blue) := rgb in
  if c =? 0 then red else if c =? 1 then green else blue.

(** The three bytes of the texel at ([x], [y]), once written. *)
Definition texel_bytes (x y : Z) : list (option Z) :=
  let '(red, green, blue) := Textured.textureData x y in
  [Some red; Some green; Some blue].

(** The bytes of a [textureWidth] x [textureHeight] texture, row by row. *)
Definition texture_bytes (textureWidth textureHeight : Z) : list (option Z) :=
  flat_map (fun y => flat_map (fun x => texel_bytes x y) (seqZ 0 textureWidth))
           (seqZ 0 textureHeight).

(** The events other than output to [cerr]. *)
Definition without_cerr (cs : list Call) : list Call :=
  List.filter (fun c => negb (is_cerr c)) cs.

(** The viewport after the resizes of the iterations [fes], one after the
    other, starting from [vp]. *)
Definition resized (vp : Z * Z * Z * Z) (fe : FrameEnv) : Z * Z * Z * Z :=
  match resize_to fe with
  | Some (width, height) => (0, 0, width, height)
  | None => vp
  end.

Definition is_viewport (c : Call) : bool :=
  match c with GlViewport _ _ _ _ => true | _ => false end.

(** A loop in which the viewport follows the window: as long as the user
    does not end it, the viewport after the loop is that of the last
    resize, or the one before the loop when there was none. *)
Definition viewport_follows_window {R} (run : list FrameEnv -> M R bool)
    (usable : R -> Prop) : Prop :=
  forall frames r w,
    gl_ready w = true -> usable r -> resize_cb w = true ->
    should_close w = false -> existsb closes frames = false ->
    viewport (world (run frames r w)) = fold_left resized frames (viewport w).

(** The members of the renderers that describe the scene rather than its
    animation: handles, window size, light, camera. *)
Definition Phong_scene (r : Phong.Renderer) :=
  (Phong.window r, Phong.VAO r, Phong.VBO r, Phong.shaderProgram r,
   Phong.width r, Phong.height r, Phong.lightPos r, Phong.lightColor r,
   Phong.viewPos r, Phong.view r, Phong.projection r).

Definition Textured_scene (r : Textured.Renderer) :=
  (Textured.window r, Textured.VAO r, Textured.VBO r, Textured.shaderProgram r,
   Textured.texture r, Textured.width r, Textured.height r,
   Textured.view r, Textured.projection r).

(** The shader objects created and deleted among the events [cs]. *)
Definition created_shaders (cs : list Call) : list GLuint :=
  omap (fun c => match c with GlCreateShader _ n => Some n | _ => None end) cs.

Definition deleted_shaders (cs : list Call) : list GLuint :=
  omap (fun c => match c with GlDeleteShader n => Some n | _ => None end) cs.

(** The shader objects that exist when the startup stops at the step
    [first_failure] gives: none before the vertex shader is created, the
    vertex shader when its compilation fails, both afterwards. *)
Definition shaders_made (e : Env) : list GLuint :=
  match first_failure e with
  | Some 0%nat | Some 1%nat | Some 2%nat => []
  | Some 3%nat => [1%N]
  | _ => [1%N; 2%N]
  end.

(** A program whose shader objects are deleted only if the whole startup
    succeeds. *)
Definition deletes_shaders_on_success_only {R}
    (main : Env -> list FrameEnv -> option Z * R * World) : Prop :=
  forall e frames,
    returns e frames = true ->
    let cs := rev (trace (world (main e frames))) in
    created_shaders cs = shaders_made e /\
    deleted_shaders cs = if startup_ok e then shaders_made e else [].

(* ================================================================= *)
(** ** The vertex shaders, over the reals

    [vertexShaderSource] of phong_triangle.cpp and of
    textured_triangle.cpp. A matrix is given by its rows; [m * v] and
    [a * b] are the products of GLSL. *)

Module VertexShaders.
Import Reals PhongShader.
Local Open Scope R_scope.

Record vec4 : Type := mk4 { x4 : R; y4 : R; z4 : R; w4 : R }.
Record mat4 : Type := mkm { r1 : vec4; r2 : vec4; r3 : vec4; r4 : vec4 }.
Record mat3 : Type := mkm3 { q1 : vec3; q2 : vec3; q3 : vec3 }.

Definition dot4 (a b : vec4) : R := x4 a * x4 b + y4 a * y4 b + z4 a * z4 b + w4 a * w4 b.

Definition c1 (m : mat4) : vec4 := mk4 (x4 (r1 m)) (x4 (r2 m)) (x4 (r3 m)) (x4 (r4 m)).
Definition c2 (m : mat4) : vec4 := mk4 (y4 (r1 m)) (y4 (r2 m)) (y4 (r3 m)) (y4 (r4 m)).
Definition c3 (m : mat4) : vec4 := mk4 (z4 (r1 m)) (z4 (r2 m)) (z4 (r3 m)) (z4 (r4 m)).
Definition c4 (m : mat4) : vec4 := mk4 (w4 (r1 m)) (w4 (r2 m)) (w4 (r3 m)) (w4 (r4 m)).

(** [m * v] *)
Definition mulMV (m : mat4) (v : vec4) : vec4 :=
  mk4 (dot4 (r1 m) v) (dot4 (r2 m) v) (dot4 (r3 m) v) (dot4 (r4 m) v).

(** [a * b] *)
Definition mulMM (a b : mat4) : mat4 :=
  let row (r : vec4) := mk4 (dot4 r (c1 b)) (dot4 r (c2 b)) (dot4 r (c3 b)) (dot4 r (c4 b)) in
  mkm (row (r1 a)) (row (r2 a)) (row (r3 a)) (row (r4 a)).

Definition transpose (m : mat4) : mat4 := mkm (c1 m) (c2 m) (c3 m) (c4 m).

Definition identity : mat4 :=
  mkm (mk4 1 0 0 0) (mk4 0 1 0 0) (mk4 0 0 1 0) (mk4 0 0 0 1).

(** [vec3(v)], [vec4(v, w)], [mat3(m)] and the product of a [mat3] with a
    [vec3]. *)
Definition xyz (v : vec4) : vec3 := mk (x4 v) (y4 v) (z4 v).
Definition extend (v : vec3) (w : R) : vec4 := mk4 (cx v) (cy v) (cz v) w.
Definition upper3 (m : mat4) : mat3 := mkm3 (xyz (r1 m)) (xyz (r2 m)) (xyz (r3 m)).
Definition mulM3V (m : mat3) (v : vec3) : vec3 := mk (dot (q1 m) v) (dot (q2 m) v) (dot (q3 m) v).

(** *** [inverse]: the transposed matrix of cofactors over the determinant *)

Inductive index : Type := i1 | i2 | i3 | i4.

Definition without (j : index) (v : vec4) : vec3 :=
  match j with
  | i1 => mk (y4 v) (z4 v) (w4 v)
  | i2 => mk (x4 v) (z4 v) (w4 v)
  | i3 => mk (x4 v) (y4 v) (w4 v)
  | i4 => mk (x4 v) (y4 v) (z4 v)
  end.

Definition rows_without (i : index) (m : mat4) : vec4 * vec4 * vec4 :=
  match i with
  | i1 => (r2 m, r3 m, r4 m)
  | i2 => (r1 m, r3 m, r4 m)
  | i3 => (r1 m, r2 m, r4 m)
  | i4 => (r1 m, r2 m, r3 m)
  end.

Definition cross (a b : vec3) : vec3 :=
  mk (cy a * cz b - cz a * cy b) (cz a * cx b - cx a * cz b) (cx a * cy b - cy a * cx b).

Definition det3 (a b c : vec3) : R := dot a (cross b c).

Definition minor (i j : index) (m : mat4) : R :=
  let '(a, b, c) := rows_without i m in
  det3 (without j a) (without j b) (without j c).

Definition odd (i : index) : bool :=
  match i with i1 | i3 => true | i2 | i4 => false end.

Definition cofactor (i j : index) (m : mat4) : R :=
  (if xorb (odd i) (odd j) then -1 else 1) * minor i j m.

Definition det (m : mat4) : R :=
  x4 (r1 m) * cofactor i1 i1 m + y4 (r1 m) * cofactor i1 i2 m +
  z4 (r1 m) * cofactor i1 i3 m + w4 (r1 m) * cofactor i1 i4 m.

(** The result is undefined in GLSL when [m] is singular. *)
Definition inverse (m : mat4) : mat4 :=
  let e (i j : index) := cofactor j i m / det m in
  mkm (mk4 (e i1 i1) (e i1 i2) (e i1 i3) (e i1 i4))
      (mk4 (e i2 i1) (e i2 i2) (e i2 i3) (e i2 i4))
      (mk4 (e i3 i1) (e i3 i2) (e i3 i3) (e i3 i4))
      (mk4 (e i4 i1) (e i4 i2) (e i4 i3) (e i4 i4)).

(** *** phong_triangle.cpp *)

Section Phong.
Variables model view projection : mat4.      (* uniforms *)
Variables position normal : vec3.            (* attributes *)

Definition Phong_FragPos : vec3 := xyz (mulMV model (extend position 1)).
Definition Phong_Normal : vec3 := mulM3V (upper3 (transpose (inverse model))) normal.
Definition Phong_gl_Position : vec4 :=
  mulMV (mulMM projection view) (extend Phong_FragPos 1).

End Phong.

(** *** textured_triangle.cpp *)

Section Textured.
Variables model view projection : mat4.
Variable position : vec3.

Definition Textured_gl_Position : vec4 :=
  mulMV (mulMM (mulMM projection view) model) (extend position 1).

End Textured.

(** A matrix that maps points to points: its last row is (0, 0, 0, 1). *)
Definition affine (m : mat4) : Prop := r4 m = mk4 0 0 0 1.

(** A rigid motion: an affine matrix whose upper left 3 x 3 part has
    orthonormal rows. *)
Definition rigid (m : mat4) : Prop :=
  affine m /\
  dot (xyz (r1 m)) (xyz (r1 m)) = 1 /\ dot (xyz (r2 m)) (xyz (r2 m)) = 1 /\
  dot (xyz (r3 m)) (xyz (r3 m)) = 1 /\
  dot (xyz (r1 m)) (xyz (r2 m)) = 0 /\ dot (xyz (r1 m)) (xyz (r3 m)) = 0 /\
  dot (xyz (r2 m)) (xyz (r3 m)) = 0.

(** The rotation by [angle] about the y axis, the matrix
    [glm::rotate(glm::mat4(1.0f), angle, glm::vec3(0, 1, 0))] stands for. *)
Definition rotate_y (angle : R) : mat4 :=
  mkm (mk4 (cos angle) 0 (sin angle) 0)
      (mk4 0 1 0 0)
      (mk4 (- sin angle) 0 (cos angle) 0)
      (mk4 0 0 0 1).

(** The inverse of a rigid motion: the transposed rotation, and the
    translation turned back. *)
Definition rigid_inverse (m : mat4) : mat4 :=
  let t := mk (w4 (r1 m)) (w4 (r2 m)) (w4 (r3 m)) in
  mkm (extend (xyz (c1 m)) (- dot (xyz (c1 m)) t))
      (extend (xyz (c2 m)) (- dot (xyz (c2 m)) t))
      (extend (xyz (c3 m)) (- dot (xyz (c3 m)) t))
      (mk4 0 0 0 1).

End VertexShaders.

(* ================================================================= *)
(** * Properties *)

(** ** The fragment shader *)

Module ShaderFacts.
Import Reals PhongShader.
Local Open Scope R_scope.

Lemma vec3_eq (a b : vec3) : cx a = cx b -> cy a = cy b -> cz a = cz b -> a = b.
Proof. destruct a, b; simpl; intros; subst; reflexivity. Qed.

Lemma dot_vneg_r (a b : vec3) : dot a (vneg b) = - dot a b.
Proof. unfold dot, vneg; simpl; ring. Qed.

Lemma Rmax_nonpos (a : R) : a <= 0 -> Rmax a 0 = 0.
Proof. intros H. unfold Rmax. destruct (Rle_dec a 0); lra. Qed.

(** Reflecting the incoming light about a normal it is perpendicular to
    leaves it unchanged. *)
Lemma reflect_perpendicular (L N : vec3) : dot N L = 0 -> reflect (vneg L) N = vneg L.
Proof.
  intros H. unfold reflect. rewrite dot_vneg_r, H.
  apply vec3_eq; simpl; ring.
Qed.

Lemma normalize_unit (a : vec3) : dot a a = 1 -> normalize a = a.
Proof.
  intros H. unfold normalize, length. rewrite H, sqrt_1, Rinv_1.
  apply vec3_eq; simpl; ring.
Qed.

Lemma norm_facing_z : norm facing_z = facing_z.
Proof. apply normalize_unit. unfold dot, facing_z; simpl; ring. Qed.

Lemma lightDir_plus_x : lightDir plus_x zero = plus_x.
Proof.
  unfold lightDir.
  replace (vsub plus_x zero) with plus_x by (apply vec3_eq; simpl; ring).
  apply normalize_unit. unfold dot, plus_x; simpl; ring.
Qed.

Lemma viewDir_minus_x : viewDir minus_x zero = minus_x.
Proof.
  unfold viewDir.
  replace (vsub minus_x zero) with minus_x by (apply vec3_eq; simpl; ring).
  apply normalize_unit. unfold dot, minus_x; simpl; ring.
Qed.

Lemma grazing_perpendicular : dot (norm facing_z) (lightDir plus_x zero) = 0.
Proof. rewrite norm_facing_z, lightDir_plus_x. unfold dot; simpl; ring. Qed.

Lemma grazing_spec : spec plus_x minus_x zero facing_z = 1.
Proof.
  unfold spec, reflectDir.
  rewrite reflect_perpendicular
    by (rewrite norm_facing_z, lightDir_plus_x; unfold dot; simpl; ring).
  rewrite viewDir_minus_x, lightDir_plus_x, dot_vneg_r.
  replace (- dot minus_x plus_x) with 1 by (unfold dot; simpl; ring).
  rewrite Rmax_left by lra. ring.
Qed.

(** C1 as stated fails: with the normal perpendicular to the light, a viewer
    placed opposite the light sees the full specular term 0.5 x lightColor,
    and the colour is 0.6 x, not 0.1 x, the object colour. *)
Lemma specular_at_grazing_light :
  dot (norm facing_z) (lightDir plus_x zero) = 0 /\
  specular plus_x minus_x white zero facing_z = mk 0.5 0.5 0.5 /\
  specular plus_x minus_x white zero facing_z <> zero /\
  FragColor plus_x minus_x white white zero facing_z = (mk 0.6 0.6 0.6, 1) /\
  FragColor plus_x minus_x white white zero facing_z <> (vmul (scale 0.1 white) white, 1).
Proof.
  assert (HS : specular plus_x minus_x white zero facing_z = mk 0.5 0.5 0.5).
  { unfold specular, specularStrength. rewrite grazing_spec.
    apply vec3_eq; simpl; lra. }
  assert (HF : FragColor plus_x minus_x white white zero facing_z = (mk 0.6 0.6 0.6, 1)).
  { unfold FragColor, result. rewrite HS. unfold diffuse, diff.
    rewrite grazing_perpendicular, Rmax_nonpos by lra.
    f_equal. apply vec3_eq; unfold ambient, ambientStrength; simpl; lra. }
  split; [exact grazing_perpendicular|].
  split; [exact HS|].
  split; [rewrite HS; intros E; injection E as E _ _; lra|].
  split; [exact HF|].
  rewrite HF. intros E. injection E as E _ _. simpl in E. lra.
Qed.

(** C1, amended: where the normalized normal is perpendicular to the
    normalized light direction, the diffuse term is zero and the light is
    reflected onto its own opposite, so the specular term is
    0.5 x max(-dot(viewDir, lightDir), 0)^32 x lightColor. For a viewer with
    dot(viewDir, lightDir) >= 0 it is zero, and the colour is the ambient
    term alone: 0.1 x lightColor x objectColor, alpha 1. *)
Theorem perpendicular_light
    (lightPos viewPos lightColor objectColor FragPos Normal : vec3) :
  dot (norm Normal) (lightDir lightPos FragPos) = 0 ->
  diffuse lightPos lightColor FragPos Normal = zero /\
  reflectDir lightPos FragPos Normal = vneg (lightDir lightPos FragPos) /\
  specular lightPos viewPos lightColor FragPos Normal =
    scale (0.5 * Rmax (- dot (viewDir viewPos FragPos) (lightDir lightPos FragPos)) 0 ^ 32)
          lightColor /\
  (0 <= dot (viewDir viewPos FragPos) (lightDir lightPos FragPos) ->
   specular lightPos viewPos lightColor FragPos Normal = zero /\
   FragColor lightPos viewPos lightColor objectColor FragPos Normal =
     (vmul (scale 0.1 lightColor) objectColor, 1)).
Proof.
  intros Hperp.
  assert (Hdiff : diffuse lightPos lightColor FragPos Normal = zero).
  { unfold diffuse, diff. rewrite Hperp, Rmax_nonpos by lra.
    apply vec3_eq; simpl; ring. }
  assert (Hrefl : reflectDir lightPos FragPos Normal = vneg (lightDir lightPos FragPos)).
  { unfold reflectDir. apply reflect_perpendicular. exact Hperp. }
  assert (Hspec : specular lightPos viewPos lightColor FragPos Normal =
    scale (0.5 * Rmax (- dot (viewDir viewPos FragPos) (lightDir lightPos FragPos)) 0 ^ 32)
          lightColor).
  { unfold specular, spec, specularStrength. rewrite Hrefl, dot_vneg_r. reflexivity. }
  repeat split; trivial.
  - rewrite Hspec, Rmax_nonpos by lra. apply vec3_eq; simpl; ring.
  - unfold FragColor, result. rewrite Hdiff, Hspec, Rmax_nonpos by lra.
    f_equal. unfold ambient, ambientStrength. apply vec3_eq; simpl; ring.
Qed.

(** The same fragment seen from the side of the light: ambient only. *)
Lemma perpendicular_light_witness :
  dot (norm facing_z) (lightDir plus_x zero) = 0 /\
  FragColor plus_x plus_x white white zero facing_z = (vmul (scale 0.1 white) white, 1).
Proof.
  split.
  - exact grazing_perpendicular.
  - apply (perpendicular_light plus_x plus_x white white zero facing_z).
    + exact grazing_perpendicular.
    + unfold viewDir. fold (lightDir plus_x zero). rewrite lightDir_plus_x.
      unfold dot, plus_x; simpl; lra.
Defined.

End ShaderFacts.

(* ================================================================= *)
(** ** Sequencing *)

Section BindFacts.
Context {R A B : Type} (m : M R A) (k : A -> M R B) (r : R) (w : World).

Lemma bind_eq :
  bind m k r w = k (result (m r w)) (object (m r w)) (world (m r w)).
Proof.
  unfold bind, result, object, world.
  destruct (m r w) as [[a r1] w1]. reflexivity.
Qed.

End BindFacts.

Lemma begin_frame_eq {R} fe (r : R) w : begin_frame fe r w = (tt, r, set_frame fe w).
Proof. reflexivity. Qed.

Lemma frame_set_frame fe w : frame (set_frame fe w) = fe.
Proof. destruct w; reflexivity. Qed.

(** Splits a world into its fields and decides whether the process runs and
    OpenGL is usable. *)
Ltac destruct_world w :=
  let e := fresh "w_env" in let f := fresh "w_frame" in
  let c := fresh "w_ctx" in let l := fresh "w_loaded" in
  let sc := fresh "w_close" in let cb := fresh "w_cb" in
  let vp := fresh "w_viewport" in let nn := fresh "w_next" in
  let va := fresh "w_vaos" in let bu := fresh "w_buffers" in
  let te := fresh "w_textures" in let sh := fresh "w_shaders" in
  let pg := fresh "w_programs" in let cp := fresh "w_current" in
  let ge := fresh "w_error" in let tr := fresh "w_trace" in
  let fa := fresh "w_fault" in let cr := fresh "w_crashed" in
  destruct w as [e f c l sc cb vp nn va bu te sh pg cp ge tr fa cr]; destruct l, c, cr.

(** Splits the user's actions into cases. *)
Ltac destruct_keys fe :=
  let k1 := fresh "esc_k" in let k2 := fresh "r_k" in let k3 := fresh "g_k" in
  let k4 := fresh "b_k" in let k5 := fresh "y_k" in let k6 := fresh "w_k" in
  let cr := fresh "closing" in let rs := fresh "resize" in
  destruct fe as [[k1 k2 k3 k4 k5 k6] cr rs];
  destruct k1, k2, k3, k4, k5, k6.

Ltac destruct_frame fe :=
  let k1 := fresh "esc_k" in let k2 := fresh "r_k" in let k3 := fresh "g_k" in
  let k4 := fresh "b_k" in let k5 := fresh "y_k" in let k6 := fresh "w_k" in
  let cr := fresh "closing" in let rs := fresh "resize" in
  let wd := fresh "wd" in let ht := fresh "ht" in
  destruct fe as [[k1 k2 k3 k4 k5 k6] cr rs];
  destruct k1, k2, k3, k4, k5, k6, cr, rs as [[wd ht]|].

(* ================================================================= *)
(** ** Colour keys *)

Section LastHeld.
Variable keys : list (Key * vec3).
Variable down : Key -> bool.

Let pick (acc : option vec3) (kc : Key * vec3) : option vec3 :=
  if down (fst kc) then Some (snd kc) else acc.

Lemma fold_pick_up (l : list (Key * vec3)) (acc : option vec3) :
  (forall k, In k (map fst l) -> down k = false) ->
  fold_left pick l acc = acc.
Proof.
  revert acc. induction l as [|kc l IH]; intros acc Hup; [reflexivity|].
  simpl. unfold pick at 2. rewrite Hup by (left; reflexivity).
  apply IH. intros k Hk. apply Hup. right. exact Hk.
Qed.

Lemma fold_pick_last (l : list (Key * vec3)) (acc : option vec3) k c :
  List.NoDup (map fst l) ->
  In (k, c) l ->
  down k = true ->
  (forall k', In k' (checked_after k l) -> down k' = false) ->
  fold_left pick l acc = Some c.
Proof.
  revert acc. induction l as [|[k0 c0] l IH]; intros acc Hnd Hin Hk Hafter; [destruct Hin|].
  cbn [map fst] in Hnd. apply List.NoDup_cons_iff in Hnd as [Hnotin Hnd]. simpl in *.
  destruct Hin as [Heq|Hin].
  - injection Heq as -> ->.
    rewrite bool_decide_eq_true_2 in Hafter by reflexivity.
    unfold pick at 2; simpl. rewrite Hk. apply fold_pick_up. exact Hafter.
  - assert (k0 <> k).
    { intros ->. apply Hnotin. apply (in_map fst) in Hin. exact Hin. }
    rewrite bool_decide_eq_false_2 in Hafter by assumption.
    apply IH; assumption.
Qed.

Lemma last_held_none :
  (forall k c, In (k, c) keys -> down k = false) -> last_held keys down = None.
Proof.
  intros H. apply fold_pick_up. intros k Hk.
  apply in_map_iff in Hk as [[k' c] [<- Hin]]. eapply H. exact Hin.
Qed.

Lemma last_held_some k c :
  List.NoDup (map fst keys) ->
  In (k, c) keys ->
  down k = true ->
  (forall k', In k' (checked_after k keys) -> down k' = false) ->
  last_held keys down = Some c.
Proof. apply fold_pick_last. Qed.

End LastHeld.

Lemma color_after_held keys k c (held : list FrameEnv) c0 :
  List.NoDup (map fst keys) ->
  In (k, c) keys ->
  held <> [] ->
  (forall fe, In fe held ->
     key_down fe k = true /\
     forall k', In k' (checked_after k keys) -> key_down fe k' = false) ->
  color_after keys held c0 = c.
Proof.
  intros Hnd Hin Hne Hheld. revert c0.
  induction held as [|fe held IH]; intros c0; [congruence|].
  unfold color_after; simpl.
  destruct (Hheld fe (or_introl eq_refl)) as [Hk Hafter].
  rewrite (last_held_some keys (key_down fe) k c Hnd Hin Hk Hafter); simpl.
  destruct held as [|fe' held']; [reflexivity|].
  apply IH; [discriminate|].
  intros fe0 H0. apply Hheld. right. exact H0.
Qed.

Lemma color_after_released keys (released : list FrameEnv) c0 :
  (forall fe k' c', In fe released -> In (k', c') keys -> key_down fe k' = false) ->
  color_after keys released c0 = c0.
Proof.
  intros Hrel. induction released as [|fe rest IH]; [reflexivity|].
  unfold color_after; simpl.
  rewrite last_held_none by (intros k c Hin; eapply Hrel; [left; reflexivity|exact Hin]).
  simpl. apply IH. intros fe0 k' c' H0. apply Hrel. right. exact H0.
Qed.

Lemma color_after_app keys (a b : list FrameEnv) c0 :
  color_after keys (a ++ b)%list c0 = color_after keys b (color_after keys a c0).
Proof. unfold color_after. apply fold_left_app. Qed.

Lemma in_firstn_in {A} (x : A) n (l : list A) : In x (firstn n l) -> In x l.
Proof.
  revert l. induction n as [|n IH]; intros [|a l]; simpl; try tauto.
  intros [->|H]; [left; reflexivity|right; apply IH; exact H].
Qed.

(** What is left to show for a renderer: its loop body changes the colour as
    [color_after] says. *)
Lemma key_holds_color_intro {R} (iterations : list FrameEnv -> M R unit)
    (objectColor : R -> vec3) (keys : list (Key * vec3)) :
  List.NoDup (map fst keys) ->
  (forall fes r w,
     objectColor (object (iterations fes r w)) = color_after keys fes (objectColor r)) ->
  key_holds_color iterations objectColor keys.
Proof.
  intros Hnd Hfold k c held released r w Hin Hne Hheld Hrel. split.
  - intros n [Hn1 Hn2]. rewrite Hfold.
    apply (color_after_held keys k c); trivial.
    + destruct held; [congruence|]. destruct n; [lia|]. discriminate.
    + intros fe Hfe. apply Hheld. eapply in_firstn_in. exact Hfe.
  - intros n. rewrite Hfold, color_after_app.
    rewrite (color_after_held keys k c held) by assumption.
    apply color_after_released.
    intros fe k' c' Hfe. apply Hrel. eapply in_firstn_in. exact Hfe.
Qed.

(* ================================================================= *)
(** ** What an iteration does to the members *)

Lemma Phong_processInput_object r w :
  object (Phong.processInput r w) = Phong_after_input (key_down (frame w)) r.
Proof.
  destruct r, w as [? fe ? ? ? ? ? ? ? ? ? ? ? ? ? ? ? []];
  destruct_keys fe; reflexivity.
Qed.

Lemma Phong_render_object r w : object (Phong.render r w) = Phong_after_render r.
Proof. destruct r. destruct_world w; reflexivity. Qed.

Lemma Phong_poll_object r w :
  object (glfwPollEvents Phong.framebufferSizeCallback r w) = r.
Proof.
  unfold glfwPollEvents.
  destruct (crashed w); [reflexivity|].
  destruct (resize_to (frame w)) as [[? ?]|]; [|reflexivity].
  destruct (resize_cb w); [|reflexivity].
  destruct_world w; reflexivity.
Qed.

Lemma Phong_iteration_object fe r w :
  object (Phong.iteration fe r w) = Phong_after_iteration r fe.
Proof.
  unfold Phong.iteration, Phong_after_iteration.
  rewrite bind_eq, begin_frame_eq. cbn [result object world fst snd].
  rewrite bind_eq, Phong_processInput_object, frame_set_frame.
  rewrite bind_eq, Phong_render_object.
  rewrite bind_eq. cbn [glfwSwapBuffers result object world fst snd].
  apply Phong_poll_object.
Qed.

Lemma Phong_iterations_object fes r w :
  object (Phong.iterations fes r w) = fold_left Phong_after_iteration fes r.
Proof.
  revert r w. induction fes as [|fe fes IH]; intros r w; [reflexivity|].
  cbn [Phong.iterations fold_left].
  rewrite bind_eq, IH, Phong_iteration_object. reflexivity.
Qed.

Lemma Textured_processInput_object r w :
  object (Textured.processInput r w) = Textured_after_input (key_down (frame w)) r.
Proof.
  destruct r, w as [? fe ? ? ? ? ? ? ? ? ? ? ? ? ? ? ? []];
  destruct_keys fe; reflexivity.
Qed.

Lemma Textured_render_object r w : object (Textured.render r w) = Textured_after_render r.
Proof. destruct r. destruct_world w; reflexivity. Qed.

Lemma Textured_poll_object r w :
  object (glfwPollEvents Textured.framebufferSizeCallback r w) = r.
Proof.
  unfold glfwPollEvents.
  destruct (crashed w); [reflexivity|].
  destruct (resize_to (frame w)) as [[? ?]|]; [|reflexivity].
  destruct (resize_cb w); [|reflexivity].
  destruct_world w; reflexivity.
Qed.

Lemma Textured_iteration_object fe r w :
  object (Textured.iteration fe r w) = Textured_after_iteration r fe.
Proof.
  unfold Textured.iteration, Textured_after_iteration.
  rewrite bind_eq, begin_frame_eq. cbn [result object world fst snd].
  rewrite bind_eq, Textured_processInput_object, frame_set_frame.
  rewrite bind_eq, Textured_render_object.
  rewrite bind_eq. cbn [glfwSwapBuffers result object world fst snd].
  apply Textured_poll_object.
Qed.

Lemma Textured_iterations_object fes r w :
  object (Textured.iterations fes r w) = fold_left Textured_after_iteration fes r.
Proof.
  revert r w. induction fes as [|fe fes IH]; intros r w; [reflexivity|].
  cbn [Textured.iterations fold_left].
  rewrite bind_eq, IH, Textured_iteration_object. reflexivity.
Qed.

(** *** The colour *)

Lemma Phong_after_iteration_color r fe :
  Phong.objectColor (Phong_after_iteration r fe) =
  default (Phong.objectColor r) (last_held Phong.color_keys (key_down fe)).
Proof.
  unfold Phong_after_iteration, Phong_after_input.
  destruct (last_held Phong.color_keys (key_down fe)); destruct r; reflexivity.
Qed.

Lemma Phong_color_after fes r w :
  Phong.objectColor (object (Phong.iterations fes r w)) =
  color_after Phong.color_keys fes (Phong.objectColor r).
Proof.
  rewrite Phong_iterations_object. clear w. revert r.
  induction fes as [|fe fes IH]; intros r; [reflexivity|].
  cbn [fold_left color_after]. rewrite IH, Phong_after_iteration_color. reflexivity.
Qed.

Lemma Textured_after_iteration_color r fe :
  Textured.objectColor (Textured_after_iteration r fe) =
  default (Textured.objectColor r) (last_held Textured.color_keys (key_down fe)).
Proof.
  unfold Textured_after_iteration, Textured_after_input.
  destruct (last_held Textured.color_keys (key_down fe)); destruct r; reflexivity.
Qed.

Lemma Textured_color_after fes r w :
  Textured.objectColor (object (Textured.iterations fes r w)) =
  color_after Textured.color_keys fes (Textured.objectColor r).
Proof.
  rewrite Textured_iterations_object. clear w. revert r.
  induction fes as [|fe fes IH]; intros r; [reflexivity|].
  cbn [fold_left color_after]. rewrite IH, Textured_after_iteration_color. reflexivity.
Qed.

Lemma Phong_keys_nodup : List.NoDup (map fst Phong.color_keys).
Proof. repeat constructor; simpl; intuition discriminate. Qed.

Lemma Textured_keys_nodup : List.NoDup (map fst Textured.color_keys).
Proof. repeat constructor; simpl; intuition discriminate. Qed.

(** C3 as stated fails when a second colour key is down: with R and Y held
    (G and W in the textured program) the colour after every iteration is
    that of the key checked last, not that of R (of G). *)
Lemma later_key_overrides :
  let ry := holding [KEY_R; KEY_Y] in
  let gw := holding [KEY_G; KEY_W] in
  key_down ry KEY_R = true /\
  Phong.objectColor
    (object (Phong.iterations [ry; ry] Phong.PhongTriangleRenderer
               (initial_world all_ok))) = Phong.yellow /\
  Phong.yellow <> Phong.red /\
  key_down gw KEY_G = true /\
  Textured.objectColor
    (object (Textured.iterations [gw; gw] Textured.TexturedTriangleRenderer
               (initial_world all_ok))) = Textured.white /\
  Textured.white <> Textured.green.
Proof. vm_compute. repeat split; discriminate. Qed.

(** C3, amended: a colour key (R, G, B, Y in the Phong program; R, G, B, W
    in the textured one) held for K >= 1 consecutive iterations, while no
    colour key that [processInput] checks after it is down, makes the object
    colour that key's colour after each of the K iterations; and the colour
    stays so after the key is released, as long as no colour key is down. *)
Theorem color_key_held :
  key_holds_color Phong.iterations Phong.objectColor Phong.color_keys /\
  key_holds_color Textured.iterations Textured.objectColor Textured.color_keys.
Proof.
  split.
  - apply key_holds_color_intro; [exact Phong_keys_nodup|exact Phong_color_after].
  - apply key_holds_color_intro; [exact Textured_keys_nodup|exact Textured_color_after].
Qed.

(** G held for two iterations (R also down in the second), then released for
    one: the colour is green after each of the three. *)
Lemma color_key_held_witness :
  Phong.objectColor
    (object (Phong.iterations
               ([holding [KEY_G]; holding [KEY_R; KEY_G]] ++ firstn 1 [no_keys])%list
               Phong.PhongTriangleRenderer (initial_world all_ok))) = Phong.green.
Proof.
  refine (proj2 (proj1 color_key_held KEY_G Phong.green
                   [holding [KEY_G]; holding [KEY_R; KEY_G]] [no_keys] _ _ _ _ _ _) 1%nat).
  - simpl. tauto.
  - discriminate.
  - intros fe [<-|[<-|[]]]; (split; [reflexivity|]);
      intros k' [<-|[<-|[]]]; reflexivity.
  - intros fe k' c' [<-|[]] _. destruct k'; reflexivity.
Defined.

(** C10: [processInput] asks for Escape, R, G, B and then Y (Phong) or W
    (textured), whatever the keys are, and leaves as object colour that of
    the last colour key, in this order, that is down; the colour is unchanged
    when none is. The outcome depends on the world only through the keys. *)
Theorem last_held_key_wins :
  (forall r w,
     keys_polled (emitted Phong.processInput r w) =
       [KEY_ESCAPE; KEY_R; KEY_G; KEY_B; KEY_Y] /\
     Phong.objectColor (object (Phong.processInput r w)) =
       default (Phong.objectColor r) (last_held Phong.color_keys (key_down (frame w)))) /\
  (forall r w,
     keys_polled (emitted Textured.processInput r w) =
       [KEY_ESCAPE; KEY_R; KEY_G; KEY_B; KEY_W] /\
     Textured.objectColor (object (Textured.processInput r w)) =
       default (Textured.objectColor r)
               (last_held Textured.color_keys (key_down (frame w)))).
Proof.
  split; intros r w; split.
  - destruct r, w as [? fe ? ? ? ? ? ? ? ? ? ? ? ? ? ? ? []];
    destruct_keys fe; reflexivity.
  - rewrite Phong_processInput_object. unfold Phong_after_input.
    destruct (last_held Phong.color_keys (key_down (frame w))); destruct r; reflexivity.
  - destruct r, w as [? fe ? ? ? ? ? ? ? ? ? ? ? ? ? ? ? []];
    destruct_keys fe; reflexivity.
  - rewrite Textured_processInput_object. unfold Textured_after_input.
    destruct (last_held Textured.color_keys (key_down (frame w))); destruct r; reflexivity.
Qed.

(* ================================================================= *)
(** ** What an iteration does to the world *)

Ltac split_all := repeat match goal with |- _ /\ _ => split end.

Lemma effect_ready w w' sc vp : effect w w' sc vp -> gl_ready w' = true.
Proof. intros H. apply H. Qed.

Lemma effect_intro w w' sc vp :
  (gl_ready w', fault w', resize_cb w', env w', frame w', should_close w', viewport w') =
  (true, fault w, resize_cb w, env w, frame w, sc, vp) ->
  effect w w' sc vp.
Proof. intros H. injection H as ? ? ? ? ? ? ?. unfold effect. split_all; assumption. Qed.

Lemma Phong_iteration_effect fe r w :
  gl_ready w = true -> Phong_assigned r ->
  effect (set_frame fe w) (world (Phong.iteration fe r w))
    (should_close w || closes fe) (viewport_after fe w).
Proof.
  intros Hready ([vao Hvao] & [vbo Hvbo] & [p Hp]).
  destruct r; cbn in Hvao, Hvbo, Hp; subst.
  destruct_world w; try discriminate Hready.
  destruct w_close, w_cb; destruct_frame fe; apply effect_intro; reflexivity.
Qed.

(* ================================================================= *)
(** ** Rotation *)

Lemma Phong_after_iteration_angle r fe :
  Phong.rotationAngle (Phong_after_iteration r fe) =
  f32_add (Phong.rotationAngle r) (f32_lit 1 100).
Proof.
  unfold Phong_after_iteration, Phong_after_input.
  destruct (last_held Phong.color_keys (key_down fe)); destruct r; reflexivity.
Qed.

Lemma Phong_after_iteration_model r fe :
  Phong.model (Phong_after_iteration r fe) =
  glm_rotate mat4_identity (Phong.rotationAngle (Phong_after_iteration r fe)) y_axis.
Proof.
  unfold Phong_after_iteration, Phong_after_input.
  destruct (last_held Phong.color_keys (key_down fe)); destruct r; reflexivity.
Qed.

Lemma Phong_fold_angle fes r :
  Phong.rotationAngle (fold_left Phong_after_iteration fes r) =
  accumulate (List.length fes) (Phong.rotationAngle r).
Proof.
  revert r. induction fes as [|fe fes IH]; intros r; [reflexivity|].
  cbn [fold_left List.length]. rewrite IH, Phong_after_iteration_angle.
  symmetry. exact (Nat.iter_succ_r _ (fun x => f32_add x (f32_lit 1 100)) _).
Qed.

Lemma Phong_fold_model fes r :
  Phong.model (fold_left Phong_after_iteration fes r) =
  match fes with
  | [] => Phong.model r
  | _ => glm_rotate mat4_identity
           (Phong.rotationAngle (fold_left Phong_after_iteration fes r)) y_axis
  end.
Proof.
  revert r. induction fes as [|fe fes IH]; intros r; [reflexivity|].
  cbn [fold_left]. rewrite IH. destruct fes as [|fe' fes']; [|reflexivity].
  apply Phong_after_iteration_model.
Qed.

Lemma Phong_init_members e :
  let x := Phong.init Phong.PhongTriangleRenderer (initial_world e) in
  Phong.rotationAngle (object x) = f32_zero /\
  Phong.model (object x) = mat4_identity /\
  Phong.projection (object x) = Phong.projection Phong.PhongTriangleRenderer.
Proof.
  destruct e as [i cw gl vs fs lk keeps ba ta].
  destruct i, cw, gl, vs, fs, lk; cbv zeta; split_all; reflexivity.
Qed.

(** C2 as stated fails for N = 1000: the thousandth angle is 10485900 x 2^-20
    (about 10.000134), which is neither the exact product 1000 x 0.01f, nor
    that product rounded to [float] (10.0f), nor 10. *)
Lemma rotation_drifts :
  let x := Phong.main all_ok (repeat no_keys 1000) in
  let a := Phong.rotationAngle (object x) in
  List.length (List.filter is_draw (trace (world x))) = 1000%nat /\
  Phong.model (object x) = glm_rotate mat4_identity a y_axis /\
  a = S754_finite false 10485900 (-20) /\
  f32_exactly a (1000 * delta) = false /\
  f32_eqb a (f32_mul (f32_of_Z 1000) (f32_lit 1 100)) = false /\
  f32_exactly a 10 = false.
Proof. vm_compute. split_all; reflexivity. Qed.

(** C2, amended: [rotationAngle] is 0 and the model matrix the identity when
    the loop is entered; after N iterations [rotationAngle] is the result of
    N successive [float] additions of 0.01f, never reduced into [0, 2 pi)
    (after 1000 iterations it is above 2 pi), and, for N >= 1, the model
    matrix is [glm::rotate] of the identity by that angle about the y axis.
    The angle is exactly N x 0.01f for N <= 4; the fifth addition is the
    first that is rounded. *)
Theorem rotation_accumulates :
  (forall e,
     let x := Phong.init Phong.PhongTriangleRenderer (initial_world e) in
     Phong.rotationAngle (object x) = f32_zero /\
     Phong.model (object x) = mat4_identity) /\
  (forall fes r w,
     let x := Phong.iterations fes r w in
     Phong.rotationAngle (object x) =
       accumulate (List.length fes) (Phong.rotationAngle r) /\
     Phong.model (object x) =
       match fes with
       | [] => Phong.model r
       | _ => glm_rotate mat4_identity (Phong.rotationAngle (object x)) y_axis
       end) /\
  (forall N, (N <= 4)%nat ->
     f32_exactly (accumulate N f32_zero) (inject_Z (Z.of_nat N) * delta) = true) /\
  f32_exactly (accumulate 5 f32_zero) (5 * delta) = false /\
  f32_ltb two_pi (accumulate 1000 f32_zero) = true.
Proof.
  split_all.
  - intros e. destruct (Phong_init_members e) as (H1 & H2 & _). split; assumption.
  - intros fes r w. cbv zeta. rewrite Phong_iterations_object. split.
    + apply Phong_fold_angle.
    + apply Phong_fold_model.
  - intros N HN.
    do 5 (destruct N as [|N]; [vm_compute; reflexivity|]). lia.
  - vm_compute. reflexivity.
  - vm_compute. reflexivity.
Qed.

Lemma rotation_accumulates_witness :
  f32_exactly (accumulate 4 f32_zero) (inject_Z (Z.of_nat 4) * delta) = true.
Proof.
  apply (proj1 (proj2 (proj2 rotation_accumulates)) 4%nat). lia.
Defined.

(* ================================================================= *)
(** ** Resizing *)

Lemma Phong_after_iteration_projection r fe :
  Phong.projection (Phong_after_iteration r fe) = Phong.projection r.
Proof.
  unfold Phong_after_iteration, Phong_after_input.
  destruct (last_held Phong.color_keys (key_down fe)); destruct r; reflexivity.
Qed.

Lemma Phong_fold_projection fes r :
  Phong.projection (fold_left Phong_after_iteration fes r) = Phong.projection r.
Proof.
  revert r. induction fes as [|fe fes IH]; intros r; [reflexivity|].
  cbn [fold_left]. rewrite IH. apply Phong_after_iteration_projection.
Qed.

(** The events of [Phong.render] where OpenGL is usable. *)
Lemma Phong_render_emitted r w :
  gl_ready w = true ->
  let p := default (uninitialized (env w) "shaderProgram") (Phong.shaderProgram r) in
  let loc name := program_location name p (programs w) in
  let r' := Phong_after_render r in
  emitted Phong.render r w =
  [ GlClearColor (f32_lit 1 10) (f32_lit 1 10) (f32_lit 1 10) (f32_of_Z 1);
    GlClear true true;
    GlUseProgram p;
    Assign "rotationAngle";
    Assign "model";
    GlGetUniformLocation p "model";
    GlGetUniformLocation p "view";
    GlGetUniformLocation p "projection";
    GlGetUniformLocation p "lightPos";
    GlGetUniformLocation p "lightColor";
    GlGetUniformLocation p "objectColor";
    GlGetUniformLocation p "viewPos";
    GlUniformMatrix4fv (loc "model") (Phong.model r');
    GlUniformMatrix4fv (loc "view") (Phong.view r);
    GlUniformMatrix4fv (loc "projection") (Phong.projection r);
    GlUniform3fv (loc "lightPos") (Phong.lightPos r);
    GlUniform3fv (loc "lightColor") (Phong.lightColor r);
    GlUniform3fv (loc "objectColor") (Phong.objectColor r);
    GlUniform3fv (loc "viewPos") (Phong.viewPos r);
    GlBindVertexArray (default (uninitialized (env w) "VAO") (Phong.VAO r));
    GlDrawArrays 0 3;
    GlBindVertexArray 0%N ].
Proof.
  intros Hready. destruct r.
  destruct_world w; try discriminate Hready. reflexivity.
Qed.

Lemma Phong_render_uploads_projection r w p :
  gl_ready w = true -> Phong.shaderProgram r = Some p ->
  In (GlUniformMatrix4fv (program_location "projection" p (programs w)) (Phong.projection r))
     (emitted Phong.render r w).
Proof.
  intros Hready Hp. rewrite Phong_render_emitted by exact Hready.
  rewrite Hp. cbn [default]. do 14 right. left. reflexivity.
Qed.

(** C7 as stated fails: after the framebuffer is resized to 400 x 400 the
    viewport is 400 x 400, but the projection matrix the next frames use is
    still the one computed with aspect ratio 800/600. *)
Lemma projection_ignores_resize :
  let x := Phong.main all_ok [resizing 400 400; no_keys; no_keys] in
  let a := f32_div (f32_of_Z 800) (f32_of_Z 600) in
  viewport (world x) = (0, 0, 400, 400) /\
  aspect_of (Phong.projection (object x)) = Some a /\
  map aspect_of (uploads 2 (rev (trace (world x)))) = [Some a; Some a; Some a] /\
  f32_eqb a (f32_div (f32_of_Z 400) (f32_of_Z 400)) = false.
Proof. vm_compute. split_all; reflexivity. Qed.

(** C7, amended: a framebuffer-resize notification to (w, h) is forwarded
    into the viewport only, which becomes (0, 0, w, h). The projection
    matrix is computed once, by the constructor, with aspect ratio 800/600;
    no iteration changes it, whatever the resizes, and [render] sets the
    [projection] uniform to it in every frame. *)
Theorem resize_updates_viewport_only :
  (forall fe r w width height,
     resize_to fe = Some (width, height) ->
     resize_cb w = true -> gl_ready w = true -> Phong_assigned r ->
     let x := Phong.iteration fe r w in
     viewport (world x) = (0, 0, width, height) /\
     Phong.projection (object x) = Phong.projection r) /\
  (forall fes r w,
     Phong.projection (object (Phong.iterations fes r w)) = Phong.projection r) /\
  (forall r w p,
     gl_ready w = true -> Phong.shaderProgram r = Some p ->
     In (GlUniformMatrix4fv (program_location "projection" p (programs w))
                            (Phong.projection r))
        (emitted Phong.render r w)) /\
  (forall e,
     aspect_of (Phong.projection
                  (object (Phong.init Phong.PhongTriangleRenderer (initial_world e)))) =
     Some (f32_div (f32_of_Z 800) (f32_of_Z 600))).
Proof.
  split_all.
  - intros fe r w width height Hrs Hcb Hready Hr. cbv zeta. split.
    + pose proof (Phong_iteration_effect fe r w Hready Hr)
        as (_ & _ & _ & _ & _ & _ & Hvp).
      rewrite Hvp. unfold viewport_after. rewrite Hrs, Hcb. reflexivity.
    + rewrite Phong_iteration_object. apply Phong_after_iteration_projection.
  - intros fes r w. rewrite Phong_iterations_object. apply Phong_fold_projection.
  - exact Phong_render_uploads_projection.
  - intros e. destruct (Phong_init_members e) as (_ & _ & ->). reflexivity.
Qed.

Lemma Phong_sample_assigned : Phong_assigned Phong_sample.
Proof. unfold Phong_assigned; cbn. split_all; eexists; reflexivity. Qed.

Lemma resize_updates_viewport_only_witness :
  let x := Phong.iteration (resizing 400 300) Phong_sample ready_world in
  viewport (world x) = (0, 0, 400, 300) /\
  Phong.projection (object x) = Phong.projection Phong_sample.
Proof.
  exact (proj1 resize_updates_viewport_only (resizing 400 300) Phong_sample ready_world
           400 300 eq_refl eq_refl eq_refl Phong_sample_assigned).
Defined.

(* ================================================================= *)
(** ** The render loop *)

Lemma log_ready c w : gl_ready (log c w) = gl_ready w.
Proof. destruct w; reflexivity. Qed.

(** Where OpenGL is usable the process runs. *)
Lemma ready_running w : gl_ready w = true -> crashed w = false.
Proof.
  unfold gl_ready. intros H. apply andb_true_iff in H as [_ H].
  apply negb_true_iff in H. exact H.
Qed.

Lemma running_alive w w' : crashed w = false -> alive w w' = w'.
Proof. unfold alive. intros ->. reflexivity. Qed.

Lemma ready_alive w w' : gl_ready w = true -> alive w w' = w'.
Proof. intros H. apply running_alive, ready_running, H. Qed.

Lemma log_fault c w : fault (log c w) = fault w.
Proof. destruct w; reflexivity. Qed.

Lemma log_should_close c w : should_close (log c w) = should_close w.
Proof. destruct w; reflexivity. Qed.

Lemma set_frame_fault fe w : fault (set_frame fe w) = fault w.
Proof. destruct w; reflexivity. Qed.

Section Loop.
Context {R : Type} (iteration : FrameEnv -> M R unit) (inv : R -> Prop).

Hypothesis step : forall fe r w,
  gl_ready w = true -> inv r ->
  effect (set_frame fe w) (world (iteration fe r w))
    (should_close w || closes fe) (viewport_after fe w) /\
  inv (object (iteration fe r w)).

Lemma loop_cons_alive fe rest r w :
  let w1 := alive w (log GlfwWindowShouldClose w) in
  loop iteration (fe :: rest) r w =
  if should_close w then (true, r, w1)
  else loop iteration rest (object (iteration fe r w1)) (world (iteration fe r w1)).
Proof.
  cbv zeta. cbn [loop]. unfold bind at 1, glfwWindowShouldClose at 1.
  destruct (should_close w); [reflexivity|].
  exact (bind_eq (iteration fe) (fun _ => loop iteration rest) r _).
Qed.

Lemma loop_nil_alive r w :
  loop iteration [] r w = (should_close w, r, alive w (log GlfwWindowShouldClose w)).
Proof.
  cbn [loop]. unfold bind, glfwWindowShouldClose.
  destruct (should_close w); reflexivity.
Qed.

Lemma loop_cons fe rest r w :
  gl_ready w = true ->
  loop iteration (fe :: rest) r w =
  if should_close w then (true, r, log GlfwWindowShouldClose w)
  else loop iteration rest
         (object (iteration fe r (log GlfwWindowShouldClose w)))
         (world (iteration fe r (log GlfwWindowShouldClose w))).
Proof.
  intros Hready. rewrite loop_cons_alive. cbv zeta.
  rewrite ready_alive by exact Hready. reflexivity.
Qed.

Lemma loop_nil r w :
  gl_ready w = true ->
  loop iteration [] r w = (should_close w, r, log GlfwWindowShouldClose w).
Proof.
  intros Hready. rewrite loop_nil_alive, ready_alive by exact Hready. reflexivity.
Qed.

(** The loop keeps OpenGL usable, adds no fault, and is left exactly when the
    close flag is set or one of the iterations asks for it. *)
Lemma loop_spec frames : forall r w,
  gl_ready w = true -> inv r ->
  let x := loop iteration frames r w in
  gl_ready (world x) = true /\
  fault (world x) = fault w /\
  inv (object x) /\
  result x = should_close w || existsb closes frames.
Proof.
  induction frames as [|fe rest IH]; intros r w Hready Hinv; cbv zeta.
  - rewrite loop_nil by exact Hready. cbn [world object result fst snd existsb].
    rewrite log_ready, log_fault, orb_false_r. auto.
  - rewrite loop_cons by exact Hready. destruct (should_close w) eqn:Hsc.
    + cbn [world object result fst snd]. rewrite log_ready, log_fault. auto.
    + pose proof (step fe r (log GlfwWindowShouldClose w)) as Hstep.
      rewrite log_ready in Hstep. destruct (Hstep Hready Hinv) as [Heff Hinv'].
      destruct Heff as (Hr & Hf & _ & _ & _ & Hs & _).
      destruct (IH _ _ Hr Hinv') as (H1 & H2 & H3 & H4).
      rewrite H1, H2, H4, Hf, Hs, set_frame_fault, log_fault, log_should_close, Hsc.
      cbn [existsb orb]. auto.
Qed.

(** While nobody asks for the end, the loop runs every iteration it is given
    input for: the members change as [f] says, iteration after iteration. *)
Variable f : R -> FrameEnv -> R.
Hypothesis step_object : forall fe r w, object (iteration fe r w) = f r fe.

Lemma loop_object frames : forall r w,
  gl_ready w = true -> inv r ->
  should_close w = false -> existsb closes frames = false ->
  object (loop iteration frames r w) = fold_left f frames r.
Proof.
  induction frames as [|fe rest IH]; intros r w Hready Hinv Hsc Hopen.
  - rewrite loop_nil by exact Hready. reflexivity.
  - cbn [existsb] in Hopen. apply orb_false_iff in Hopen as [Hfe Hrest].
    rewrite loop_cons, Hsc by exact Hready. cbn [fold_left].
    pose proof (step fe r (log GlfwWindowShouldClose w)) as Hstep.
    rewrite log_ready in Hstep. destruct (Hstep Hready Hinv) as [Heff Hinv'].
    destruct Heff as (Hr & _ & _ & _ & _ & Hs & _).
    rewrite log_should_close, Hsc, Hfe in Hs.
    rewrite (IH _ _ Hr Hinv' Hs Hrest), step_object. reflexivity.
Qed.

End Loop.

(** Each program's loop is [loop] over its iteration. *)
Lemma Phong_run_loop frames r w : Phong.run frames r w = loop Phong.iteration frames r w.
Proof.
  revert r w. induction frames as [|fe rest IH]; intros r w; [reflexivity|].
  cbn [Phong.run loop]. unfold bind at 1 3. destruct (glfwWindowShouldClose r w) as [[[] r1] w1];
    [reflexivity|].
  unfold bind. destruct (Phong.iteration fe r1 w1) as [[u r2] w2]. apply IH.
Qed.

Lemma Textured_run_loop frames r w :
  Textured.run frames r w = loop Textured.iteration frames r w.
Proof.
  revert r w. induction frames as [|fe rest IH]; intros r w; [reflexivity|].
  cbn [Textured.run loop]. unfold bind at 1 3.
  destruct (glfwWindowShouldClose r w) as [[[] r1] w1]; [reflexivity|].
  unfold bind. destruct (Textured.iteration fe r1 w1) as [[u r2] w2]. apply IH.
Qed.

Lemma Simple_run_loop frames r w :
  Simple.run_loop frames r w = loop Simple.iteration frames r w.
Proof.
  revert r w. induction frames as [|fe rest IH]; intros r w; [reflexivity|].
  cbn [Simple.run_loop loop]. unfold bind at 1 3.
  destruct (glfwWindowShouldClose r w) as [[[] r1] w1]; [reflexivity|].
  unfold bind. destruct (Simple.iteration fe r1 w1) as [[u r2] w2]. apply IH.
Qed.

Lemma Demo_run_loop frames r w :
  Demo.run_loop frames r w = loop Demo.iteration frames r w.
Proof.
  revert r w. induction frames as [|fe rest IH]; intros r w; [reflexivity|].
  cbn [Demo.run_loop loop]. unfold bind at 1 3.
  destruct (glfwWindowShouldClose r w) as [[[] r1] w1]; [reflexivity|].
  unfold bind. destruct (Demo.iteration fe r1 w1) as [[u r2] w2]. apply IH.
Qed.

(** *** One iteration of the other three programs *)

Lemma Textured_iteration_effect fe r w :
  gl_ready w = true -> Textured_assigned r ->
  effect (set_frame fe w) (world (Textured.iteration fe r w))
    (should_close w || closes fe) (viewport_after fe w).
Proof.
  intros Hready ([vao Hvao] & [vbo Hvbo] & [p Hp] & [t Ht]).
  destruct r; cbn in Hvao, Hvbo, Hp, Ht; subst.
  destruct_world w; try discriminate Hready.
  destruct w_close, w_cb; destruct_frame fe; apply effect_intro; reflexivity.
Qed.

(** Splits the user's actions into cases, leaving the colour keys alone. *)
Ltac destruct_escape fe :=
  let k1 := fresh "esc_k" in let k2 := fresh "r_k" in let k3 := fresh "g_k" in
  let k4 := fresh "b_k" in let k5 := fresh "y_k" in let k6 := fresh "w_k" in
  let cr := fresh "closing" in let rs := fresh "resize" in
  let wd := fresh "wd" in let ht := fresh "ht" in
  destruct fe as [[k1 k2 k3 k4 k5 k6] cr rs];
  destruct k1, cr, rs as [[wd ht]|].

Lemma Simple_iteration_effect fe r w :
  gl_ready w = true ->
  effect (set_frame fe w) (world (Simple.iteration fe r w))
    (should_close w || closes fe) (viewport_after fe w) /\
  object (Simple.iteration fe r w) = r.
Proof.
  intros Hready. destruct r.
  destruct_world w; try discriminate Hready.
  destruct w_close, w_cb; destruct_escape fe;
    (split; [apply effect_intro|]); reflexivity.
Qed.

Lemma Demo_iteration_effect fe r w :
  gl_ready w = true ->
  effect (set_frame fe w) (world (Demo.iteration fe r w))
    (should_close w || closes fe) (viewport_after fe w) /\
  object (Demo.iteration fe r w) = r.
Proof.
  intros Hready. destruct r.
  destruct_world w; try discriminate Hready.
  destruct w_close, w_cb; destruct_escape fe;
    (split; [apply effect_intro|]); reflexivity.
Qed.

Lemma Phong_after_iteration_assigned r fe :
  Phong_assigned r -> Phong_assigned (Phong_after_iteration r fe).
Proof.
  unfold Phong_after_iteration, Phong_after_input.
  destruct (last_held Phong.color_keys (key_down fe)); destruct r; exact id.
Qed.

Lemma Textured_after_iteration_assigned r fe :
  Textured_assigned r -> Textured_assigned (Textured_after_iteration r fe).
Proof.
  unfold Textured_after_iteration, Textured_after_input.
  destruct (last_held Textured.color_keys (key_down fe)); destruct r; exact id.
Qed.

Lemma Phong_run_spec frames r w :
  gl_ready w = true -> Phong_assigned r ->
  let x := Phong.run frames r w in
  gl_ready (world x) = true /\ fault (world x) = fault w /\
  Phong_assigned (object x) /\
  result x = should_close w || existsb closes frames.
Proof.
  intros Hready Hr. rewrite Phong_run_loop.
  apply (loop_spec Phong.iteration Phong_assigned); trivial.
  intros fe r0 w0 H0 Hr0. split.
  - apply Phong_iteration_effect; assumption.
  - rewrite Phong_iteration_object. apply Phong_after_iteration_assigned. exact Hr0.
Qed.

Lemma Textured_run_spec frames r w :
  gl_ready w = true -> Textured_assigned r ->
  let x := Textured.run frames r w in
  gl_ready (world x) = true /\ fault (world x) = fault w /\
  Textured_assigned (object x) /\
  result x = should_close w || existsb closes frames.
Proof.
  intros Hready Hr. rewrite Textured_run_loop.
  apply (loop_spec Textured.iteration Textured_assigned); trivial.
  intros fe r0 w0 H0 Hr0. split.
  - apply Textured_iteration_effect; assumption.
  - rewrite Textured_iteration_object. apply Textured_after_iteration_assigned. exact Hr0.
Qed.

Lemma Simple_run_spec frames r w :
  gl_ready w = true ->
  let x := Simple.run_loop frames r w in
  gl_ready (world x) = true /\ fault (world x) = fault w /\
  True /\
  result x = should_close w || existsb closes frames.
Proof.
  intros Hready. rewrite Simple_run_loop.
  apply (loop_spec Simple.iteration (fun _ => True)); trivial.
  intros fe r0 w0 H0 _. split; [|exact I].
  apply Simple_iteration_effect; assumption.
Qed.

Lemma Demo_run_spec frames r w :
  gl_ready w = true ->
  let x := Demo.run_loop frames r w in
  gl_ready (world x) = true /\ fault (world x) = fault w /\
  True /\
  result x = should_close w || existsb closes frames.
Proof.
  intros Hready. rewrite Demo_run_loop.
  apply (loop_spec Demo.iteration (fun _ => True)); trivial.
  intros fe r0 w0 H0 _. split; [|exact I].
  apply Demo_iteration_effect; assumption.
Qed.

(** What [Phong.run] does to the members is what [Phong.iterations] does. *)
Lemma Phong_run_iterations frames r w :
  gl_ready w = true -> Phong_assigned r ->
  should_close w = false -> existsb closes frames = false ->
  object (Phong.run frames r w) = object (Phong.iterations frames r w).
Proof.
  intros Hready Hr Hsc Hopen.
  rewrite Phong_run_loop, Phong_iterations_object.
  apply (loop_object Phong.iteration Phong_assigned); trivial.
  - intros fe r0 w0 H0 Hr0. split.
    + apply Phong_iteration_effect; assumption.
    + rewrite Phong_iteration_object. apply Phong_after_iteration_assigned. exact Hr0.
  - intros fe r0 w0. apply Phong_iteration_object.
Qed.

Lemma Textured_run_iterations frames r w :
  gl_ready w = true -> Textured_assigned r ->
  should_close w = false -> existsb closes frames = false ->
  object (Textured.run frames r w) = object (Textured.iterations frames r w).
Proof.
  intros Hready Hr Hsc Hopen.
  rewrite Textured_run_loop, Textured_iterations_object.
  apply (loop_object Textured.iteration Textured_assigned); trivial.
  - intros fe r0 w0 H0 Hr0. split.
    + apply Textured_iteration_effect; assumption.
    + rewrite Textured_iteration_object. apply Textured_after_iteration_assigned. exact Hr0.
  - intros fe r0 w0. apply Textured_iteration_object.
Qed.

(* ================================================================= *)
(** ** Startup and shutdown *)

Ltac destruct_env e :=
  let i := fresh "e_glfw" in let cw := fresh "e_window" in
  let gl := fresh "e_glad" in let vs := fresh "e_vs" in
  let fs := fresh "e_fs" in let lk := fresh "e_link" in
  let keeps := fresh "e_keeps" in let ba := fresh "e_buffer" in
  let ta := fresh "e_texture" in let il := fresh "e_log" in
  let un := fresh "e_uninit" in
  destruct e as [i cw gl vs fs lk keeps ba ta il un];
  destruct i, cw, gl, vs, fs, lk.

Lemma Phong_init_result e :
  result (Phong.init Phong.PhongTriangleRenderer (initial_world e)) = startup_ok e.
Proof. destruct_env e; reflexivity. Qed.

Lemma Textured_init_result e :
  result (Textured.init Textured.TexturedTriangleRenderer (initial_world e)) = startup_ok e.
Proof. destruct_env e; reflexivity. Qed.

Lemma Simple_init_result e :
  result (Simple.init Simple.SimpleTriangleRenderer (initial_world e)) = startup_ok e.
Proof. destruct_env e; reflexivity. Qed.

Lemma Demo_init_result e :
  result (Demo.init Demo.TriangleRenderer (initial_world e)) = startup_ok e.
Proof. destruct_env e; reflexivity. Qed.

(** After a successful [init], OpenGL is usable, nothing has faulted, the
    close flag is clear and the handles are assigned. *)
Lemma Phong_init_ok e :
  startup_ok e = true ->
  let x := Phong.init Phong.PhongTriangleRenderer (initial_world e) in
  gl_ready (world x) = true /\ fault (world x) = false /\
  should_close (world x) = false /\ Phong_assigned (object x).
Proof.
  intros Hok. destruct_env e; try discriminate Hok.
  cbv zeta. unfold Phong_assigned.
  split_all; first [reflexivity | vm_compute; eexists; reflexivity].
Qed.

Lemma Textured_init_ok e :
  startup_ok e = true ->
  let x := Textured.init Textured.TexturedTriangleRenderer (initial_world e) in
  gl_ready (world x) = true /\ fault (world x) = false /\
  should_close (world x) = false /\ Textured_assigned (object x).
Proof.
  intros Hok. destruct_env e; try discriminate Hok.
  cbv zeta. unfold Textured_assigned.
  split_all; first [reflexivity | vm_compute; eexists; reflexivity].
Qed.

Lemma Simple_init_ok e :
  startup_ok e = true ->
  let x := Simple.init Simple.SimpleTriangleRenderer (initial_world e) in
  gl_ready (world x) = true /\ fault (world x) = false /\
  should_close (world x) = false.
Proof.
  intros Hok. destruct_env e; try discriminate Hok.
  cbv zeta. split_all; reflexivity.
Qed.

Lemma Demo_init_ok e :
  startup_ok e = true ->
  let x := Demo.init Demo.TriangleRenderer (initial_world e) in
  gl_ready (world x) = true /\ fault (world x) = false /\
  should_close (world x) = false.
Proof.
  intros Hok. destruct_env e; try discriminate Hok.
  cbv zeta. split_all; reflexivity.
Qed.

(** [cleanup] where OpenGL is usable and the handles are assigned: no fault. *)
Lemma Phong_cleanup_fault r w :
  gl_ready w = true -> Phong_assigned r ->
  fault (world (Phong.cleanup r w)) = fault w.
Proof.
  intros Hready ([vao Hvao] & [vbo Hvbo] & [p Hp]).
  destruct r; cbn in Hvao, Hvbo, Hp; subst.
  destruct_world w; try discriminate Hready. reflexivity.
Qed.

Lemma Textured_cleanup_fault r w :
  gl_ready w = true -> Textured_assigned r ->
  fault (world (Textured.cleanup r w)) = fault w.
Proof.
  intros Hready ([vao Hvao] & [vbo Hvbo] & [p Hp] & [t Ht]).
  destruct r; cbn in Hvao, Hvbo, Hp, Ht; subst.
  destruct_world w; try discriminate Hready. reflexivity.
Qed.

Lemma Simple_cleanup_fault r w :
  gl_ready w = true -> fault (world (Simple.cleanup r w)) = fault w.
Proof.
  intros Hready. destruct r as [win vao vbo p].
  destruct_world w; try discriminate Hready.
  destruct win, vao, vbo, p; reflexivity.
Qed.

Lemma Demo_cleanup_fault r w :
  gl_ready w = true -> fault (world (Demo.cleanup r w)) = fault w.
Proof.
  intros Hready. destruct r as [win p vao vbo].
  destruct_world w; try discriminate Hready.
  destruct win, vao, vbo, p; reflexivity.
Qed.

(** [cleanup] where OpenGL is usable: the process is not killed. *)
Lemma Phong_cleanup_running r w :
  gl_ready w = true -> crashed (world (Phong.cleanup r w)) = false.
Proof.
  intros Hready. destruct r as [? [?|] [?|] [?|] ? ? ? ? ? ? ? ? ? ?].
  all: destruct_world w; try discriminate Hready; reflexivity.
Qed.

Lemma Textured_cleanup_running r w :
  gl_ready w = true -> crashed (world (Textured.cleanup r w)) = false.
Proof.
  intros Hready. destruct r as [? [?|] [?|] [?|] [?|] ? ? ? ? ? ? ?].
  all: destruct_world w; try discriminate Hready; reflexivity.
Qed.

Lemma Simple_cleanup_running r w :
  gl_ready w = true -> crashed (world (Simple.cleanup r w)) = false.
Proof.
  intros Hready. destruct r as [win vao vbo p].
  destruct_world w; try discriminate Hready.
  destruct win, vao, vbo, p; reflexivity.
Qed.

Lemma Demo_cleanup_running r w :
  gl_ready w = true -> crashed (world (Demo.cleanup r w)) = false.
Proof.
  intros Hready. destruct r as [win p vao vbo].
  destruct_world w; try discriminate Hready.
  destruct win, vao, vbo, p; reflexivity.
Qed.

(** Steps through a sequence of statements, one [bind] at a time. *)
Ltac step_binds :=
  repeat (rewrite bind_eq; cbn [cout ret result object world fst snd negb];
          rewrite ?ready_alive by (rewrite ?log_ready; eassumption)).

Lemma outcome_exited {R} (x : option Z * R * World) c :
  result x = Some c -> crashed (world x) = false -> outcome x = Some (Exited c).
Proof. unfold outcome. intros -> ->. reflexivity. Qed.

(** *** A normal close *)

Lemma Phong_main_body_closes e frames :
  startup_ok e = true -> existsb closes frames = true ->
  let x := Phong.main_body frames Phong.PhongTriangleRenderer (initial_world e) in
  result x = Some 0 /\ gl_ready (world x) = true /\ fault (world x) = false /\
  Phong_assigned (object x).
Proof.
  intros Hok Hclose.
  destruct (Phong_init_ok e Hok) as (Hready & Hfault & Hsc & Hr).
  pose proof (Phong_init_result e) as Hres. rewrite Hok in Hres.
  cbv zeta. unfold Phong.main_body.
  rewrite bind_eq, Hres. cbn [negb]. step_binds.
  match goal with |- context [Phong.run frames ?r ?w] =>
    destruct (Phong_run_spec frames r w) as (Hready' & Hfault' & Hr' & Hleft);
      [ rewrite !log_ready; exact Hready | exact Hr | ];
    rewrite !log_should_close, Hsc, Hclose in Hleft;
    rewrite !log_fault, Hfault in Hfault'
  end.
  rewrite Hleft. cbn [orb].
  split_all; [reflexivity|exact Hready'|exact Hfault'|exact Hr'].
Qed.

Lemma Phong_main_closes e frames :
  startup_ok e = true -> existsb closes frames = true ->
  outcome (Phong.main e frames) = Some (Exited 0).
Proof.
  intros Hok Hclose.
  destruct (Phong_main_body_closes e frames Hok Hclose) as (Hres & Hready & Hfault & Hr).
  unfold Phong.main. rewrite bind_eq, Hres. step_binds.
  apply outcome_exited; [reflexivity|]. unfold ret. cbn [world snd].
  apply Phong_cleanup_running. exact Hready.
Qed.

Lemma Textured_main_body_closes e frames :
  startup_ok e = true -> existsb closes frames = true ->
  let x := Textured.main_body frames Textured.TexturedTriangleRenderer (initial_world e) in
  result x = Some 0 /\ gl_ready (world x) = true /\ fault (world x) = false /\
  Textured_assigned (object x).
Proof.
  intros Hok Hclose.
  destruct (Textured_init_ok e Hok) as (Hready & Hfault & Hsc & Hr).
  pose proof (Textured_init_result e) as Hres. rewrite Hok in Hres.
  cbv zeta. unfold Textured.main_body.
  rewrite bind_eq, Hres. cbn [negb]. step_binds.
  match goal with |- context [Textured.run frames ?r ?w] =>
    destruct (Textured_run_spec frames r w) as (Hready' & Hfault' & Hr' & Hleft);
      [ rewrite !log_ready; exact Hready | exact Hr | ];
    rewrite !log_should_close, Hsc, Hclose in Hleft;
    rewrite !log_fault, Hfault in Hfault'
  end.
  rewrite Hleft. cbn [orb].
  split_all; [reflexivity|exact Hready'|exact Hfault'|exact Hr'].
Qed.

Lemma Textured_main_closes e frames :
  startup_ok e = true -> existsb closes frames = true ->
  outcome (Textured.main e frames) = Some (Exited 0).
Proof.
  intros Hok Hclose.
  destruct (Textured_main_body_closes e frames Hok Hclose) as (Hres & Hready & Hfault & Hr).
  unfold Textured.main. rewrite bind_eq, Hres. step_binds.
  apply outcome_exited; [reflexivity|]. unfold ret. cbn [world snd].
  apply Textured_cleanup_running. exact Hready.
Qed.

Lemma Simple_main_body_closes e frames :
  startup_ok e = true -> existsb closes frames = true ->
  let x := Simple.main_body frames Simple.SimpleTriangleRenderer (initial_world e) in
  result x = Some 0 /\ gl_ready (world x) = true /\ fault (world x) = false.
Proof.
  intros Hok Hclose.
  destruct (Simple_init_ok e Hok) as (Hready & Hfault & Hsc).
  pose proof (Simple_init_result e) as Hres. rewrite Hok in Hres.
  cbv zeta. unfold Simple.main_body.
  rewrite bind_eq, Hres. cbn [negb]. step_binds. unfold Simple.run. step_binds.
  match goal with |- context [Simple.run_loop frames ?r ?w] =>
    destruct (Simple_run_spec frames r w) as (Hready' & Hfault' & _ & Hleft);
      [ rewrite !log_ready; exact Hready | ];
    rewrite !log_should_close, Hsc, Hclose in Hleft;
    rewrite !log_fault, Hfault in Hfault'
  end.
  rewrite Hleft. cbn [orb].
  split_all; [reflexivity|exact Hready'|exact Hfault'].
Qed.

Lemma Simple_main_closes e frames :
  startup_ok e = true -> existsb closes frames = true ->
  outcome (Simple.main e frames) = Some (Exited 0).
Proof.
  intros Hok Hclose.
  destruct (Simple_main_body_closes e frames Hok Hclose) as (Hres & Hready & Hfault).
  unfold Simple.main. rewrite bind_eq, Hres. step_binds.
  apply outcome_exited; [reflexivity|]. unfold ret. cbn [world snd].
  apply Simple_cleanup_running. exact Hready.
Qed.

Lemma Demo_main_body_closes e frames :
  startup_ok e = true -> existsb closes frames = true ->
  let x := Demo.main_body frames Demo.TriangleRenderer (initial_world e) in
  result x = Some 0 /\ gl_ready (world x) = true /\ fault (world x) = false.
Proof.
  intros Hok Hclose.
  destruct (Demo_init_ok e Hok) as (Hready & Hfault & Hsc).
  pose proof (Demo_init_result e) as Hres. rewrite Hok in Hres.
  cbv zeta. unfold Demo.main_body.
  rewrite bind_eq, Hres. cbn [negb]. step_binds. unfold Demo.run. step_binds.
  match goal with |- context [Demo.run_loop frames ?r ?w] =>
    destruct (Demo_run_spec frames r w) as (Hready' & Hfault' & _ & Hleft);
      [ rewrite !log_ready; exact Hready | ];
    rewrite !log_should_close, Hsc, Hclose in Hleft;
    rewrite !log_fault, Hfault in Hfault'
  end.
  rewrite Hleft. cbn [orb].
  split_all; [reflexivity|exact Hready'|exact Hfault'].
Qed.

Lemma Demo_main_closes e frames :
  startup_ok e = true -> existsb closes frames = true ->
  outcome (Demo.main e frames) = Some (Exited 0).
Proof.
  intros Hok Hclose.
  destruct (Demo_main_body_closes e frames Hok Hclose) as (Hres & Hready & Hfault).
  unfold Demo.main. rewrite bind_eq, Hres. step_binds.
  apply outcome_exited; [reflexivity|]. unfold ret. cbn [world snd].
  apply Demo_cleanup_running. exact Hready.
Qed.

(** *** A failed startup *)

Ltac failed_startup :=
  split; [reflexivity|]; split; [reflexivity|];
  let H := fresh in
  intros H;
  match type of H with
  | ?o = _ => assert (o = Some Aborted \/ o = Some (Exited (-1))) as [H'|H']
                by ((left; reflexivity) || (right; reflexivity));
              rewrite H' in H; discriminate H
  end.

Lemma Phong_main_fails e frames :
  startup_ok e = false ->
  result (Phong.main e frames) = Some (-1) /\
  existsb is_frame_call (trace (world (Phong.main e frames))) = false /\
  outcome (Phong.main e frames) <> Some (Exited 0).
Proof. intros Hok. destruct_env e; try discriminate Hok; failed_startup. Qed.

Lemma Textured_main_fails e frames :
  startup_ok e = false ->
  result (Textured.main e frames) = Some (-1) /\
  existsb is_frame_call (trace (world (Textured.main e frames))) = false /\
  outcome (Textured.main e frames) <> Some (Exited 0).
Proof. intros Hok. destruct_env e; try discriminate Hok; failed_startup. Qed.

Lemma Simple_main_fails e frames :
  startup_ok e = false ->
  result (Simple.main e frames) = Some (-1) /\
  existsb is_frame_call (trace (world (Simple.main e frames))) = false /\
  outcome (Simple.main e frames) <> Some (Exited 0).
Proof. intros Hok. destruct_env e; try discriminate Hok; failed_startup. Qed.

Lemma Demo_main_fails e frames :
  startup_ok e = false ->
  result (Demo.main e frames) = Some (-1) /\
  existsb is_frame_call (trace (world (Demo.main e frames))) = false /\
  outcome (Demo.main e frames) <> Some (Exited 0).
Proof. intros Hok. destruct_env e; try discriminate Hok; failed_startup. Qed.

(** C4 as stated fails where texturing is enabled: when the driver rejects
    the texture upload, [init] still succeeds, frames are drawn, and the
    process ends with status 0. *)
Lemma rejected_texture_goes_unnoticed :
  let x := Textured.main no_texture [no_keys; escape] in
  startup_ok no_texture = true /\
  gl_error (world (Textured.init Textured.TexturedTriangleRenderer
                     (initial_world no_texture))) = true /\
  result (Textured.init Textured.TexturedTriangleRenderer (initial_world no_texture)) = true /\
  List.length (List.filter is_draw (trace (world x))) = 2%nat /\
  outcome x = Some (Exited 0).
Proof. vm_compute. split_all; reflexivity. Qed.

(** C4, amended: in each of the four programs, if GLFW initialization,
    window (context) creation, GLAD loading, a shader compilation or the
    link fails, then [init] returns false, [main] returns -1 without a
    single iteration of the render loop, and the process does not end with
    status 0; [init] returns true otherwise, also when a texture or buffer
    upload is rejected. When [init] succeeds and the user ends the loop
    (Escape or closing the window), the process ends with status 0. *)
Theorem startup_failure_aborts :
  startup_contract Phong.init Phong.PhongTriangleRenderer Phong.main /\
  startup_contract Textured.init Textured.TexturedTriangleRenderer Textured.main /\
  startup_contract Simple.init Simple.SimpleTriangleRenderer Simple.main /\
  startup_contract Demo.init Demo.TriangleRenderer Demo.main.
Proof.
  split_all; intros e frames; split_all.
  - apply Phong_init_result.
  - apply Phong_main_fails.
  - apply Phong_main_closes.
  - apply Textured_init_result.
  - apply Textured_main_fails.
  - apply Textured_main_closes.
  - apply Simple_init_result.
  - apply Simple_main_fails.
  - apply Simple_main_closes.
  - apply Demo_init_result.
  - apply Demo_main_fails.
  - apply Demo_main_closes.
Qed.

(** The Phong program when the window cannot be created, and when the user
    presses Escape in the third iteration. *)
Lemma startup_failure_aborts_witness :
  outcome (Phong.main no_window [no_keys]) <> Some (Exited 0) /\
  outcome (Phong.main all_ok [no_keys; no_keys; escape]) = Some (Exited 0).
Proof.
  split.
  - apply (proj1 startup_failure_aborts no_window [no_keys]). reflexivity.
  - apply (proj1 startup_failure_aborts all_ok [no_keys; no_keys; escape]); reflexivity.
Defined.

(* ================================================================= *)
(** ** Allocation *)

Lemma Textured_loadTexture_result r w : result (Textured.loadTexture r w) = true.
Proof. destruct r. destruct_world w; reflexivity. Qed.

Lemma Phong_init_error e :
  startup_ok e = true ->
  gl_error (world (Phong.init Phong.PhongTriangleRenderer (initial_world e))) =
  negb (buffer_alloc_ok e).
Proof. intros Hok. destruct_env e; try discriminate Hok. destruct e_buffer; reflexivity. Qed.

Lemma Textured_init_error e :
  startup_ok e = true ->
  gl_error (world (Textured.init Textured.TexturedTriangleRenderer (initial_world e))) =
  negb (buffer_alloc_ok e && texture_alloc_ok e).
Proof.
  intros Hok. destruct_env e; try discriminate Hok.
  destruct e_buffer, e_texture; reflexivity.
Qed.

Lemma Simple_init_error e :
  startup_ok e = true ->
  gl_error (world (Simple.init Simple.SimpleTriangleRenderer (initial_world e))) =
  negb (buffer_alloc_ok e).
Proof. intros Hok. destruct_env e; try discriminate Hok. destruct e_buffer; reflexivity. Qed.

Lemma Demo_init_error e :
  startup_ok e = true ->
  gl_error (world (Demo.init Demo.TriangleRenderer (initial_world e))) =
  negb (buffer_alloc_ok e).
Proof. intros Hok. destruct_env e; try discriminate Hok. destruct e_buffer; reflexivity. Qed.

(** C9: [setupBuffers] returns nothing (its result type is [unit]) and
    [loadTexture] returns true in every state, so in all four programs the
    result of [init] is decided by GLFW initialization, window creation,
    GLAD loading, the two shader compilations and the link alone: whether
    the driver accepts the buffer or the texture has no part in it. A
    rejected allocation only leaves an OpenGL error behind, which no program
    reads. *)
Theorem allocation_cannot_fail_init :
  (forall e,
     result (Phong.init Phong.PhongTriangleRenderer (initial_world e)) = startup_ok e /\
     result (Textured.init Textured.TexturedTriangleRenderer (initial_world e)) = startup_ok e /\
     result (Simple.init Simple.SimpleTriangleRenderer (initial_world e)) = startup_ok e /\
     result (Demo.init Demo.TriangleRenderer (initial_world e)) = startup_ok e) /\
  (forall r w, result (Textured.loadTexture r w) = true) /\
  (forall e,
     startup_ok e = true ->
     gl_error (world (Phong.init Phong.PhongTriangleRenderer (initial_world e))) =
       negb (buffer_alloc_ok e) /\
     gl_error (world (Textured.init Textured.TexturedTriangleRenderer (initial_world e))) =
       negb (buffer_alloc_ok e && texture_alloc_ok e) /\
     gl_error (world (Simple.init Simple.SimpleTriangleRenderer (initial_world e))) =
       negb (buffer_alloc_ok e) /\
     gl_error (world (Demo.init Demo.TriangleRenderer (initial_world e))) =
       negb (buffer_alloc_ok e)).
Proof.
  split_all.
  - intros e. split_all.
    + apply Phong_init_result.
    + apply Textured_init_result.
    + apply Simple_init_result.
    + apply Demo_init_result.
  - exact Textured_loadTexture_result.
  - intros e Hok. split_all.
    + apply Phong_init_error, Hok.
    + apply Textured_init_error, Hok.
    + apply Simple_init_error, Hok.
    + apply Demo_init_error, Hok.
Qed.

(** The texture is rejected: [init] succeeds and an error is left behind. *)
Lemma allocation_cannot_fail_init_witness :
  result (Textured.init Textured.TexturedTriangleRenderer (initial_world no_texture)) = true /\
  gl_error (world (Textured.init Textured.TexturedTriangleRenderer
                     (initial_world no_texture))) = true.
Proof.
  split.
  - exact (proj1 (proj2 (proj1 allocation_cannot_fail_init no_texture))).
  - exact (proj1 (proj2 (proj2 (proj2 allocation_cannot_fail_init) no_texture eq_refl))).
Defined.

(* ================================================================= *)
(** ** Cleanup *)

(** C5 is broken by the Phong and textured programs. Their [cleanup] calls
    [glDeleteVertexArrays] unconditionally, on a member that only
    [setupBuffers] assigns: wherever the OpenGL entry points are not loaded
    the process is killed in that call, before anything is released and
    before [glfwTerminate]. This is what happens when [glfwInit] fails:
    [main] returns -1, the destructor runs [cleanup], and the process does
    not end with the status [main] returned. The simple and colour programs,
    whose constructors zero the handles and whose [cleanup] tests each of
    them, make no call at all in this situation and end with status -1. *)
Theorem cleanup_after_failed_init :
  rev (trace (world (Phong.main no_glfw []))) =
    [GlfwInit; Cerr "Failed to initialize GLFW"; Cerr "Failed to initialize renderer"] /\
  outcome (Phong.main no_glfw []) = Some Aborted /\
  rev (trace (world (Textured.main no_glfw []))) =
    [GlfwInit; Cerr "Failed to initialize GLFW"; Cerr "Failed to initialize renderer"] /\
  outcome (Textured.main no_glfw []) = Some Aborted /\
  rev (trace (world (Simple.main no_glfw []))) =
    [GlfwInit; Cerr "Failed to initialize GLFW"; Cerr "Failed to initialize renderer"] /\
  outcome (Simple.main no_glfw []) = Some (Exited (-1)) /\
  rev (trace (world (Demo.main no_glfw []))) =
    [GlfwInit; Cerr "Failed to initialize GLFW"; Cerr "Failed to initialize renderer"] /\
  outcome (Demo.main no_glfw []) = Some (Exited (-1)) /\
  (forall r w,
     crashed w = false -> gl_loaded w = false ->
     crashed (world (Phong.cleanup r w)) = true /\
     trace (world (Phong.cleanup r w)) = trace w) /\
  (forall r w,
     crashed w = false -> gl_loaded w = false ->
     crashed (world (Textured.cleanup r w)) = true /\
     trace (world (Textured.cleanup r w)) = trace w) /\
  (forall w, world (Simple.cleanup Simple.SimpleTriangleRenderer w) = w) /\
  (forall w, world (Demo.cleanup Demo.TriangleRenderer w) = w).
Proof.
  split_all; try (vm_compute; reflexivity).
  - intros r w Hrun Hgl. destruct r as [? [?|] [?|] [?|] ? ? ? ? ? ? ? ? ? ?].
    all: destruct_world w; try discriminate Hrun; try discriminate Hgl.
    all: split; reflexivity.
  - intros r w Hrun Hgl. destruct r as [? [?|] [?|] [?|] [?|] ? ? ? ? ? ? ?].
    all: destruct_world w; try discriminate Hrun; try discriminate Hgl.
    all: split; reflexivity.
Qed.

(** After a successful run each program deletes each of its objects once and
    leaves none behind. *)
Lemma cleanup_after_a_run :
  let x := Phong.main all_ok [no_keys; escape] in
  let y := Textured.main all_ok [no_keys; escape] in
  let z := Simple.main all_ok [no_keys; escape] in
  deletions (rev (trace (world x))) =
    [GlDeleteVertexArrays 4%N; GlDeleteBuffers 5%N; GlDeleteProgram 3%N] /\
  deletions (rev (trace (world y))) =
    [GlDeleteVertexArrays 4%N; GlDeleteBuffers 5%N; GlDeleteProgram 3%N; GlDeleteTextures 6%N] /\
  deletions (rev (trace (world z))) =
    [GlDeleteVertexArrays 4%N; GlDeleteBuffers 5%N; GlDeleteProgram 3%N] /\
  fault (world x) = false /\ fault (world y) = false /\ fault (world z) = false /\
  gl_error (world x) = false /\ gl_error (world y) = false /\ gl_error (world z) = false.
Proof. vm_compute. split_all; reflexivity. Qed.

(* ================================================================= *)
(** ** Uniforms *)

Lemma uniform_location_range name active :
  uniform_location name active = -1 \/
  0 <= uniform_location name active < Z.of_nat (List.length active).
Proof.
  induction active as [|n rest IH]; [left; reflexivity|].
  cbn [uniform_location List.length]. destruct (String.eqb n name); [right; lia|].
  destruct IH as [->|IH]; [left; reflexivity|].
  destruct (uniform_location name rest <? 0) eqn:E; [left; reflexivity|right; lia].
Qed.

(** A name has no location exactly when it is not active. *)
Lemma uniform_location_absent name active :
  uniform_location name active = -1 <-> ~ In name active.
Proof.
  induction active as [|n rest IH]; [cbn; tauto|].
  cbn [uniform_location In]. destruct (String.eqb_spec n name) as [->|Hne].
  - split; [discriminate|tauto].
  - destruct (uniform_location_range name rest) as [E|E].
    + rewrite E. cbn. rewrite E in IH. tauto.
    + destruct (uniform_location name rest <? 0) eqn:Hlt; [lia|].
      split; [lia|]. intros H. exfalso. apply H. right.
      destruct (in_dec String.string_dec name rest) as [Hin|Hnin]; [exact Hin|].
      apply IH in Hnin. lia.
Qed.

(** Different names have different locations. *)
Lemma uniform_location_inj n1 n2 active :
  uniform_location n1 active = uniform_location n2 active ->
  uniform_location n1 active <> -1 -> n1 = n2.
Proof.
  induction active as [|n rest IH]; [cbn; congruence|].
  cbn [uniform_location].
  pose proof (uniform_location_range n1 rest) as R1.
  pose proof (uniform_location_range n2 rest) as R2.
  destruct (String.eqb n n1) eqn:E1, (String.eqb n n2) eqn:E2.
  - apply String.eqb_eq in E1, E2. congruence.
  - destruct (uniform_location n2 rest <? 0) eqn:E; [discriminate|lia].
  - destruct (uniform_location n1 rest <? 0) eqn:E; [congruence|lia].
  - destruct (uniform_location n1 rest <? 0) eqn:Ea; [congruence|].
    destruct (uniform_location n2 rest <? 0) eqn:Eb; [lia|].
    intros Heq _. apply IH; lia.
Qed.

Lemma has_program_lookup p ps pr : ps !! p = Some pr -> has_program p ps = true.
Proof. unfold has_program. intros ->. reflexivity. Qed.

Lemma program_location_lookup name p ps pr :
  ps !! p = Some pr -> program_location name p ps = uniform_location name (pr_active pr).
Proof. unfold program_location. intros ->. reflexivity. Qed.

Lemma with_values_same pr : with_values pr (pr_values pr) = pr.
Proof. destruct pr; reflexivity. Qed.

(** Setting the uniform at the location of [name] in the current program. *)
Lemma store_insert (ps : gmap GLuint Program) p pr active name v :
  pr_active pr = active ->
  uniform_store (uniform_location name active) v p (<[ p := pr ]> ps) =
  <[ p := with_values pr (upload_one active (name, v) (pr_values pr)) ]> ps.
Proof.
  intros Hact. unfold uniform_store, uniform_accepts, upload_one.
  rewrite lookup_insert_eq, Hact. cbn [fst snd].
  destruct (uniform_location_range name active) as [E|E].
  - rewrite E. cbn. rewrite with_values_same. reflexivity.
  - replace (0 <=? uniform_location name active) with true by lia.
    replace (uniform_location name active <? Z.of_nat (List.length active)) with true by lia.
    replace (uniform_location name active =? -1) with false by lia.
    cbn [andb]. rewrite alter_insert_eq. reflexivity.
Qed.

(** No such call records an error. *)
Lemma accepts_insert (ps : gmap GLuint Program) p pr active name :
  pr_active pr = active ->
  negb (uniform_location name active =? -1) &&
  negb (uniform_accepts (uniform_location name active) p (<[ p := pr ]> ps)) = false.
Proof.
  intros Hact. unfold uniform_accepts. rewrite lookup_insert_eq, Hact.
  destruct (uniform_location_range name active) as [E|E].
  - rewrite E. reflexivity.
  - replace (0 <=? uniform_location name active) with true by lia.
    replace (uniform_location name active <? Z.of_nat (List.length active)) with true by lia.
    cbn. apply andb_false_r.
Qed.

(** *** What [upload] leaves at each location *)

Lemma upload_one_other active o vals l :
  uniform_location (fst o) active <> l -> upload_one active o vals !! l = vals !! l.
Proof.
  intros Hne. unfold upload_one.
  destruct (uniform_location (fst o) active =? -1); [reflexivity|].
  apply lookup_insert_ne. exact Hne.
Qed.

Lemma upload_other active offers vals l :
  (forall o, In o offers -> uniform_location (fst o) active <> l) ->
  upload active offers vals !! l = vals !! l.
Proof.
  revert vals. induction offers as [|o rest IH]; intros vals Hne; [reflexivity|].
  unfold upload in *. cbn [fold_left]. rewrite IH.
  - apply upload_one_other. apply Hne. left. reflexivity.
  - intros o' Ho'. apply Hne. right. exact Ho'.
Qed.

Lemma upload_active active offers vals name v :
  List.NoDup (map fst offers) ->
  In (name, v) offers -> In name active ->
  upload active offers vals !! uniform_location name active = Some v.
Proof.
  intros Hnd Hin Hact.
  assert (Hloc : uniform_location name active <> -1).
  { intros E. apply uniform_location_absent in E. contradiction. }
  revert vals Hnd Hin. induction offers as [|o rest IH]; intros vals Hnd Hin; [destruct Hin|].
  cbn [map] in Hnd. apply List.NoDup_cons_iff in Hnd as [Hnotin Hnd].
  unfold upload in *. cbn [fold_left]. destruct Hin as [->|Hin].
  - fold (upload active rest (upload_one active (name, v) vals)).
    rewrite upload_other.
    + unfold upload_one. cbn [fst snd].
      replace (uniform_location name active =? -1) with false by lia.
      apply lookup_insert_eq.
    + intros o' Ho' Heq. apply Hnotin. cbn [fst].
      apply uniform_location_inj in Heq.
      * rewrite <- Heq. apply in_map. exact Ho'.
      * rewrite Heq. exact Hloc.
  - apply IH; assumption.
Qed.

(** Offers of names without location make no difference. *)
Lemma upload_skips_absent active offers vals :
  upload active offers vals =
  upload active (List.filter (fun o => has_location active (fst o)) offers) vals.
Proof.
  revert vals. induction offers as [|o rest IH]; intros vals; [reflexivity|].
  unfold upload in *. cbn [fold_left List.filter].
  destruct (has_location active (fst o)) eqn:E.
  - cbn [fold_left]. apply IH.
  - rewrite <- IH. f_equal. unfold upload_one.
    unfold has_location in E. apply negb_false_iff in E. rewrite E. reflexivity.
Qed.

Lemma Phong_offered_nodup r : List.NoDup (map fst (Phong.offered r)).
Proof.
  cbn. repeat (constructor; [cbn; intuition discriminate|]). constructor.
Qed.

(** *** [render] and the uniforms *)

Local Arguments uniform_store : simpl never.
Local Arguments uniform_accepts : simpl never.
Local Arguments program_location : simpl never.
Local Arguments has_program : simpl never.
Local Arguments upload_one : simpl never.
Local Arguments f32_lit : simpl never.
Local Arguments f32_add : simpl never.
Local Arguments f32_of_Z : simpl never.

(** Rewrites the uniform calls of the current program, innermost first. *)
Ltac settle_uniforms p pr Hpr :=
  rewrite ?(program_location_lookup _ p _ pr Hpr), ?(has_program_lookup p _ pr Hpr);
  rewrite <- (insert_id _ p pr Hpr);
  repeat (rewrite ?(accepts_insert _ _ _ (pr_active pr)) by reflexivity;
          rewrite (store_insert _ _ _ (pr_active pr)) by reflexivity);
  rewrite ?(accepts_insert _ _ _ (pr_active pr)) by reflexivity;
  cbn [negb orb andb].

Lemma Phong_render_programs r w p pr vao :
  gl_ready w = true ->
  Phong.shaderProgram r = Some p -> Phong.VAO r = Some vao ->
  programs w !! p = Some pr ->
  let x := Phong.render r w in
  gl_error (world x) = gl_error w /\
  fault (world x) = fault w /\
  programs (world x) =
    <[ p := with_values pr
              (upload (pr_active pr) (Phong.offered (object x)) (pr_values pr)) ]>
      (programs w).
Proof.
  intros Hready Hp Hvao Hpr. destruct r; cbn in Hp, Hvao; subst.
  destruct_world w; try discriminate Hready. cbn in Hpr.
  cbv zeta. split_all.
  - cbn. settle_uniforms p pr Hpr. reflexivity.
  - reflexivity.
  - cbn. settle_uniforms p pr Hpr. rewrite ?insert_insert_eq. reflexivity.
Qed.

Lemma Phong_render_silent r w :
  gl_ready w = true -> existsb is_cerr (emitted Phong.render r w) = false.
Proof. intros Hready. rewrite Phong_render_emitted by exact Hready. reflexivity. Qed.

(** Looking up and setting a name that is not active changes nothing but
    the trace. *)
Lemma set_by_name_absent (name : string) (v : UValue) (r : Phong.Renderer) w pr :
  gl_ready w = true ->
  programs w !! current_program w = Some pr ->
  ~ In name (pr_active pr) ->
  let x := set_by_name (current_program w) name v r w in
  set_trace (trace w) (world x) = w /\
  object x = r /\
  existsb is_cerr (emitted (set_by_name (current_program w) name v) r w) = false.
Proof.
  intros Hready Hpr Habsent.
  apply uniform_location_absent in Habsent.
  destruct_world w; try discriminate Hready. cbn in Hpr.
  assert (Hloc : program_location name w_current w_programs = -1).
  { rewrite (program_location_lookup _ _ _ pr Hpr). exact Habsent. }
  assert (Hstore : forall u, uniform_store (-1) u w_current w_programs = w_programs).
  { intros u. unfold uniform_store, uniform_accepts. rewrite Hpr. reflexivity. }
  destruct v; cbv zeta; cbn; rewrite ?Hloc, ?(has_program_lookup _ _ _ Hpr), ?Hstore;
    cbn; auto.
Qed.

(** C6: a uniform name that is not active in the linked program (optimized
    out, say) gets location -1, and setting it is a silent no-op: the world
    is the same but for the trace, no OpenGL error is recorded and nothing
    is written to [cerr]. In [Phong.render] the seven uniforms are set
    without an error or a message whatever the set of active uniforms is:
    each active one receives the renderer's value, the others are skipped,
    and no other location is written. *)
Theorem absent_uniform_is_ignored :
  (forall name active, uniform_location name active = -1 <-> ~ In name active) /\
  (forall (name : string) (v : UValue) (r : Phong.Renderer) w pr,
     gl_ready w = true ->
     programs w !! current_program w = Some pr ->
     ~ In name (pr_active pr) ->
     let x := set_by_name (current_program w) name v r w in
     set_trace (trace w) (world x) = w /\
     object x = r /\
     existsb is_cerr (emitted (set_by_name (current_program w) name v) r w) = false) /\
  (forall r w p pr vao,
     gl_ready w = true ->
     Phong.shaderProgram r = Some p -> Phong.VAO r = Some vao ->
     programs w !! p = Some pr ->
     let x := Phong.render r w in
     let vals := upload (pr_active pr) (Phong.offered (object x)) (pr_values pr) in
     gl_error (world x) = gl_error w /\
     fault (world x) = fault w /\
     existsb is_cerr (emitted Phong.render r w) = false /\
     programs (world x) = <[ p := with_values pr vals ]> (programs w) /\
     vals = upload (pr_active pr)
              (List.filter (fun o => has_location (pr_active pr) (fst o))
                           (Phong.offered (object x)))
              (pr_values pr) /\
     (forall name v,
        In (name, v) (Phong.offered (object x)) -> In name (pr_active pr) ->
        vals !! uniform_location name (pr_active pr) = Some v) /\
     (forall l,
        (forall o, In o (Phong.offered (object x)) ->
                   uniform_location (fst o) (pr_active pr) <> l) ->
        vals !! l = pr_values pr !! l)).
Proof.
  split_all.
  - exact uniform_location_absent.
  - exact set_by_name_absent.
  - intros r w p pr vao Hready Hp Hvao Hpr. cbv zeta.
    destruct (Phong_render_programs r w p pr vao Hready Hp Hvao Hpr) as (He & Hf & Hps).
    split_all; trivial.
    + apply Phong_render_silent. exact Hready.
    + apply upload_skips_absent.
    + intros name v Hin Hact. apply upload_active; trivial. apply Phong_offered_nodup.
    + intros l Hl. apply upload_other. exact Hl.
Qed.

Lemma absent_uniform_is_ignored_witness :
  let i := Phong.init Phong.PhongTriangleRenderer (initial_world drops_lightPos) in
  let x := Phong.render (object i) (world i) in
  program_location "lightPos" 3%N (programs (world i)) = -1 /\
  gl_error (world x) = false /\
  existsb is_cerr (emitted Phong.render (object i) (world i)) = false.
Proof.
  intros i x.
  assert (H : exists pr, programs (world i) !! 3%N = Some pr)
    by (vm_compute; eexists; reflexivity).
  destruct H as [pr Hpr].
  destruct (proj2 (proj2 absent_uniform_is_ignored) (object i) (world i) 3%N pr 4%N
              eq_refl eq_refl eq_refl Hpr) as (He & _ & Hs & _).
  split_all.
  - vm_compute. reflexivity.
  - unfold x. rewrite He. reflexivity.
  - exact Hs.
Defined.

(* ================================================================= *)
(** ** The order of the steps of an iteration *)

Lemma Phong_iteration_events fe r w p vao :
  gl_ready w = true -> Phong.shaderProgram r = Some p -> Phong.VAO r = Some vao ->
  emitted (Phong.iteration fe) r w =
  Phong_frame_events w fe p vao (fun name => program_location name p (programs w))
    (object (Phong.iteration fe r w)).
Proof.
  intros Hready Hp Hvao. destruct r; cbn in Hp, Hvao; subst.
  destruct_world w; try discriminate Hready.
  destruct w_cb; destruct_frame fe; reflexivity.
Qed.

Lemma Textured_iteration_events fe r w p vao t :
  gl_ready w = true -> Textured.shaderProgram r = Some p -> Textured.VAO r = Some vao ->
  Textured.texture r = Some t ->
  emitted (Textured.iteration fe) r w =
  Textured_frame_events w fe p vao t (fun name => program_location name p (programs w))
    (object (Textured.iteration fe r w)).
Proof.
  intros Hready Hp Hvao Ht. destruct r; cbn in Hp, Hvao, Ht; subst.
  destruct_world w; try discriminate Hready.
  destruct w_cb; destruct_frame fe; reflexivity.
Qed.

Lemma Simple_iteration_events fe r w :
  gl_ready w = true ->
  emitted (Simple.iteration fe) r w =
  plain_frame_events w fe (Simple.shaderProgram r) (Simple.VAO r).
Proof.
  intros Hready. destruct r as [win vao vbo p].
  destruct_world w; try discriminate Hready.
  destruct w_cb; destruct_escape fe; reflexivity.
Qed.

Lemma Demo_iteration_events fe r w :
  gl_ready w = true ->
  emitted (Demo.iteration fe) r w =
  plain_frame_events w fe (Demo.shaderProgram r) (Demo.VAO r).
Proof.
  intros Hready. destruct r as [win p vao vbo].
  destruct_world w; try discriminate Hready.
  destruct w_cb; destruct_escape fe; reflexivity.
Qed.

Lemma Phong_frame_steps w fe p vao loc r :
  steps (Phong_frame_events w fe p vao loc r) = Phong_order p vao.
Proof.
  destruct (resize_cb w) eqn:Hcb; destruct_frame fe;
    unfold Phong_frame_events, resize_events; cbn [resize_to]; rewrite ?Hcb; reflexivity.
Qed.

Lemma Textured_frame_steps w fe p vao t loc r :
  steps (Textured_frame_events w fe p vao t loc r) = Textured_order p vao.
Proof.
  destruct (resize_cb w) eqn:Hcb; destruct_frame fe;
    unfold Textured_frame_events, resize_events; cbn [resize_to]; rewrite ?Hcb; reflexivity.
Qed.

Lemma plain_frame_steps w fe p vao :
  steps (plain_frame_events w fe p vao) = plain_order p vao.
Proof.
  destruct (resize_cb w) eqn:Hcb; destruct_escape fe;
    unfold plain_frame_events, resize_events; cbn [resize_to]; rewrite ?Hcb; reflexivity.
Qed.

(** The uniforms the two shaders of a program declare. *)
Lemma Phong_uniforms_all w fe p vao loc r :
  uniforms_looked_up (Phong_frame_events w fe p vao loc r) ≡ₚ
  src_uniforms Phong.vertexShaderSource ++ src_uniforms Phong.fragmentShaderSource.
Proof.
  assert (E : uniforms_looked_up (Phong_frame_events w fe p vao loc r) =
              ["model"; "view"; "projection"; "lightPos"; "lightColor"; "objectColor";
               "viewPos"]).
  { destruct (resize_cb w) eqn:Hcb; destruct_frame fe;
      unfold Phong_frame_events, resize_events; cbn [resize_to]; rewrite ?Hcb; reflexivity. }
  rewrite E. cbn [src_uniforms Phong.vertexShaderSource Phong.fragmentShaderSource app].
  do 4 apply perm_skip.
  change ["lightColor"; "objectColor"; "viewPos"]
    with (["lightColor"; "objectColor"] ++ ["viewPos"])%list.
  change ["viewPos"; "lightColor"; "objectColor"]
    with (["viewPos"] ++ ["lightColor"; "objectColor"])%list.
  apply Permutation_app_comm.
Qed.

Lemma Textured_uniforms_all w fe p vao t loc r :
  uniforms_looked_up (Textured_frame_events w fe p vao t loc r) ++ ["texture1"] ≡ₚ
  src_uniforms Textured.vertexShaderSource ++ src_uniforms Textured.fragmentShaderSource.
Proof.
  assert (E : uniforms_looked_up (Textured_frame_events w fe p vao t loc r) =
              ["model"; "view"; "projection"; "objectColor"]).
  { destruct (resize_cb w) eqn:Hcb; destruct_frame fe;
      unfold Textured_frame_events, resize_events; cbn [resize_to]; rewrite ?Hcb; reflexivity. }
  rewrite E. cbn [src_uniforms Textured.vertexShaderSource Textured.fragmentShaderSource app].
  do 3 apply perm_skip. apply perm_swap.
Qed.

(** C8 as stated fails for the simple and the colour program: their loop
    renders and presents the frame and polls the events first, and asks for
    the Escape key last. Neither clears a depth buffer. *)
Lemma simple_polls_after_present :
  let s := Simple.init Simple.SimpleTriangleRenderer (initial_world all_ok) in
  let d := Demo.init Demo.TriangleRenderer (initial_world all_ok) in
  let cs := emitted (Simple.iteration no_keys) (object s) (world s) in
  omap step_of cs =
    [SetClearColor; ClearFrame true false; UseShader 3%N; BindGeometry 4%N; Draw 0 3;
     Present; PollEvents; PollInput] /\
  steps (emitted (Demo.iteration no_keys) (object d) (world d)) = steps cs /\
  head (steps cs) <> Some PollInput /\
  last (steps cs) = Some PollInput.
Proof. vm_compute. split_all; try reflexivity. discriminate. Qed.

(** C8, amended. Where OpenGL is usable and the handles are assigned (as they
    are in the running loop), every iteration of the Phong and of the
    textured program makes exactly the calls of [Phong_frame_events] and
    [Textured_frame_events], in that order: it asks for Escape and the four
    colour keys and applies what each key that is down does; sets the clear
    colour and clears the colour and the depth buffer; uses the program;
    advances the rotation; looks up and then sets the uniforms, with this
    iteration's values; binds (the texture to unit 0 and) the vertex array;
    draws the three vertices from 0 and unbinds; swaps the buffers; polls
    the events, which runs the resize callback. The Phong program sets each
    uniform its shaders declare; the textured program sets all but the
    sampler [texture1]. In the simple and the colour program, which have no
    rotation, no uniforms and no depth buffer to clear, every iteration sets
    the clear colour, clears the colour buffer only, uses the program,
    binds the vertex array, draws the three vertices, swaps the buffers,
    polls the events, and only then asks for the Escape key. *)
Theorem iteration_order :
  (forall fe r w p vao,
     gl_ready w = true -> Phong.shaderProgram r = Some p -> Phong.VAO r = Some vao ->
     let cs := emitted (Phong.iteration fe) r w in
     cs = Phong_frame_events w fe p vao
            (fun name => program_location name p (programs w))
            (object (Phong.iteration fe r w)) /\
     steps cs = Phong_order p vao /\
     uniforms_looked_up cs ≡ₚ
       src_uniforms Phong.vertexShaderSource ++ src_uniforms Phong.fragmentShaderSource) /\
  (forall fe r w p vao t,
     gl_ready w = true -> Textured.shaderProgram r = Some p ->
     Textured.VAO r = Some vao -> Textured.texture r = Some t ->
     let cs := emitted (Textured.iteration fe) r w in
     cs = Textured_frame_events w fe p vao t
            (fun name => program_location name p (programs w))
            (object (Textured.iteration fe r w)) /\
     steps cs = Textured_order p vao /\
     uniforms_looked_up cs ++ ["texture1"] ≡ₚ
       src_uniforms Textured.vertexShaderSource ++
       src_uniforms Textured.fragmentShaderSource) /\
  (forall fe r w,
     gl_ready w = true ->
     let cs := emitted (Simple.iteration fe) r w in
     cs = plain_frame_events w fe (Simple.shaderProgram r) (Simple.VAO r) /\
     steps cs = plain_order (Simple.shaderProgram r) (Simple.VAO r)) /\
  (forall fe r w,
     gl_ready w = true ->
     let cs := emitted (Demo.iteration fe) r w in
     cs = plain_frame_events w fe (Demo.shaderProgram r) (Demo.VAO r) /\
     steps cs = plain_order (Demo.shaderProgram r) (Demo.VAO r)).
Proof.
  split_all.
  - intros fe r w p vao Hready Hp Hvao. cbv zeta.
    rewrite (Phong_iteration_events fe r w p vao Hready Hp Hvao). split_all.
    + reflexivity.
    + apply Phong_frame_steps.
    + apply Phong_uniforms_all.
  - intros fe r w p vao t Hready Hp Hvao Ht. cbv zeta.
    rewrite (Textured_iteration_events fe r w p vao t Hready Hp Hvao Ht). split_all.
    + reflexivity.
    + apply Textured_frame_steps.
    + apply Textured_uniforms_all.
  - intros fe r w Hready. cbv zeta.
    rewrite (Simple_iteration_events fe r w Hready).
    split; [reflexivity|apply plain_frame_steps].
  - intros fe r w Hready. cbv zeta.
    rewrite (Demo_iteration_events fe r w Hready).
    split; [reflexivity|apply plain_frame_steps].
Qed.

(** The first iteration after [init], with R and Escape down. *)
Lemma iteration_order_witness :
  let x := Phong.init Phong.PhongTriangleRenderer (initial_world all_ok) in
  steps (emitted (Phong.iteration (holding [KEY_R; KEY_ESCAPE])) (object x) (world x))
    = Phong_order 3%N 4%N.
Proof.
  intros x.
  apply (proj1 iteration_order (holding [KEY_R; KEY_ESCAPE]) (object x) (world x) 3%N 4%N);
    vm_compute; reflexivity.
Defined.
(* ================================================================= *)
(** * Further properties *)

(** ** More about the render loop *)

Lemma loop_closed {R} (iteration : FrameEnv -> M R unit) frames r w :
  gl_ready w = true -> should_close w = true ->
  loop iteration frames r w = (true, r, log GlfwWindowShouldClose w).
Proof.
  intros Hready H.
  destruct frames; [rewrite loop_nil|rewrite loop_cons]; trivial; rewrite H; reflexivity.
Qed.

Section LoopInvariant.
Context {R : Type} (iteration : FrameEnv -> M R unit) (I : R -> World -> Prop).

Hypothesis I_check : forall r w, I r w -> I r (log GlfwWindowShouldClose w).
Hypothesis I_step : forall fe r w,
  I r w -> I (object (iteration fe r w)) (world (iteration fe r w)).

(** What the check of the close flag and every iteration keep, the loop
    keeps. *)
Lemma loop_invariant frames : forall r w,
  I r w ->
  I (object (loop iteration frames r w)) (world (loop iteration frames r w)).
Proof.
  assert (Hc : forall r w, I r w -> I r (alive w (log GlfwWindowShouldClose w))).
  { intros r w H. unfold alive. destruct (crashed w); [exact H|apply I_check, H]. }
  induction frames as [|fe rest IH]; intros r w H.
  - rewrite loop_nil_alive. apply Hc, H.
  - rewrite loop_cons_alive. cbv zeta. destruct (should_close w).
    + apply Hc, H.
    + apply IH, I_step, Hc, H.
Qed.

End LoopInvariant.

Section LoopEnd.
Context {R : Type} (iteration : FrameEnv -> M R unit) (inv : R -> Prop).

Hypothesis step : forall fe r w,
  gl_ready w = true -> inv r ->
  effect (set_frame fe w) (world (iteration fe r w))
    (should_close w || closes fe) (viewport_after fe w) /\
  inv (object (iteration fe r w)).

(** The iteration in which the user asks for the end is the last one: what
    the user does afterwards is never looked at. *)
Lemma loop_stops pre : forall fe rest r w,
  gl_ready w = true -> inv r -> should_close w = false ->
  existsb closes pre = false -> closes fe = true ->
  loop iteration (pre ++ fe :: rest) r w = loop iteration (pre ++ [fe]) r w.
Proof.
  induction pre as [|fe0 pre IH]; intros fe rest r w Hready Hinv Hsc Hpre Hfe;
    cbn [app]; rewrite !loop_cons, Hsc by exact Hready;
    pose proof (step) as Hstep.
  - specialize (Hstep fe r (log GlfwWindowShouldClose w)).
    rewrite log_ready in Hstep. destruct (Hstep Hready Hinv) as [Heff _].
    destruct Heff as (Hr & _ & _ & _ & _ & Hs & _).
    rewrite Hfe, orb_true_r in Hs.
    rewrite !loop_closed by assumption. reflexivity.
  - cbn [existsb] in Hpre. apply orb_false_iff in Hpre as [Hfe0 Hpre].
    specialize (Hstep fe0 r (log GlfwWindowShouldClose w)).
    rewrite log_ready in Hstep. destruct (Hstep Hready Hinv) as [Heff Hinv'].
    destruct Heff as (Hr & _ & _ & _ & _ & Hs & _).
    rewrite log_should_close, Hsc, Hfe0 in Hs.
    apply IH; assumption.
Qed.

Variable measure : World -> nat.
Hypothesis measure_check : forall w, measure (log GlfwWindowShouldClose w) = measure w.
Hypothesis measure_step : forall fe r w,
  gl_ready w = true -> measure (world (iteration fe r w)) = S (measure w).

(** Up to and including the iteration in which the user asks for the end,
    every iteration is run, in full. *)
Lemma loop_runs pre : forall fe r w,
  gl_ready w = true -> inv r -> should_close w = false ->
  existsb closes pre = false ->
  let x := loop iteration (pre ++ [fe]) r w in
  measure (world x) = (measure w + List.length pre + 1)%nat /\
  result x = closes fe.
Proof.
  induction pre as [|fe0 pre IH]; intros fe r w Hready Hinv Hsc Hpre; cbv zeta;
    cbn [app]; rewrite loop_cons, Hsc by exact Hready; pose proof (step) as Hstep.
  - specialize (Hstep fe r (log GlfwWindowShouldClose w)).
    rewrite log_ready in Hstep. destruct (Hstep Hready Hinv) as [Heff _].
    destruct Heff as (Hr & _ & _ & _ & _ & Hs & _).
    rewrite log_should_close, Hsc in Hs. cbn [orb] in Hs.
    rewrite loop_nil by exact Hr. cbn [object world result fst snd List.length].
    rewrite measure_check, measure_step, measure_check, Hs
      by (rewrite log_ready; exact Hready).
    split; [lia|reflexivity].
  - cbn [existsb] in Hpre. apply orb_false_iff in Hpre as [Hfe0 Hpre].
    specialize (Hstep fe0 r (log GlfwWindowShouldClose w)).
    rewrite log_ready in Hstep. destruct (Hstep Hready Hinv) as [Heff Hinv'].
    destruct Heff as (Hr & _ & _ & _ & _ & Hs & _).
    rewrite log_should_close, Hsc, Hfe0 in Hs.
    destruct (IH fe _ _ Hr Hinv' Hs Hpre) as (H2 & H3).
    rewrite H2, H3, measure_step, measure_check by (rewrite log_ready; exact Hready).
    cbn [List.length]. split; [lia|reflexivity].
Qed.

Variable f : R -> FrameEnv -> R.
Hypothesis step_object : forall fe r w, object (iteration fe r w) = f r fe.

Lemma loop_runs_object pre : forall fe r w,
  gl_ready w = true -> inv r -> should_close w = false ->
  existsb closes pre = false ->
  object (loop iteration (pre ++ [fe]) r w) = fold_left f (pre ++ [fe]) r.
Proof.
  induction pre as [|fe0 pre IH]; intros fe r w Hready Hinv Hsc Hpre;
    cbn [app]; rewrite loop_cons, Hsc by exact Hready; pose proof (step) as Hstep.
  - rewrite loop_nil_alive. cbn [object fst snd fold_left]. apply step_object.
  - cbn [existsb] in Hpre. apply orb_false_iff in Hpre as [Hfe0 Hpre].
    specialize (Hstep fe0 r (log GlfwWindowShouldClose w)).
    rewrite log_ready in Hstep. destruct (Hstep Hready Hinv) as [Heff Hinv'].
    destruct Heff as (Hr & _ & _ & _ & _ & Hs & _).
    rewrite log_should_close, Hsc, Hfe0 in Hs.
    rewrite (IH fe _ _ Hr Hinv' Hs Hpre), step_object. reflexivity.
Qed.

End LoopEnd.

(** *** The four loops *)

Lemma Phong_step fe r w :
  gl_ready w = true -> Phong_assigned r ->
  effect (set_frame fe w) (world (Phong.iteration fe r w))
    (should_close w || closes fe) (viewport_after fe w) /\
  Phong_assigned (object (Phong.iteration fe r w)).
Proof.
  intros Hready Hr. split.
  - apply Phong_iteration_effect; assumption.
  - rewrite Phong_iteration_object. apply Phong_after_iteration_assigned, Hr.
Qed.

Lemma Textured_step fe r w :
  gl_ready w = true -> Textured_assigned r ->
  effect (set_frame fe w) (world (Textured.iteration fe r w))
    (should_close w || closes fe) (viewport_after fe w) /\
  Textured_assigned (object (Textured.iteration fe r w)).
Proof.
  intros Hready Hr. split.
  - apply Textured_iteration_effect; assumption.
  - rewrite Textured_iteration_object. apply Textured_after_iteration_assigned, Hr.
Qed.

Lemma Simple_step fe (r : Simple.Renderer) w :
  gl_ready w = true -> True ->
  effect (set_frame fe w) (world (Simple.iteration fe r w))
    (should_close w || closes fe) (viewport_after fe w) /\
  True.
Proof. intros Hready _. split; [|exact I]. apply Simple_iteration_effect, Hready. Qed.

Lemma Demo_step fe (r : Demo.Renderer) w :
  gl_ready w = true -> True ->
  effect (set_frame fe w) (world (Demo.iteration fe r w))
    (should_close w || closes fe) (viewport_after fe w) /\
  True.
Proof. intros Hready _. split; [|exact I]. apply Demo_iteration_effect, Hready. Qed.

Lemma Simple_iteration_object fe r w : object (Simple.iteration fe r w) = r.
Proof.
  destruct r. destruct_world w; destruct w_cb; destruct_escape fe; reflexivity.
Qed.

Lemma Demo_iteration_object fe r w : object (Demo.iteration fe r w) = r.
Proof.
  destruct r. destruct_world w; destruct w_cb; destruct_escape fe; reflexivity.
Qed.

(** An iteration creates, deletes and prints nothing, and where OpenGL is
    usable it issues one draw call. *)
Lemma Phong_iteration_trace fe r w :
  let w' := world (Phong.iteration fe r w) in
  lifecycle (trace w') = lifecycle (trace w) /\
  (gl_ready w = true -> draws w' = S (draws w)).
Proof.
  destruct r. destruct_world w; destruct w_cb; destruct_frame fe; split;
    first [reflexivity | intros H; first [discriminate H | reflexivity]].
Qed.

Lemma Textured_iteration_trace fe r w :
  let w' := world (Textured.iteration fe r w) in
  lifecycle (trace w') = lifecycle (trace w) /\
  (gl_ready w = true -> draws w' = S (draws w)).
Proof.
  destruct r. destruct_world w; destruct w_cb; destruct_frame fe; split;
    first [reflexivity | intros H; first [discriminate H | reflexivity]].
Qed.

Lemma Simple_iteration_trace fe r w :
  let w' := world (Simple.iteration fe r w) in
  lifecycle (trace w') = lifecycle (trace w) /\
  (gl_ready w = true -> draws w' = S (draws w)).
Proof.
  destruct r. destruct_world w; destruct w_cb; destruct_escape fe; split;
    first [reflexivity | intros H; first [discriminate H | reflexivity]].
Qed.

Lemma Demo_iteration_trace fe r w :
  let w' := world (Demo.iteration fe r w) in
  lifecycle (trace w') = lifecycle (trace w) /\
  (gl_ready w = true -> draws w' = S (draws w)).
Proof.
  destruct r. destruct_world w; destruct w_cb; destruct_escape fe; split;
    first [reflexivity | intros H; first [discriminate H | reflexivity]].
Qed.

Lemma draws_log c w : is_draw c = false -> draws (log c w) = draws w.
Proof. intros H. destruct w. unfold draws. cbn. rewrite H. reflexivity. Qed.

Lemma lifecycle_log c w :
  is_lifecycle c = false -> lifecycle (trace (log c w)) = lifecycle (trace w).
Proof. intros H. destruct w. unfold lifecycle. cbn. rewrite H. reflexivity. Qed.

Lemma exists_last_or_nil {A} (l : list A) : l = [] \/ exists pre a, l = (pre ++ [a])%list.
Proof.
  destruct l as [|a l]; [left; reflexivity|right].
  destruct (exists_last (l := a :: l)) as (pre & b & E); [discriminate|].
  exists pre, b. exact E.
Qed.

Section StopsAtFirstClose.
Context {R : Type} (iteration : FrameEnv -> M R unit) (inv : R -> Prop).

Hypothesis step : forall fe r w,
  gl_ready w = true -> inv r ->
  effect (set_frame fe w) (world (iteration fe r w))
    (should_close w || closes fe) (viewport_after fe w) /\
  inv (object (iteration fe r w)).
Hypothesis draws_step : forall fe r w,
  gl_ready w = true -> draws (world (iteration fe r w)) = S (draws w).

Lemma loop_stops_at_first_close : stops_at_first_close (loop iteration) inv.
Proof.
  split.
  - intros pre fe rest r w Hready Hinv Hsc Hpre Hfe. cbv zeta.
    rewrite (loop_stops iteration inv step pre fe rest r w) by assumption.
    destruct (loop_runs iteration inv step draws
                (fun w => draws_log GlfwWindowShouldClose w eq_refl)
                draws_step pre fe r w Hready Hinv Hsc Hpre) as (Hd & Hres).
    rewrite Hres, Hd, Hfe. auto.
  - intros frames r w Hready Hinv Hsc Hopen. cbv zeta.
    destruct (exists_last_or_nil frames) as [->|(pre & fe & ->)].
    + rewrite loop_nil by exact Hready. cbn [result world fst snd List.length].
      rewrite draws_log by reflexivity. split; [exact Hsc|lia].
    + rewrite existsb_app in Hopen. apply orb_false_iff in Hopen as [Hpre Hfe].
      cbn [existsb] in Hfe. rewrite orb_false_r in Hfe.
      destruct (loop_runs iteration inv step draws
                  (fun w => draws_log GlfwWindowShouldClose w eq_refl)
                  draws_step pre fe r w Hready Hinv Hsc Hpre) as (Hd & Hres).
      rewrite Hres, Hd, Hfe, length_app. cbn [List.length]. split; [reflexivity|lia].
Qed.

End StopsAtFirstClose.

Lemma Simple_run_eq frames r w :
  gl_ready w = true ->
  Simple.run frames r w =
  loop Simple.iteration frames r
    (log (Cout "Press ESC or close window to exit")
       (log (Cout "Simple Triangle Demo is running!") w)).
Proof. intros Hready. unfold Simple.run. step_binds. apply Simple_run_loop. Qed.

Lemma Demo_run_eq frames r w :
  gl_ready w = true ->
  Demo.run frames r w =
  loop Demo.iteration frames r
    (log (Cout "Press ESC or close window to exit")
       (log (Cout "Triangle Demo is running!") w)).
Proof. intros Hready. unfold Demo.run. step_binds. apply Demo_run_loop. Qed.

(** In all four programs the loop of [run] is left with the iteration in
    which Escape is down or the window is closed. That iteration is still
    rendered and presented: when it is the (k+1)-th, k+1 frames have been
    drawn. Whatever the user does afterwards is not looked at. Until the
    user asks for the end the loop does not stop: it draws one frame per
    iteration. In the Phong and the textured program the members are, when
    the loop is left, what k+1 repetitions of the loop body make them. *)
Theorem loop_ends_with_closing_frame :
  stops_at_first_close Phong.run Phong_assigned /\
  stops_at_first_close Textured.run Textured_assigned /\
  stops_at_first_close Simple.run (fun _ => True) /\
  stops_at_first_close Demo.run (fun _ => True) /\
  (forall pre fe rest r w,
     gl_ready w = true -> Phong_assigned r -> should_close w = false ->
     existsb closes pre = false -> closes fe = true ->
     object (Phong.run (pre ++ fe :: rest) r w) =
     object (Phong.iterations (pre ++ [fe]) r w)) /\
  (forall pre fe rest r w,
     gl_ready w = true -> Textured_assigned r -> should_close w = false ->
     existsb closes pre = false -> closes fe = true ->
     object (Textured.run (pre ++ fe :: rest) r w) =
     object (Textured.iterations (pre ++ [fe]) r w)).
Proof.
  split_all.
  - pose proof (loop_stops_at_first_close Phong.iteration Phong_assigned Phong_step
                  (fun fe r w => proj2 (Phong_iteration_trace fe r w))) as [Hs Hn].
    split.
    + intros pre fe rest r w. rewrite !Phong_run_loop. apply Hs.
    + intros frames r w. rewrite !Phong_run_loop. apply Hn.
  - pose proof (loop_stops_at_first_close Textured.iteration Textured_assigned Textured_step
                  (fun fe r w => proj2 (Textured_iteration_trace fe r w))) as [Hs Hn].
    split.
    + intros pre fe rest r w. rewrite !Textured_run_loop. apply Hs.
    + intros frames r w. rewrite !Textured_run_loop. apply Hn.
  - pose proof (loop_stops_at_first_close Simple.iteration (fun _ => True) Simple_step
                  (fun fe r w => proj2 (Simple_iteration_trace fe r w))) as [Hs Hn].
    split.
    + intros pre fe rest r w Hready Hr Hsc Hpre Hfe. rewrite !Simple_run_eq by exact Hready.
      destruct (Hs pre fe rest r
                  (log (Cout "Press ESC or close window to exit")
                     (log (Cout "Simple Triangle Demo is running!") w)))
        as (H1 & H2 & H3); trivial.
      { rewrite !log_ready. exact Hready. }
      { rewrite !log_should_close. exact Hsc. }
      rewrite !draws_log in H3 by reflexivity. auto.
    + intros frames r w Hready Hr Hsc Hopen. rewrite !Simple_run_eq by exact Hready.
      destruct (Hn frames r
                  (log (Cout "Press ESC or close window to exit")
                     (log (Cout "Simple Triangle Demo is running!") w)))
        as (H1 & H2); trivial.
      { rewrite !log_ready. exact Hready. }
      { rewrite !log_should_close. exact Hsc. }
      rewrite !draws_log in H2 by reflexivity. auto.
  - pose proof (loop_stops_at_first_close Demo.iteration (fun _ => True) Demo_step
                  (fun fe r w => proj2 (Demo_iteration_trace fe r w))) as [Hs Hn].
    split.
    + intros pre fe rest r w Hready Hr Hsc Hpre Hfe. rewrite !Demo_run_eq by exact Hready.
      destruct (Hs pre fe rest r
                  (log (Cout "Press ESC or close window to exit")
                     (log (Cout "Triangle Demo is running!") w)))
        as (H1 & H2 & H3); trivial.
      { rewrite !log_ready. exact Hready. }
      { rewrite !log_should_close. exact Hsc. }
      rewrite !draws_log in H3 by reflexivity. auto.
    + intros frames r w Hready Hr Hsc Hopen. rewrite !Demo_run_eq by exact Hready.
      destruct (Hn frames r
                  (log (Cout "Press ESC or close window to exit")
                     (log (Cout "Triangle Demo is running!") w)))
        as (H1 & H2); trivial.
      { rewrite !log_ready. exact Hready. }
      { rewrite !log_should_close. exact Hsc. }
      rewrite !draws_log in H2 by reflexivity. auto.
  - intros pre fe rest r w Hready Hr Hsc Hpre Hfe.
    rewrite Phong_run_loop, (loop_stops Phong.iteration Phong_assigned Phong_step)
      by assumption.
    rewrite Phong_iterations_object.
    apply (loop_runs_object Phong.iteration Phong_assigned Phong_step); trivial.
    intros. apply Phong_iteration_object.
  - intros pre fe rest r w Hready Hr Hsc Hpre Hfe.
    rewrite Textured_run_loop,
      (loop_stops Textured.iteration Textured_assigned Textured_step) by assumption.
    rewrite Textured_iterations_object.
    apply (loop_runs_object Textured.iteration Textured_assigned Textured_step); trivial.
    intros. apply Textured_iteration_object.
Qed.

(** Escape in the second iteration; the R key afterwards is not seen. *)
Lemma loop_ends_with_closing_frame_witness :
  let x := Phong.run ([no_keys] ++ escape :: [holding [KEY_R]]) Phong_sample ready_world in
  result x = true /\
  x = Phong.run ([no_keys] ++ [escape]) Phong_sample ready_world /\
  draws (world x) = (draws ready_world + List.length [no_keys] + 1)%nat.
Proof.
  exact (proj1 (proj1 loop_ends_with_closing_frame) [no_keys] escape [holding [KEY_R]]
           Phong_sample ready_world eq_refl Phong_sample_assigned eq_refl eq_refl eq_refl).
Defined.

(* ================================================================= *)
(** ** A whole run *)

(** [main] when the startup succeeds and the user ends the loop: [init],
    the banner, the loop, and the destructor's [cleanup]. *)
Lemma Phong_main_success e frames :
  startup_ok e = true -> existsb closes frames = true ->
  let i := Phong.init Phong.PhongTriangleRenderer (initial_world e) in
  let w1 := fold_left (fun w m => log (Cout m) w)
              ["Phong Triangle Demo"; "Controls:"; "  R - Red color";
               "  G - Green color"; "  B - Blue color"; "  Y - Yellow color";
               "  ESC - Exit"] (world i) in
  let x := Phong.run frames (object i) w1 in
  world (Phong.main e frames) = world (Phong.cleanup (object x) (world x)).
Proof.
  intros Hok Hclose.
  destruct (Phong_main_body_closes e frames Hok Hclose) as (Hres & _).
  destruct (Phong_init_ok e Hok) as (Hready & _).
  cbv zeta. unfold Phong.main. rewrite bind_eq, Hres. step_binds.
  unfold ret. cbn [world snd]. f_equal.
  all: unfold Phong.main_body; rewrite bind_eq, Phong_init_result, Hok; cbn [negb];
    step_binds; reflexivity.
Qed.

Lemma Phong_after_iteration_handles r fe :
  Phong.VAO (Phong_after_iteration r fe) = Phong.VAO r /\
  Phong.VBO (Phong_after_iteration r fe) = Phong.VBO r /\
  Phong.shaderProgram (Phong_after_iteration r fe) = Phong.shaderProgram r.
Proof.
  unfold Phong_after_iteration, Phong_after_input.
  destruct (last_held Phong.color_keys (key_down fe)); destruct r; auto.
Qed.

Lemma Phong_cleanup_trace r w a b p :
  gl_ready w = true ->
  Phong.VAO r = Some a -> Phong.VBO r = Some b -> Phong.shaderProgram r = Some p ->
  trace (world (Phong.cleanup r w)) =
  GlfwTerminate :: GlDeleteProgram p :: GlDeleteBuffers b :: GlDeleteVertexArrays a
    :: trace w.
Proof.
  intros Hready Ha Hb Hp. destruct r; cbn in Ha, Hb, Hp; subst.
  destruct_world w; try discriminate Hready; reflexivity.
Qed.

Lemma Phong_init_lifecycle e :
  startup_ok e = true ->
  let i := Phong.init Phong.PhongTriangleRenderer (initial_world e) in
  lifecycle (trace (world i)) =
    rev [GlfwInit; GlfwCreateWindow 800 600 "Phong Triangle Demo"; GladLoadGLLoader;
         GlCreateShader GL_VERTEX_SHADER 1%N; GlCreateShader GL_FRAGMENT_SHADER 2%N;
         GlCreateProgram 3%N; GlDeleteShader 1%N; GlDeleteShader 2%N;
         GlGenVertexArrays 4%N; GlGenBuffers 5%N] /\
  Phong.VAO (object i) = Some 4%N /\ Phong.VBO (object i) = Some 5%N /\
  Phong.shaderProgram (object i) = Some 3%N.
Proof.
  intros Hok. destruct_env e; try discriminate Hok.
  cbv zeta. split_all; reflexivity.
Qed.

Lemma lifecycle_rev cs : lifecycle (rev cs) = rev (lifecycle cs).
Proof.
  unfold lifecycle. induction cs as [|c cs IH]; [reflexivity|].
  cbn [rev List.filter]. rewrite List.filter_app, IH. cbn [List.filter].
  destruct (is_lifecycle c); cbn [rev]; [reflexivity|]. apply app_nil_r.
Qed.

Lemma lifecycle_log_in c w :
  is_lifecycle c = true -> lifecycle (trace (log c w)) = c :: lifecycle (trace w).
Proof. intros H. destruct w. unfold lifecycle. cbn. rewrite H. reflexivity. Qed.

Lemma Phong_run_lifecycle frames r w a b p :
  Phong.VAO r = Some a -> Phong.VBO r = Some b -> Phong.shaderProgram r = Some p ->
  let x := Phong.run frames r w in
  lifecycle (trace (world x)) = lifecycle (trace w) /\
  Phong.VAO (object x) = Some a /\ Phong.VBO (object x) = Some b /\
  Phong.shaderProgram (object x) = Some p.
Proof.
  intros Ha Hb Hp. cbv zeta. rewrite Phong_run_loop.
  apply (loop_invariant Phong.iteration
           (fun r' w' => lifecycle (trace w') = lifecycle (trace w) /\
                         Phong.VAO r' = Some a /\ Phong.VBO r' = Some b /\
                         Phong.shaderProgram r' = Some p)).
  - intros r' w' H. rewrite lifecycle_log by reflexivity. exact H.
  - intros fe r' w' (H & Ha' & Hb' & Hp').
    rewrite (proj1 (Phong_iteration_trace fe r' w')), Phong_iteration_object.
    destruct (Phong_after_iteration_handles r' fe) as (-> & -> & ->). auto.
  - auto.
Qed.

Lemma Textured_main_success e frames :
  startup_ok e = true -> existsb closes frames = true ->
  let i := Textured.init Textured.TexturedTriangleRenderer (initial_world e) in
  let w1 := fold_left (fun w m => log (Cout m) w)
              ["Textured Triangle Demo"; "Controls:"; "  R - Red tint";
               "  G - Green tint"; "  B - Blue tint"; "  W - White (no tint)";
               "  ESC - Exit"] (world i) in
  let x := Textured.run frames (object i) w1 in
  world (Textured.main e frames) = world (Textured.cleanup (object x) (world x)).
Proof.
  intros Hok Hclose.
  destruct (Textured_main_body_closes e frames Hok Hclose) as (Hres & _).
  destruct (Textured_init_ok e Hok) as (Hready & _).
  cbv zeta. unfold Textured.main. rewrite bind_eq, Hres. step_binds.
  unfold ret. cbn [world snd]. f_equal.
  all: unfold Textured.main_body; rewrite bind_eq, Textured_init_result, Hok; cbn [negb];
    step_binds; reflexivity.
Qed.

Lemma Simple_main_success e frames :
  startup_ok e = true -> existsb closes frames = true ->
  let i := Simple.init Simple.SimpleTriangleRenderer (initial_world e) in
  let x := Simple.run frames (object i) (world i) in
  world (Simple.main e frames) = world (Simple.cleanup (object x) (world x)).
Proof.
  intros Hok Hclose.
  destruct (Simple_main_body_closes e frames Hok Hclose) as (Hres & _).
  destruct (Simple_init_ok e Hok) as (Hready & _).
  cbv zeta. unfold Simple.main. rewrite bind_eq, Hres. step_binds.
  unfold ret. cbn [world snd]. f_equal.
  all: unfold Simple.main_body; rewrite bind_eq, Simple_init_result, Hok; cbn [negb];
    step_binds; reflexivity.
Qed.

Lemma Demo_main_success e frames :
  startup_ok e = true -> existsb closes frames = true ->
  let i := Demo.init Demo.TriangleRenderer (initial_world e) in
  let x := Demo.run frames (object i) (world i) in
  world (Demo.main e frames) = world (Demo.cleanup (object x) (world x)).
Proof.
  intros Hok Hclose.
  destruct (Demo_main_body_closes e frames Hok Hclose) as (Hres & _).
  destruct (Demo_init_ok e Hok) as (Hready & _).
  cbv zeta. unfold Demo.main. rewrite bind_eq, Hres. step_binds.
  unfold ret. cbn [world snd]. f_equal.
  all: unfold Demo.main_body; rewrite bind_eq, Demo_init_result, Hok; cbn [negb];
    step_binds; reflexivity.
Qed.

Lemma Textured_after_iteration_handles r fe :
  Textured.VAO (Textured_after_iteration r fe) = Textured.VAO r /\
  Textured.VBO (Textured_after_iteration r fe) = Textured.VBO r /\
  Textured.shaderProgram (Textured_after_iteration r fe) = Textured.shaderProgram r /\
  Textured.texture (Textured_after_iteration r fe) = Textured.texture r.
Proof.
  unfold Textured_after_iteration, Textured_after_input.
  destruct (last_held Textured.color_keys (key_down fe)); destruct r; auto.
Qed.

Lemma Textured_cleanup_trace r w a b p t :
  gl_ready w = true ->
  Textured.VAO r = Some a -> Textured.VBO r = Some b ->
  Textured.shaderProgram r = Some p -> Textured.texture r = Some t ->
  trace (world (Textured.cleanup r w)) =
  GlfwTerminate :: GlDeleteTextures t :: GlDeleteProgram p :: GlDeleteBuffers b
    :: GlDeleteVertexArrays a :: trace w.
Proof.
  intros Hready Ha Hb Hp Ht. destruct r; cbn in Ha, Hb, Hp, Ht; subst.
  destruct_world w; try discriminate Hready; reflexivity.
Qed.

Lemma Simple_cleanup_trace r w a b p wi :
  gl_ready w = true ->
  Simple.VAO r = N.pos a -> Simple.VBO r = N.pos b ->
  Simple.shaderProgram r = N.pos p -> Simple.window r = N.pos wi ->
  trace (world (Simple.cleanup r w)) =
  GlfwTerminate :: GlDeleteProgram (N.pos p) :: GlDeleteBuffers (N.pos b)
    :: GlDeleteVertexArrays (N.pos a) :: trace w.
Proof.
  intros Hready Ha Hb Hp Hw. destruct r; cbn in Ha, Hb, Hp, Hw; subst.
  destruct_world w; try discriminate Hready; reflexivity.
Qed.

Lemma Demo_cleanup_trace r w a b p wi :
  gl_ready w = true ->
  Demo.VAO r = N.pos a -> Demo.VBO r = N.pos b ->
  Demo.shaderProgram r = N.pos p -> Demo.window r = N.pos wi ->
  trace (world (Demo.cleanup r w)) =
  GlfwTerminate :: GlDeleteProgram (N.pos p) :: GlDeleteBuffers (N.pos b)
    :: GlDeleteVertexArrays (N.pos a) :: trace w.
Proof.
  intros Hready Ha Hb Hp Hw. destruct r; cbn in Ha, Hb, Hp, Hw; subst.
  destruct_world w; try discriminate Hready; reflexivity.
Qed.

Lemma Textured_init_lifecycle e :
  startup_ok e = true ->
  let i := Textured.init Textured.TexturedTriangleRenderer (initial_world e) in
  lifecycle (trace (world i)) =
    rev [GlfwInit; GlfwCreateWindow 800 600 "Textured Triangle Demo"; GladLoadGLLoader;
         GlCreateShader GL_VERTEX_SHADER 1%N; GlCreateShader GL_FRAGMENT_SHADER 2%N;
         GlCreateProgram 3%N; GlDeleteShader 1%N; GlDeleteShader 2%N;
         GlGenVertexArrays 4%N; GlGenBuffers 5%N; GlGenTextures 6%N] /\
  Textured.VAO (object i) = Some 4%N /\ Textured.VBO (object i) = Some 5%N /\
  Textured.shaderProgram (object i) = Some 3%N /\
  Textured.texture (object i) = Some 6%N.
Proof.
  intros Hok. destruct_env e; try discriminate Hok.
  cbv zeta. split_all; reflexivity.
Qed.

Lemma Simple_init_lifecycle e :
  startup_ok e = true ->
  let i := Simple.init Simple.SimpleTriangleRenderer (initial_world e) in
  lifecycle (trace (world i)) =
    rev [GlfwInit; GlfwCreateWindow 800 600 "Simple Triangle (C++)"; GladLoadGLLoader;
         GlCreateShader GL_VERTEX_SHADER 1%N; GlCreateShader GL_FRAGMENT_SHADER 2%N;
         GlCreateProgram 3%N; GlDeleteShader 1%N; GlDeleteShader 2%N;
         GlGenVertexArrays 4%N; GlGenBuffers 5%N] /\
  object i = {| Simple.window := 1%N; Simple.VAO := 4%N; Simple.VBO := 5%N;
                Simple.shaderProgram := 3%N |}.
Proof.
  intros Hok. destruct_env e; try discriminate Hok.
  cbv zeta. split_all; reflexivity.
Qed.

Lemma Demo_init_lifecycle e :
  startup_ok e = true ->
  let i := Demo.init Demo.TriangleRenderer (initial_world e) in
  lifecycle (trace (world i)) =
    rev [GlfwInit;
         GlfwCreateWindow 800 600 "Triangle Demo - Computer Graphics (C++)";
         GladLoadGLLoader;
         GlCreateShader GL_VERTEX_SHADER 1%N; GlCreateShader GL_FRAGMENT_SHADER 2%N;
         GlCreateProgram 3%N; GlDeleteShader 1%N; GlDeleteShader 2%N;
         GlGenVertexArrays 4%N; GlGenBuffers 5%N] /\
  object i = {| Demo.window := 1%N; Demo.VAO := 4%N; Demo.VBO := 5%N;
                Demo.shaderProgram := 3%N |}.
Proof.
  intros Hok. destruct_env e; try discriminate Hok.
  cbv zeta. split_all; reflexivity.
Qed.

Lemma Textured_run_lifecycle frames r w a b p t :
  Textured.VAO r = Some a -> Textured.VBO r = Some b ->
  Textured.shaderProgram r = Some p -> Textured.texture r = Some t ->
  let x := Textured.run frames r w in
  lifecycle (trace (world x)) = lifecycle (trace w) /\
  Textured.VAO (object x) = Some a /\ Textured.VBO (object x) = Some b /\
  Textured.shaderProgram (object x) = Some p /\ Textured.texture (object x) = Some t.
Proof.
  intros Ha Hb Hp Ht. cbv zeta. rewrite Textured_run_loop.
  apply (loop_invariant Textured.iteration
           (fun r' w' => lifecycle (trace w') = lifecycle (trace w) /\
                         Textured.VAO r' = Some a /\ Textured.VBO r' = Some b /\
                         Textured.shaderProgram r' = Some p /\
                         Textured.texture r' = Some t)).
  - intros r' w' H. rewrite lifecycle_log by reflexivity. exact H.
  - intros fe r' w' (H & Ha' & Hb' & Hp' & Ht').
    rewrite (proj1 (Textured_iteration_trace fe r' w')), Textured_iteration_object.
    destruct (Textured_after_iteration_handles r' fe) as (-> & -> & -> & ->). auto.
  - auto.
Qed.

Lemma Simple_run_lifecycle frames r w :
  gl_ready w = true ->
  let x := Simple.run frames r w in
  lifecycle (trace (world x)) =
    Cout "Press ESC or close window to exit" :: Cout "Simple Triangle Demo is running!"
      :: lifecycle (trace w) /\
  object x = r.
Proof.
  intros Hready. cbv zeta. rewrite Simple_run_eq by exact Hready.
  apply (loop_invariant Simple.iteration
           (fun r' w' => lifecycle (trace w') =
                           Cout "Press ESC or close window to exit"
                             :: Cout "Simple Triangle Demo is running!"
                             :: lifecycle (trace w) /\ r' = r)).
  - intros r' w' H. rewrite lifecycle_log by reflexivity. exact H.
  - intros fe r' w' (H & ->).
    rewrite (proj1 (Simple_iteration_trace fe r w')), Simple_iteration_object. auto.
  - rewrite !lifecycle_log_in by reflexivity. auto.
Qed.

Lemma Demo_run_lifecycle frames r w :
  gl_ready w = true ->
  let x := Demo.run frames r w in
  lifecycle (trace (world x)) =
    Cout "Press ESC or close window to exit" :: Cout "Triangle Demo is running!"
      :: lifecycle (trace w) /\
  object x = r.
Proof.
  intros Hready. cbv zeta. rewrite Demo_run_eq by exact Hready.
  apply (loop_invariant Demo.iteration
           (fun r' w' => lifecycle (trace w') =
                           Cout "Press ESC or close window to exit"
                             :: Cout "Triangle Demo is running!"
                             :: lifecycle (trace w) /\ r' = r)).
  - intros r' w' H. rewrite lifecycle_log by reflexivity. exact H.
  - intros fe r' w' (H & ->).
    rewrite (proj1 (Demo_iteration_trace fe r w')), Demo_iteration_object. auto.
  - rewrite !lifecycle_log_in by reflexivity. auto.
Qed.

Ltac fold_lifecycle :=
  repeat match goal with |- context [List.filter is_lifecycle ?t] =>
    change (List.filter is_lifecycle t) with (lifecycle t)
  end.

Lemma Phong_main_lifecycle e frames :
  startup_ok e = true -> existsb closes frames = true ->
  lifecycle (rev (trace (world (Phong.main e frames)))) =
    [GlfwInit; GlfwCreateWindow 800 600 "Phong Triangle Demo"; GladLoadGLLoader;
     GlCreateShader GL_VERTEX_SHADER 1%N; GlCreateShader GL_FRAGMENT_SHADER 2%N;
     GlCreateProgram 3%N; GlDeleteShader 1%N; GlDeleteShader 2%N;
     GlGenVertexArrays 4%N; GlGenBuffers 5%N;
     Cout "Phong Triangle Demo"; Cout "Controls:"; Cout "  R - Red color";
     Cout "  G - Green color"; Cout "  B - Blue color"; Cout "  Y - Yellow color";
     Cout "  ESC - Exit";
     GlDeleteVertexArrays 4%N; GlDeleteBuffers 5%N; GlDeleteProgram 3%N; GlfwTerminate].
Proof.
  intros Hok Hclose.
  rewrite (Phong_main_success e frames Hok Hclose).
  destruct (Phong_init_lifecycle e Hok) as (Hl & Ha & Hb & Hp).
  destruct (Phong_init_ok e Hok) as (Hready & _ & _ & Hassigned).
  match goal with |- context [Phong.run frames ?r ?w] =>
    destruct (Phong_run_lifecycle frames r w _ _ _ Ha Hb Hp) as (Hl' & Ha' & Hb' & Hp');
    destruct (Phong_run_spec frames r w) as (Hready' & _);
      [cbn [fold_left]; rewrite !log_ready; exact Hready | exact Hassigned |]
  end.
  rewrite (Phong_cleanup_trace _ _ _ _ _ Hready' Ha' Hb' Hp').
  rewrite lifecycle_rev. unfold lifecycle at 1. cbn [List.filter is_lifecycle].
  fold_lifecycle.
  rewrite Hl'. cbn [fold_left]. rewrite !lifecycle_log_in by reflexivity.
  rewrite Hl. reflexivity.
Qed.

Lemma Textured_main_lifecycle e frames :
  startup_ok e = true -> existsb closes frames = true ->
  lifecycle (rev (trace (world (Textured.main e frames)))) =
    [GlfwInit; GlfwCreateWindow 800 600 "Textured Triangle Demo"; GladLoadGLLoader;
     GlCreateShader GL_VERTEX_SHADER 1%N; GlCreateShader GL_FRAGMENT_SHADER 2%N;
     GlCreateProgram 3%N; GlDeleteShader 1%N; GlDeleteShader 2%N;
     GlGenVertexArrays 4%N; GlGenBuffers 5%N; GlGenTextures 6%N;
     Cout "Textured Triangle Demo"; Cout "Controls:"; Cout "  R - Red tint";
     Cout "  G - Green tint"; Cout "  B - Blue tint"; Cout "  W - White (no tint)";
     Cout "  ESC - Exit";
     GlDeleteVertexArrays 4%N; GlDeleteBuffers 5%N; GlDeleteProgram 3%N;
     GlDeleteTextures 6%N; GlfwTerminate].
Proof.
  intros Hok Hclose.
  rewrite (Textured_main_success e frames Hok Hclose).
  destruct (Textured_init_lifecycle e Hok) as (Hl & Ha & Hb & Hp & Ht).
  destruct (Textured_init_ok e Hok) as (Hready & _ & _ & Hassigned).
  match goal with |- context [Textured.run frames ?r ?w] =>
    destruct (Textured_run_lifecycle frames r w _ _ _ _ Ha Hb Hp Ht)
      as (Hl' & Ha' & Hb' & Hp' & Ht');
    destruct (Textured_run_spec frames r w) as (Hready' & _);
      [cbn [fold_left]; rewrite !log_ready; exact Hready | exact Hassigned |]
  end.
  rewrite (Textured_cleanup_trace _ _ _ _ _ _ Hready' Ha' Hb' Hp' Ht').
  rewrite lifecycle_rev. unfold lifecycle at 1. cbn [List.filter is_lifecycle].
  fold_lifecycle.
  rewrite Hl'. cbn [fold_left]. rewrite !lifecycle_log_in by reflexivity.
  rewrite Hl. reflexivity.
Qed.

Lemma Simple_main_lifecycle e frames :
  startup_ok e = true -> existsb closes frames = true ->
  lifecycle (rev (trace (world (Simple.main e frames)))) =
    [GlfwInit; GlfwCreateWindow 800 600 "Simple Triangle (C++)"; GladLoadGLLoader;
     GlCreateShader GL_VERTEX_SHADER 1%N; GlCreateShader GL_FRAGMENT_SHADER 2%N;
     GlCreateProgram 3%N; GlDeleteShader 1%N; GlDeleteShader 2%N;
     GlGenVertexArrays 4%N; GlGenBuffers 5%N;
     Cout "Simple Triangle Demo is running!"; Cout "Press ESC or close window to exit";
     GlDeleteVertexArrays 4%N; GlDeleteBuffers 5%N; GlDeleteProgram 3%N; GlfwTerminate].
Proof.
  intros Hok Hclose.
  rewrite (Simple_main_success e frames Hok Hclose).
  destruct (Simple_init_lifecycle e Hok) as (Hl & Hr).
  destruct (Simple_init_ok e Hok) as (Hready & _).
  match goal with |- context [Simple.run frames ?r ?w] =>
    destruct (Simple_run_lifecycle frames r w Hready) as (Hl' & Hr');
    assert (Hready' : gl_ready (world (Simple.run frames r w)) = true)
  end.
  { rewrite Simple_run_eq by exact Hready. rewrite <- Simple_run_loop.
    refine (proj1 (Simple_run_spec frames _ _ _)). rewrite !log_ready. exact Hready. }
  rewrite (Simple_cleanup_trace _ _ 4 5 3 1) by first [exact Hready' | rewrite Hr', Hr; reflexivity].
  rewrite lifecycle_rev. unfold lifecycle at 1. cbn [List.filter is_lifecycle].
  fold_lifecycle.
  rewrite Hl', Hl. reflexivity.
Qed.

Lemma Demo_main_lifecycle e frames :
  startup_ok e = true -> existsb closes frames = true ->
  lifecycle (rev (trace (world (Demo.main e frames)))) =
    [GlfwInit; GlfwCreateWindow 800 600 "Triangle Demo - Computer Graphics (C++)";
     GladLoadGLLoader;
     GlCreateShader GL_VERTEX_SHADER 1%N; GlCreateShader GL_FRAGMENT_SHADER 2%N;
     GlCreateProgram 3%N; GlDeleteShader 1%N; GlDeleteShader 2%N;
     GlGenVertexArrays 4%N; GlGenBuffers 5%N;
     Cout "Triangle Demo is running!"; Cout "Press ESC or close window to exit";
     GlDeleteVertexArrays 4%N; GlDeleteBuffers 5%N; GlDeleteProgram 3%N; GlfwTerminate].
Proof.
  intros Hok Hclose.
  rewrite (Demo_main_success e frames Hok Hclose).
  destruct (Demo_init_lifecycle e Hok) as (Hl & Hr).
  destruct (Demo_init_ok e Hok) as (Hready & _).
  match goal with |- context [Demo.run frames ?r ?w] =>
    destruct (Demo_run_lifecycle frames r w Hready) as (Hl' & Hr');
    assert (Hready' : gl_ready (world (Demo.run frames r w)) = true)
  end.
  { rewrite Demo_run_eq by exact Hready. rewrite <- Demo_run_loop.
    refine (proj1 (Demo_run_spec frames _ _ _)). rewrite !log_ready. exact Hready. }
  rewrite (Demo_cleanup_trace _ _ 4 5 3 1) by first [exact Hready' | rewrite Hr', Hr; reflexivity].
  rewrite lifecycle_rev. unfold lifecycle at 1. cbn [List.filter is_lifecycle].
  fold_lifecycle.
  rewrite Hl', Hl. reflexivity.
Qed.

Lemma filter_lifecycle (p : Call -> bool) cs :
  (forall c, p c = true -> is_lifecycle c = true) ->
  List.filter p (lifecycle cs) = List.filter p cs.
Proof.
  intros Hp. unfold lifecycle. induction cs as [|c cs IH]; [reflexivity|].
  cbn [List.filter]. destruct (is_lifecycle c) eqn:Hc; cbn [List.filter].
  - rewrite IH. reflexivity.
  - destruct (p c) eqn:Hpc; [|exact IH]. rewrite (Hp c Hpc) in Hc. discriminate Hc.
Qed.

Lemma omap_lifecycle {A} (f : Call -> option A) cs :
  (forall c, is_lifecycle c = false -> f c = None) ->
  omap f (lifecycle cs) = omap f cs.
Proof.
  intros Hf. unfold lifecycle. induction cs as [|c cs IH]; [reflexivity|].
  cbn [List.filter]. destruct (is_lifecycle c) eqn:Hc; cbn [omap list_omap].
  - rewrite IH. reflexivity.
  - rewrite (Hf c Hc). exact IH.
Qed.

Lemma terminations_lifecycle w :
  terminations w =
  List.length (List.filter is_terminate (lifecycle (rev (trace w)))).
Proof.
  unfold terminations. rewrite filter_lifecycle by (intros []; discriminate || reflexivity).
  rewrite List.filter_rev, length_rev. reflexivity.
Qed.




(** How often [glfwTerminate] is called by the time the process has ended.
    The simple and the colour program terminate GLFW once if [glfwInit]
    succeeded and not at all if it failed. The Phong and the textured
    program do the same as long as the OpenGL entry points get loaded, and
    when the window cannot be created ([init] then terminates GLFW itself).
    But when the loading by GLAD fails they never terminate GLFW, although
    it runs and has a window: the process is killed in [cleanup], in the
    call of [glDeleteVertexArrays], before [glfwTerminate] is reached. *)
Theorem glfw_terminations : forall e frames,
  returns e frames = true ->
  terminations (world (Simple.main e frames)) = (if glfwInit_ok e then 1 else 0)%nat /\
  terminations (world (Demo.main e frames)) = (if glfwInit_ok e then 1 else 0)%nat /\
  terminations (world (Phong.main e frames)) =
    (if glfwInit_ok e && (negb (createWindow_ok e) || gladLoad_ok e) then 1 else 0)%nat /\
  terminations (world (Textured.main e frames)) =
    (if glfwInit_ok e && (negb (createWindow_ok e) || gladLoad_ok e) then 1 else 0)%nat.
Proof.
  intros e frames Hret. unfold returns in Hret.
  destruct (startup_ok e) eqn:Hok.
  - cbn [negb orb] in Hret.
    rewrite !terminations_lifecycle, Phong_main_lifecycle, Textured_main_lifecycle,
      Simple_main_lifecycle, Demo_main_lifecycle by assumption.
    destruct_env e; try discriminate Hok. split_all; reflexivity.
  - clear Hret. destruct_env e; try discriminate Hok; split_all; reflexivity.
Qed.

(** GLAD fails: the simple program terminates GLFW, the Phong program is
    killed before it does. When the window cannot be created, both do. *)
Lemma glfw_terminations_witness :
  let no_glad :=
    {| glfwInit_ok := true; createWindow_ok := true; gladLoad_ok := false;
       vertex_compile_ok := true; fragment_compile_ok := true; link_ok := true;
       link_keeps := fun _ => true;
       buffer_alloc_ok := true; texture_alloc_ok := true;
       info_log := fun _ => EmptyString; uninitialized := fun _ => 0%N |} in
  terminations (world (Phong.main no_glad [no_keys])) = 0%nat /\
  terminations (world (Simple.main no_glad [no_keys])) = 1%nat /\
  terminations (world (Phong.main no_window [no_keys])) = 1%nat /\
  terminations (world (Simple.main no_window [no_keys])) = 1%nat.
Proof.
  intros no_glad.
  destruct (glfw_terminations no_glad [no_keys] eq_refl) as (H1 & _ & H3 & _).
  destruct (glfw_terminations no_window [no_keys] eq_refl) as (H1' & _ & H3' & _).
  split_all; [exact H3|exact H1|exact H3'|exact H1'].
Defined.



(** [init] is safe in every environment: in none of the four programs does
    it issue an OpenGL command before a context is current and GLAD has
    loaded the entry points, or read a member that has not been assigned. *)
Theorem init_is_safe : forall e,
  fault (world (Phong.init Phong.PhongTriangleRenderer (initial_world e))) = false /\
  fault (world (Textured.init Textured.TexturedTriangleRenderer (initial_world e))) = false /\
  fault (world (Simple.init Simple.SimpleTriangleRenderer (initial_world e))) = false /\
  fault (world (Demo.init Demo.TriangleRenderer (initial_world e))) = false.
Proof. intros e. destruct_env e; split_all; reflexivity. Qed.

(** Whatever startup step fails, the Phong and the textured program reach
    undefined behaviour after [main] has returned -1: the destructor's
    [cleanup] passes [VAO] and [VBO], which only [setupBuffers] assigns, to
    OpenGL. If the step that failed is [glfwInit], the window or GLAD, the
    entry points are not loaded and the process is killed in
    [glDeleteVertexArrays]. After a failed compilation or link OpenGL is
    loaded: [cleanup] runs to its end with whatever the unassigned members
    hold, and the process ends with the status [main] returned, -1. The
    simple and the colour program end with status -1 in each of these
    cases, without undefined behaviour. *)
Theorem failed_startup_outcome : forall e frames,
  startup_ok e = false ->
  outcome (Phong.main e frames) = Some (if gl_loads e then Exited (-1) else Aborted) /\
  outcome (Textured.main e frames) = Some (if gl_loads e then Exited (-1) else Aborted) /\
  outcome (Simple.main e frames) = Some (Exited (-1)) /\
  outcome (Demo.main e frames) = Some (Exited (-1)) /\
  fault (world (Phong.main e frames)) = true /\
  fault (world (Textured.main e frames)) = true /\
  fault (world (Simple.main e frames)) = false /\
  fault (world (Demo.main e frames)) = false.
Proof.
  intros e frames Hok. destruct_env e; try discriminate Hok; split_all; reflexivity.
Qed.

(** The link fails, and GLAD fails. *)
Lemma failed_startup_outcome_witness :
  let no_link :=
    {| glfwInit_ok := true; createWindow_ok := true; gladLoad_ok := true;
       vertex_compile_ok := true; fragment_compile_ok := true; link_ok := false;
       link_keeps := fun _ => true;
       buffer_alloc_ok := true; texture_alloc_ok := true;
       info_log := fun _ => EmptyString; uninitialized := fun _ => 32767%N |} in
  let no_glad :=
    {| glfwInit_ok := true; createWindow_ok := true; gladLoad_ok := false;
       vertex_compile_ok := true; fragment_compile_ok := true; link_ok := true;
       link_keeps := fun _ => true;
       buffer_alloc_ok := true; texture_alloc_ok := true;
       info_log := fun _ => EmptyString; uninitialized := fun _ => 32767%N |} in
  outcome (Textured.main no_link [no_keys]) = Some (Exited (-1)) /\
  outcome (Demo.main no_link [no_keys]) = Some (Exited (-1)) /\
  outcome (Textured.main no_glad [no_keys]) = Some Aborted /\
  outcome (Demo.main no_glad [no_keys]) = Some (Exited (-1)).
Proof.
  intros no_link no_glad.
  destruct (failed_startup_outcome no_link [no_keys] eq_refl) as (_ & H2 & _ & H4 & _).
  destruct (failed_startup_outcome no_glad [no_keys] eq_refl) as (_ & H2' & _ & H4' & _).
  split_all; [exact H2|exact H4|exact H2'|exact H4'].
Defined.

(* ================================================================= *)
(** ** OpenGL errors *)

Lemma gl_state_set_frame fe w : gl_state (set_frame fe w) = gl_state w.
Proof. destruct w; reflexivity. Qed.

Lemma gl_state_log c w : gl_state (log c w) = gl_state w.
Proof. destruct w; reflexivity. Qed.

Lemma gl_state_ready w w' : gl_state w' = gl_state w -> gl_ready w' = gl_ready w.
Proof.
  unfold gl_state, gl_ready. intros H. injection H as -> -> _ _ _ _ _ _ _ ->.
  reflexivity.
Qed.

Lemma gl_state_programs w w' : gl_state w' = gl_state w -> programs w' = programs w.
Proof. unfold gl_state. intros H. injection H as _ _ _ _ _ _ -> _ _ _. reflexivity. Qed.

Lemma gl_state_error w w' : gl_state w' = gl_state w -> gl_error w' = gl_error w.
Proof. unfold gl_state. intros H. injection H as _ _ _ _ _ _ _ _ -> _. reflexivity. Qed.

(** Input handling and event polling leave OpenGL alone. *)
Lemma Phong_processInput_gl r w : gl_state (world (Phong.processInput r w)) = gl_state w.
Proof.
  destruct r, w as [? fe ? ? ? ? ? ? ? ? ? ? ? ? ? ? ? []];
  destruct_keys fe; reflexivity.
Qed.

Lemma Textured_processInput_gl r w :
  gl_state (world (Textured.processInput r w)) = gl_state w.
Proof.
  destruct r, w as [? fe ? ? ? ? ? ? ? ? ? ? ? ? ? ? ? []];
  destruct_keys fe; reflexivity.
Qed.

Lemma Phong_poll_gl r w :
  gl_ready w = true ->
  gl_state (world (glfwPollEvents Phong.framebufferSizeCallback r w)) = gl_state w.
Proof.
  intros Hready. unfold glfwPollEvents.
  rewrite (ready_running w Hready).
  destruct (resize_to (frame w)) as [[? ?]|]; [|destruct w; reflexivity].
  destruct (resize_cb w); [|destruct w; reflexivity].
  destruct_world w; try discriminate Hready; reflexivity.
Qed.

Lemma Phong_render_ready r w :
  gl_ready w = true -> gl_ready (world (Phong.render r w)) = true.
Proof.
  intros Hready. destruct r.
  destruct_world w; try discriminate Hready; reflexivity.
Qed.

Lemma Textured_poll_gl r w :
  gl_ready w = true ->
  gl_state (world (glfwPollEvents Textured.framebufferSizeCallback r w)) = gl_state w.
Proof.
  intros Hready. unfold glfwPollEvents.
  rewrite (ready_running w Hready).
  destruct (resize_to (frame w)) as [[? ?]|]; [|destruct w; reflexivity].
  destruct (resize_cb w); [|destruct w; reflexivity].
  destruct_world w; try discriminate Hready; reflexivity.
Qed.

Lemma Textured_render_ready r w :
  gl_ready w = true -> gl_ready (world (Textured.render r w)) = true.
Proof.
  intros Hready. destruct r.
  destruct_world w; try discriminate Hready; reflexivity.
Qed.

Lemma Phong_after_input_handles down r :
  Phong.VAO (Phong_after_input down r) = Phong.VAO r /\
  Phong.shaderProgram (Phong_after_input down r) = Phong.shaderProgram r.
Proof.
  unfold Phong_after_input.
  destruct (last_held Phong.color_keys down); destruct r; auto.
Qed.

(** An iteration of the Phong loop records no OpenGL error, whatever the
    uniforms that are active in the program. *)
Lemma Phong_iteration_gl fe r w p pr vao :
  gl_ready w = true ->
  Phong.shaderProgram r = Some p -> Phong.VAO r = Some vao ->
  programs w !! p = Some pr ->
  let x := Phong.iteration fe r w in
  gl_error (world x) = gl_error w /\ is_Some (programs (world x) !! p).
Proof.
  intros Hready Hp Hvao Hpr. cbv zeta. unfold Phong.iteration.
  rewrite bind_eq, begin_frame_eq. cbn [result object world fst snd].
  rewrite bind_eq.
  pose proof (Phong_processInput_gl r (set_frame fe w)) as G1.
  rewrite gl_state_set_frame in G1.
  pose proof (Phong_processInput_object r (set_frame fe w)) as O1.
  destruct (Phong_after_input_handles (key_down (frame (set_frame fe w))) r) as (Hvao1 & Hp1).
  rewrite <- O1, Hvao in Hvao1. rewrite <- O1, Hp in Hp1.
  set (r1 := object (Phong.processInput r (set_frame fe w))) in *.
  set (w1 := world (Phong.processInput r (set_frame fe w))) in *.
  assert (Hready1 : gl_ready w1 = true) by (rewrite (gl_state_ready _ _ G1); exact Hready).
  assert (Hpr1 : programs w1 !! p = Some pr) by (rewrite (gl_state_programs _ _ G1); exact Hpr).
  destruct (Phong_render_programs r1 w1 p pr vao Hready1 Hp1 Hvao1 Hpr1) as (He & _ & Hps).
  rewrite bind_eq.
  set (r2 := object (Phong.render r1 w1)) in *.
  set (w2 := world (Phong.render r1 w1)) in *.
  rewrite bind_eq. cbn [glfwSwapBuffers result object world fst snd].
  assert (Hready2 : gl_ready w2 = true) by (apply Phong_render_ready; exact Hready1).
  rewrite (ready_alive w2) by exact Hready2.
  pose proof (Phong_poll_gl r2 (log GlfwSwapBuffers w2)) as G3.
  rewrite log_ready, gl_state_log in G3. specialize (G3 Hready2).
  rewrite (gl_state_error _ _ G3), (gl_state_programs _ _ G3), He, Hps,
    (gl_state_error _ _ G1), lookup_insert_eq.
  split; [reflexivity|eexists; reflexivity].
Qed.

Lemma Textured_render_gl r w p pr vao t :
  gl_ready w = true ->
  Textured.shaderProgram r = Some p -> Textured.VAO r = Some vao ->
  Textured.texture r = Some t ->
  programs w !! p = Some pr ->
  let x := Textured.render r w in
  gl_error (world x) = gl_error w /\ is_Some (programs (world x) !! p).
Proof.
  intros Hready Hp Hvao Ht Hpr. destruct r; cbn in Hp, Hvao, Ht; subst.
  destruct_world w; try discriminate Hready. cbn in Hpr.
  cbv zeta. split.
  - cbn. settle_uniforms p pr Hpr. reflexivity.
  - cbn. settle_uniforms p pr Hpr. rewrite ?insert_insert_eq, lookup_insert_eq.
    eexists; reflexivity.
Qed.

Lemma Textured_after_input_handles down r :
  Textured.VAO (Textured_after_input down r) = Textured.VAO r /\
  Textured.shaderProgram (Textured_after_input down r) = Textured.shaderProgram r /\
  Textured.texture (Textured_after_input down r) = Textured.texture r.
Proof.
  unfold Textured_after_input.
  destruct (last_held Textured.color_keys down); destruct r; auto.
Qed.

Lemma Textured_iteration_gl fe r w p pr vao t :
  gl_ready w = true ->
  Textured.shaderProgram r = Some p -> Textured.VAO r = Some vao ->
  Textured.texture r = Some t ->
  programs w !! p = Some pr ->
  let x := Textured.iteration fe r w in
  gl_error (world x) = gl_error w /\ is_Some (programs (world x) !! p).
Proof.
  intros Hready Hp Hvao Ht Hpr. cbv zeta. unfold Textured.iteration.
  rewrite bind_eq, begin_frame_eq. cbn [result object world fst snd].
  rewrite bind_eq.
  pose proof (Textured_processInput_gl r (set_frame fe w)) as G1.
  rewrite gl_state_set_frame in G1.
  pose proof (Textured_processInput_object r (set_frame fe w)) as O1.
  destruct (Textured_after_input_handles (key_down (frame (set_frame fe w))) r)
    as (Hvao1 & Hp1 & Ht1).
  rewrite <- O1, Hvao in Hvao1. rewrite <- O1, Hp in Hp1. rewrite <- O1, Ht in Ht1.
  set (r1 := object (Textured.processInput r (set_frame fe w))) in *.
  set (w1 := world (Textured.processInput r (set_frame fe w))) in *.
  assert (Hready1 : gl_ready w1 = true) by (rewrite (gl_state_ready _ _ G1); exact Hready).
  assert (Hpr1 : programs w1 !! p = Some pr) by (rewrite (gl_state_programs _ _ G1); exact Hpr).
  destruct (Textured_render_gl r1 w1 p pr vao t Hready1 Hp1 Hvao1 Ht1 Hpr1) as (He & Hps).
  rewrite bind_eq.
  set (r2 := object (Textured.render r1 w1)) in *.
  set (w2 := world (Textured.render r1 w1)) in *.
  rewrite bind_eq. cbn [glfwSwapBuffers result object world fst snd].
  assert (Hready2 : gl_ready w2 = true) by (apply Textured_render_ready; exact Hready1).
  rewrite (ready_alive w2) by exact Hready2.
  pose proof (Textured_poll_gl r2 (log GlfwSwapBuffers w2)) as G3.
  rewrite log_ready, gl_state_log in G3. specialize (G3 Hready2).
  rewrite (gl_state_error _ _ G3), (gl_state_programs _ _ G3), He,
    (gl_state_error _ _ G1).
  split; [reflexivity|exact Hps].
Qed.

Lemma Simple_iteration_gl fe r w :
  gl_ready w = true ->
  let x := Simple.iteration fe r w in
  gl_error (world x) = gl_error w /\ programs (world x) = programs w.
Proof.
  intros Hready. destruct r. destruct_world w; try discriminate Hready.
  destruct w_cb; destruct_escape fe; split; reflexivity.
Qed.

Lemma Demo_iteration_gl fe r w :
  gl_ready w = true ->
  let x := Demo.iteration fe r w in
  gl_error (world x) = gl_error w /\ programs (world x) = programs w.
Proof.
  intros Hready. destruct r. destruct_world w; try discriminate Hready.
  destruct w_cb; destruct_escape fe; split; reflexivity.
Qed.

Lemma log_error c w : gl_error (log c w) = gl_error w.
Proof. destruct w; reflexivity. Qed.

Lemma log_programs c w : programs (log c w) = programs w.
Proof. destruct w; reflexivity. Qed.

(** The four loops keep the error flag as it is. *)
Lemma Phong_run_gl frames r w p vao vbo :
  gl_ready w = true ->
  Phong.shaderProgram r = Some p -> Phong.VAO r = Some vao -> Phong.VBO r = Some vbo ->
  is_Some (programs w !! p) ->
  let x := Phong.run frames r w in
  gl_ready (world x) = true /\
  Phong.shaderProgram (object x) = Some p /\ Phong.VAO (object x) = Some vao /\
  Phong.VBO (object x) = Some vbo /\
  is_Some (programs (world x) !! p) /\ gl_error (world x) = gl_error w.
Proof.
  intros Hready Hp Hvao Hvbo Hpr. cbv zeta. rewrite Phong_run_loop.
  apply (loop_invariant Phong.iteration
           (fun r' w' => gl_ready w' = true /\
                         Phong.shaderProgram r' = Some p /\ Phong.VAO r' = Some vao /\
                         Phong.VBO r' = Some vbo /\
                         is_Some (programs w' !! p) /\ gl_error w' = gl_error w)).
  - intros r' w'. rewrite log_ready, log_programs, log_error. exact id.
  - intros fe r' w' (Hready' & Hp' & Hvao' & Hvbo' & [pr Hpr'] & He').
    destruct (Phong_iteration_gl fe r' w' p pr vao Hready' Hp' Hvao' Hpr') as (He & Hps).
    assert (Ha : Phong_assigned r') by (unfold Phong_assigned; rewrite Hp', Hvao', Hvbo'; eauto).
    destruct (Phong_step fe r' w' Hready' Ha) as [Heff _].
    rewrite Phong_iteration_object.
    destruct (Phong_after_iteration_handles r' fe) as (-> & -> & ->).
    split_all; trivial; [apply Heff|congruence].
  - split_all; trivial.
Qed.

Lemma Textured_run_gl frames r w p vao vbo t :
  gl_ready w = true ->
  Textured.shaderProgram r = Some p -> Textured.VAO r = Some vao ->
  Textured.VBO r = Some vbo -> Textured.texture r = Some t ->
  is_Some (programs w !! p) ->
  let x := Textured.run frames r w in
  gl_ready (world x) = true /\
  Textured.shaderProgram (object x) = Some p /\ Textured.VAO (object x) = Some vao /\
  Textured.VBO (object x) = Some vbo /\ Textured.texture (object x) = Some t /\
  is_Some (programs (world x) !! p) /\ gl_error (world x) = gl_error w.
Proof.
  intros Hready Hp Hvao Hvbo Ht Hpr. cbv zeta. rewrite Textured_run_loop.
  apply (loop_invariant Textured.iteration
           (fun r' w' => gl_ready w' = true /\
                         Textured.shaderProgram r' = Some p /\
                         Textured.VAO r' = Some vao /\
                         Textured.VBO r' = Some vbo /\ Textured.texture r' = Some t /\
                         is_Some (programs w' !! p) /\ gl_error w' = gl_error w)).
  - intros r' w'. rewrite log_ready, log_programs, log_error. exact id.
  - intros fe r' w' (Hready' & Hp' & Hvao' & Hvbo' & Ht' & [pr Hpr'] & He').
    destruct (Textured_iteration_gl fe r' w' p pr vao t Hready' Hp' Hvao' Ht' Hpr')
      as (He & Hps).
    assert (Ha : Textured_assigned r')
      by (unfold Textured_assigned; rewrite Hp', Hvao', Hvbo', Ht'; eauto).
    destruct (Textured_step fe r' w' Hready' Ha) as [Heff _].
    rewrite Textured_iteration_object.
    destruct (Textured_after_iteration_handles r' fe) as (-> & -> & -> & ->).
    split_all; trivial; [apply Heff|congruence].
  - split_all; trivial.
Qed.

Lemma Simple_run_gl frames r w :
  gl_ready w = true ->
  let x := Simple.run frames r w in
  gl_ready (world x) = true /\ object x = r /\
  programs (world x) = programs w /\ gl_error (world x) = gl_error w.
Proof.
  intros Hready. cbv zeta. rewrite Simple_run_eq by exact Hready.
  apply (loop_invariant Simple.iteration
           (fun r' w' => gl_ready w' = true /\ r' = r /\
                         programs w' = programs w /\ gl_error w' = gl_error w)).
  - intros r' w'. rewrite log_ready, log_programs, log_error. exact id.
  - intros fe r' w' (Hready' & -> & Hps & He).
    destruct (Simple_iteration_gl fe r w' Hready') as (He' & Hps').
    destruct (Simple_step fe r w' Hready' I) as [Heff _].
    rewrite Simple_iteration_object.
    split_all; trivial; [apply Heff|congruence|congruence].
  - rewrite !log_ready, !log_programs, !log_error. auto.
Qed.

Lemma Demo_run_gl frames r w :
  gl_ready w = true ->
  let x := Demo.run frames r w in
  gl_ready (world x) = true /\ object x = r /\
  programs (world x) = programs w /\ gl_error (world x) = gl_error w.
Proof.
  intros Hready. cbv zeta. rewrite Demo_run_eq by exact Hready.
  apply (loop_invariant Demo.iteration
           (fun r' w' => gl_ready w' = true /\ r' = r /\
                         programs w' = programs w /\ gl_error w' = gl_error w)).
  - intros r' w'. rewrite log_ready, log_programs, log_error. exact id.
  - intros fe r' w' (Hready' & -> & Hps & He).
    destruct (Demo_iteration_gl fe r w' Hready') as (He' & Hps').
    destruct (Demo_step fe r w' Hready' I) as [Heff _].
    rewrite Demo_iteration_object.
    split_all; trivial; [apply Heff|congruence|congruence].
  - rewrite !log_ready, !log_programs, !log_error. auto.
Qed.

(** [cleanup] of an existing program records no error. *)
Lemma Phong_cleanup_error r w p vao vbo :
  gl_ready w = true ->
  Phong.shaderProgram r = Some p -> Phong.VAO r = Some vao -> Phong.VBO r = Some vbo ->
  is_Some (programs w !! p) ->
  gl_error (world (Phong.cleanup r w)) = gl_error w.
Proof.
  intros Hready Hp Hvao Hvbo [pr Hpr]. destruct r; cbn in Hp, Hvao, Hvbo; subst.
  destruct_world w; try discriminate Hready. cbn in Hpr. cbn.
  rewrite (has_program_lookup _ _ _ Hpr), andb_false_r. reflexivity.
Qed.

Lemma Textured_cleanup_error r w p vao vbo t :
  gl_ready w = true ->
  Textured.shaderProgram r = Some p -> Textured.VAO r = Some vao ->
  Textured.VBO r = Some vbo -> Textured.texture r = Some t ->
  is_Some (programs w !! p) ->
  gl_error (world (Textured.cleanup r w)) = gl_error w.
Proof.
  intros Hready Hp Hvao Hvbo Ht [pr Hpr]. destruct r; cbn in Hp, Hvao, Hvbo, Ht; subst.
  destruct_world w; try discriminate Hready. cbn in Hpr. cbn.
  rewrite (has_program_lookup _ _ _ Hpr), andb_false_r. reflexivity.
Qed.

Lemma Simple_cleanup_error r w :
  gl_ready w = true ->
  is_Some (programs w !! Simple.shaderProgram r) ->
  gl_error (world (Simple.cleanup r w)) = gl_error w.
Proof.
  intros Hready [pr Hpr]. destruct r as [win vao vbo p]. cbn in Hpr.
  destruct_world w; try discriminate Hready. cbn in Hpr.
  destruct win, vao, vbo, p; cbn;
    rewrite ?(has_program_lookup _ _ _ Hpr), ?andb_false_r; reflexivity.
Qed.

Lemma Demo_cleanup_error r w :
  gl_ready w = true ->
  is_Some (programs w !! Demo.shaderProgram r) ->
  gl_error (world (Demo.cleanup r w)) = gl_error w.
Proof.
  intros Hready [pr Hpr]. destruct r as [win p vao vbo]. cbn in Hpr.
  destruct_world w; try discriminate Hready. cbn in Hpr.
  destruct win, vao, vbo, p; cbn;
    rewrite ?(has_program_lookup _ _ _ Hpr), ?andb_false_r; reflexivity.
Qed.

Lemma Phong_init_program e :
  startup_ok e = true ->
  is_Some (programs (world (Phong.init Phong.PhongTriangleRenderer (initial_world e)))
             !! 3%N).
Proof.
  intros Hok. destruct_env e; try discriminate Hok. vm_compute. eexists; reflexivity.
Qed.

Lemma Textured_init_program e :
  startup_ok e = true ->
  is_Some (programs (world (Textured.init Textured.TexturedTriangleRenderer
                              (initial_world e))) !! 3%N).
Proof.
  intros Hok. destruct_env e; try discriminate Hok. vm_compute. eexists; reflexivity.
Qed.

Lemma Simple_init_program e :
  startup_ok e = true ->
  is_Some (programs (world (Simple.init Simple.SimpleTriangleRenderer (initial_world e)))
             !! 3%N).
Proof.
  intros Hok. destruct_env e; try discriminate Hok. vm_compute. eexists; reflexivity.
Qed.

Lemma Demo_init_program e :
  startup_ok e = true ->
  is_Some (programs (world (Demo.init Demo.TriangleRenderer (initial_world e))) !! 3%N).
Proof.
  intros Hok. destruct_env e; try discriminate Hok. vm_compute. eexists; reflexivity.
Qed.

Lemma Phong_main_error e frames :
  startup_ok e = true -> existsb closes frames = true ->
  gl_error (world (Phong.main e frames)) = negb (buffer_alloc_ok e).
Proof.
  intros Hok Hclose.
  rewrite (Phong_main_success e frames Hok Hclose).
  destruct (Phong_init_ok e Hok) as (Hready & _).
  destruct (Phong_init_lifecycle e Hok) as (_ & Ha & Hb & Hp).
  pose proof (Phong_init_program e Hok) as Hpr.
  match goal with |- context [Phong.run frames ?r ?w] =>
    destruct (Phong_run_gl frames r w 3%N 4%N 5%N)
      as (Hready' & Hp' & Ha' & Hb' & Hpr' & He'); trivial
  end.
  { cbn [fold_left]. rewrite !log_ready. exact Hready. }
  { cbn [fold_left]. rewrite !log_programs. exact Hpr. }
  rewrite (Phong_cleanup_error _ _ 3%N 4%N 5%N), He' by assumption.
  cbn [fold_left]. rewrite !log_error. apply Phong_init_error, Hok.
Qed.

Lemma Textured_main_error e frames :
  startup_ok e = true -> existsb closes frames = true ->
  gl_error (world (Textured.main e frames)) =
  negb (buffer_alloc_ok e && texture_alloc_ok e).
Proof.
  intros Hok Hclose.
  rewrite (Textured_main_success e frames Hok Hclose).
  destruct (Textured_init_ok e Hok) as (Hready & _).
  destruct (Textured_init_lifecycle e Hok) as (_ & Ha & Hb & Hp & Ht).
  pose proof (Textured_init_program e Hok) as Hpr.
  match goal with |- context [Textured.run frames ?r ?w] =>
    destruct (Textured_run_gl frames r w 3%N 4%N 5%N 6%N)
      as (Hready' & Hp' & Ha' & Hb' & Ht' & Hpr' & He'); trivial
  end.
  { cbn [fold_left]. rewrite !log_ready. exact Hready. }
  { cbn [fold_left]. rewrite !log_programs. exact Hpr. }
  rewrite (Textured_cleanup_error _ _ 3%N 4%N 5%N 6%N), He' by assumption.
  cbn [fold_left]. rewrite !log_error. apply Textured_init_error, Hok.
Qed.

Lemma Simple_main_error e frames :
  startup_ok e = true -> existsb closes frames = true ->
  gl_error (world (Simple.main e frames)) = negb (buffer_alloc_ok e).
Proof.
  intros Hok Hclose.
  rewrite (Simple_main_success e frames Hok Hclose).
  destruct (Simple_init_ok e Hok) as (Hready & _).
  destruct (Simple_init_lifecycle e Hok) as (_ & Hr).
  pose proof (Simple_init_program e Hok) as Hpr.
  match goal with |- context [Simple.run frames ?r ?w] =>
    destruct (Simple_run_gl frames r w Hready) as (Hready' & Hr' & Hps' & He')
  end.
  rewrite Simple_cleanup_error, He'; trivial.
  - apply Simple_init_error, Hok.
  - rewrite Hr', Hps', Hr. exact Hpr.
Qed.

Lemma Demo_main_error e frames :
  startup_ok e = true -> existsb closes frames = true ->
  gl_error (world (Demo.main e frames)) = negb (buffer_alloc_ok e).
Proof.
  intros Hok Hclose.
  rewrite (Demo_main_success e frames Hok Hclose).
  destruct (Demo_init_ok e Hok) as (Hready & _).
  destruct (Demo_init_lifecycle e Hok) as (_ & Hr).
  pose proof (Demo_init_program e Hok) as Hpr.
  match goal with |- context [Demo.run frames ?r ?w] =>
    destruct (Demo_run_gl frames r w Hready) as (Hready' & Hr' & Hps' & He')
  end.
  rewrite Demo_cleanup_error, He'; trivial.
  - apply Demo_init_error, Hok.
  - rewrite Hr', Hps', Hr. exact Hpr.
Qed.

(** In a run whose startup succeeds and which the user ends, the only
    OpenGL errors recorded from the first call to the last are those of a
    rejected buffer or texture allocation. Nothing else the programs do
    records one: not the uniforms of a frame, whichever of them the linker
    has kept and whatever keys are pressed, not a resize, and not the
    deletions of [cleanup]. *)
Theorem only_allocations_record_errors : forall e frames,
  startup_ok e = true -> existsb closes frames = true ->
  gl_error (world (Phong.main e frames)) = negb (buffer_alloc_ok e) /\
  gl_error (world (Textured.main e frames)) =
    negb (buffer_alloc_ok e && texture_alloc_ok e) /\
  gl_error (world (Simple.main e frames)) = negb (buffer_alloc_ok e) /\
  gl_error (world (Demo.main e frames)) = negb (buffer_alloc_ok e).
Proof.
  intros e frames Hok Hclose. split_all.
  - apply Phong_main_error; assumption.
  - apply Textured_main_error; assumption.
  - apply Simple_main_error; assumption.
  - apply Demo_main_error; assumption.
Qed.

(** The linker drops [lightPos]; the user resizes the window, presses G and
    then Escape. *)
Lemma only_allocations_record_errors_witness :
  gl_error (world (Phong.main drops_lightPos
                     [resizing 640 480; holding [KEY_G]; escape])) = false.
Proof.
  exact (proj1 (only_allocations_record_errors drops_lightPos
                  [resizing 640 480; holding [KEY_G]; escape] eq_refl eq_refl)).
Defined.

(* ================================================================= *)
(** ** The palette *)

Section Palette.
Variable keys : list (Key * vec3).

Lemma last_held_up down :
  existsb (fun kc => down (fst kc)) keys = false -> last_held keys down = None.
Proof.
  intros H. apply last_held_none. intros k c Hin.
  destruct (down k) eqn:Hk; [|reflexivity].
  assert (existsb (fun kc => down (fst kc)) keys = true)
    by (apply existsb_exists; exists (k, c); auto).
  congruence.
Qed.

Lemma fold_pick_down down (l : list (Key * vec3)) acc :
  existsb (fun kc => down (fst kc)) l = true \/ (exists c, acc = Some c /\ In c (map snd keys)) ->
  (forall kc, In kc l -> In (snd kc) (map snd keys)) ->
  exists c,
    fold_left (fun a kc => if down (fst kc) then Some (snd kc) else a) l acc = Some c /\
    In c (map snd keys).
Proof.
  revert acc. induction l as [|kc l IH]; intros acc H Hl.
  - destruct H as [H|H]; [discriminate H|exact H].
  - cbn [fold_left]. apply IH; [|intros kc' H'; apply Hl; right; exact H'].
    cbn [existsb] in H. destruct (down (fst kc)) eqn:Hk.
    + right. eexists; split; [reflexivity|]. apply Hl. left. reflexivity.
    + exact H.
Qed.

Lemma last_held_down down :
  existsb (fun kc => down (fst kc)) keys = true ->
  exists c, last_held keys down = Some c /\ In c (map snd keys).
Proof.
  intros H. apply fold_pick_down; [left; exact H|].
  intros kc Hin. apply in_map. exact Hin.
Qed.

Lemma color_after_palette fes : forall c0,
  (color_key_pressed keys fes = false -> color_after keys fes c0 = c0) /\
  (color_key_pressed keys fes = true \/ In c0 (map snd keys) ->
   In (color_after keys fes c0) (map snd keys)).
Proof.
  induction fes as [|fe fes IH]; intros c0.
  - split; [reflexivity|]. intros [H|H]; [discriminate H|exact H].
  - unfold color_key_pressed, color_after. cbn [existsb fold_left].
    fold (color_key_pressed keys fes).
    destruct (existsb (fun kc => key_down fe (fst kc)) keys) eqn:Hfe; cbn [orb].
    + split; [discriminate|]. intros _.
      destruct (last_held_down _ Hfe) as (c & -> & Hc). cbn [default].
      apply IH. right. exact Hc.
    + rewrite (last_held_up _ Hfe). cbn [default]. apply IH.
Qed.

End Palette.

Lemma Phong_initial_color_has_no_key :
  ~ In (Phong.objectColor Phong.PhongTriangleRenderer) (map snd Phong.color_keys).
Proof.
  vm_compute. intros [H|[H|[H|[H|[]]]]]; discriminate H.
Qed.

(** The object colour takes few values. As long as no colour key has been
    down it is the colour the loop was entered with; from the first
    iteration in which a colour key is down on, it is always one of the four
    key colours. The Phong program has no key for the colour its
    constructor chooses: once a colour key has been pressed that colour
    does not come back. In the textured program the W key stands for the
    constructor's colour. *)
Theorem color_stays_in_palette :
  (forall fes r w,
     let c := Phong.objectColor (object (Phong.iterations fes r w)) in
     (color_key_pressed Phong.color_keys fes = false -> c = Phong.objectColor r) /\
     (color_key_pressed Phong.color_keys fes = true -> In c (map snd Phong.color_keys))) /\
  (forall fes r w,
     let c := Textured.objectColor (object (Textured.iterations fes r w)) in
     (color_key_pressed Textured.color_keys fes = false -> c = Textured.objectColor r) /\
     (color_key_pressed Textured.color_keys fes = true ->
      In c (map snd Textured.color_keys))) /\
  (forall fes w,
     color_key_pressed Phong.color_keys fes = true ->
     Phong.objectColor (object (Phong.iterations fes Phong.PhongTriangleRenderer w)) <>
     Phong.objectColor Phong.PhongTriangleRenderer) /\
  In (KEY_W, Textured.objectColor Textured.TexturedTriangleRenderer) Textured.color_keys.
Proof.
  split_all.
  - intros fes r w. cbv zeta. rewrite Phong_color_after.
    destruct (color_after_palette Phong.color_keys fes (Phong.objectColor r)) as [H1 H2].
    split; [exact H1|]. intros H. apply H2. left. exact H.
  - intros fes r w. cbv zeta. rewrite Textured_color_after.
    destruct (color_after_palette Textured.color_keys fes (Textured.objectColor r))
      as [H1 H2].
    split; [exact H1|]. intros H. apply H2. left. exact H.
  - intros fes w H Heq. apply Phong_initial_color_has_no_key.
    rewrite <- Heq, Phong_color_after. apply color_after_palette. left. exact H.
  - right. right. right. left. reflexivity.
Qed.

(** B is pressed once: the colour is a key colour, and not the initial one,
    three iterations later. *)
Lemma color_stays_in_palette_witness :
  Phong.objectColor
    (object (Phong.iterations [no_keys; holding [KEY_B]; no_keys; no_keys; no_keys]
               Phong.PhongTriangleRenderer (initial_world all_ok))) <>
  Phong.objectColor Phong.PhongTriangleRenderer.
Proof.
  apply (proj1 (proj2 (proj2 color_stays_in_palette))). reflexivity.
Defined.

(* ================================================================= *)
(** ** The uniforms of a frame *)

Lemma Phong_iteration_programs fe r w p pr vao :
  gl_ready w = true ->
  Phong.shaderProgram r = Some p -> Phong.VAO r = Some vao ->
  programs w !! p = Some pr ->
  let x := Phong.iteration fe r w in
  programs (world x) =
    <[ p := with_values pr
              (upload (pr_active pr) (Phong.offered (object x)) (pr_values pr)) ]>
      (programs w).
Proof.
  intros Hready Hp Hvao Hpr. cbv zeta.
  rewrite Phong_iteration_object.
  unfold Phong.iteration, Phong_after_iteration.
  rewrite bind_eq, begin_frame_eq. cbn [result object world fst snd].
  rewrite bind_eq.
  pose proof (Phong_processInput_gl r (set_frame fe w)) as G1.
  rewrite gl_state_set_frame in G1.
  pose proof (Phong_processInput_object r (set_frame fe w)) as O1.
  rewrite frame_set_frame in O1.
  destruct (Phong_after_input_handles (key_down fe) r) as (Hvao1 & Hp1).
  rewrite <- O1, Hvao in Hvao1. rewrite <- O1, Hp in Hp1. rewrite <- O1.
  set (r1 := object (Phong.processInput r (set_frame fe w))) in *.
  set (w1 := world (Phong.processInput r (set_frame fe w))) in *.
  assert (Hready1 : gl_ready w1 = true) by (rewrite (gl_state_ready _ _ G1); exact Hready).
  assert (Hpr1 : programs w1 !! p = Some pr) by (rewrite (gl_state_programs _ _ G1); exact Hpr).
  destruct (Phong_render_programs r1 w1 p pr vao Hready1 Hp1 Hvao1 Hpr1) as (_ & _ & Hps).
  rewrite Phong_render_object in Hps.
  rewrite bind_eq.
  set (r2 := object (Phong.render r1 w1)) in *.
  set (w2 := world (Phong.render r1 w1)) in *.
  rewrite bind_eq. cbn [glfwSwapBuffers result object world fst snd].
  assert (Hready2 : gl_ready w2 = true) by (apply Phong_render_ready; exact Hready1).
  rewrite (ready_alive w2) by exact Hready2.
  pose proof (Phong_poll_gl r2 (log GlfwSwapBuffers w2)) as G3.
  rewrite log_ready, gl_state_log in G3. specialize (G3 Hready2).
  rewrite (gl_state_programs _ _ G3), Hps, (gl_state_programs _ _ G1). reflexivity.
Qed.

Lemma Textured_offered_nodup r : List.NoDup (map fst (Textured_offered r)).
Proof.
  cbn. repeat (constructor; [cbn; intuition discriminate|]). constructor.
Qed.

Lemma Textured_render_programs r w p pr vao t :
  gl_ready w = true ->
  Textured.shaderProgram r = Some p -> Textured.VAO r = Some vao ->
  Textured.texture r = Some t ->
  programs w !! p = Some pr ->
  programs (world (Textured.render r w)) =
    <[ p := with_values pr
              (upload (pr_active pr) (Textured_offered (Textured_after_render r))
                      (pr_values pr)) ]>
      (programs w).
Proof.
  intros Hready Hp Hvao Ht Hpr. destruct r; cbn in Hp, Hvao, Ht; subst.
  destruct_world w; try discriminate Hready. cbn in Hpr.
  cbn. settle_uniforms p pr Hpr. rewrite ?insert_insert_eq. reflexivity.
Qed.

Lemma Textured_iteration_programs fe r w p pr vao t :
  gl_ready w = true ->
  Textured.shaderProgram r = Some p -> Textured.VAO r = Some vao ->
  Textured.texture r = Some t ->
  programs w !! p = Some pr ->
  let x := Textured.iteration fe r w in
  programs (world x) =
    <[ p := with_values pr
              (upload (pr_active pr) (Textured_offered (object x)) (pr_values pr)) ]>
      (programs w).
Proof.
  intros Hready Hp Hvao Ht Hpr. cbv zeta.
  rewrite Textured_iteration_object.
  unfold Textured.iteration, Textured_after_iteration.
  rewrite bind_eq, begin_frame_eq. cbn [result object world fst snd].
  rewrite bind_eq.
  pose proof (Textured_processInput_gl r (set_frame fe w)) as G1.
  rewrite gl_state_set_frame in G1.
  pose proof (Textured_processInput_object r (set_frame fe w)) as O1.
  rewrite frame_set_frame in O1.
  destruct (Textured_after_input_handles (key_down fe) r) as (Hvao1 & Hp1 & Ht1).
  rewrite <- O1, Hvao in Hvao1. rewrite <- O1, Hp in Hp1. rewrite <- O1, Ht in Ht1.
  rewrite <- O1.
  set (r1 := object (Textured.processInput r (set_frame fe w))) in *.
  set (w1 := world (Textured.processInput r (set_frame fe w))) in *.
  assert (Hready1 : gl_ready w1 = true) by (rewrite (gl_state_ready _ _ G1); exact Hready).
  assert (Hpr1 : programs w1 !! p = Some pr) by (rewrite (gl_state_programs _ _ G1); exact Hpr).
  pose proof (Textured_render_programs r1 w1 p pr vao t Hready1 Hp1 Hvao1 Ht1 Hpr1) as Hps.
  rewrite bind_eq.
  set (r2 := object (Textured.render r1 w1)) in *.
  set (w2 := world (Textured.render r1 w1)) in *.
  rewrite bind_eq. cbn [glfwSwapBuffers result object world fst snd].
  assert (Hready2 : gl_ready w2 = true) by (apply Textured_render_ready; exact Hready1).
  rewrite (ready_alive w2) by exact Hready2.
  pose proof (Textured_poll_gl r2 (log GlfwSwapBuffers w2)) as G3.
  rewrite log_ready, gl_state_log in G3. specialize (G3 Hready2).
  rewrite (gl_state_programs _ _ G3), Hps, (gl_state_programs _ _ G1). reflexivity.
Qed.

Lemma uniform_value_uploaded w w' p pr offers name v :
  List.NoDup (map fst offers) -> In (name, v) offers -> In name (pr_active pr) ->
  programs w' =
    <[ p := with_values pr (upload (pr_active pr) offers (pr_values pr)) ]> (programs w) ->
  uniform_value w' p name = Some v.
Proof.
  intros Hnd Hin Hact Hps. unfold uniform_value.
  rewrite Hps, lookup_insert_eq. cbn [with_values pr_values pr_active].
  apply upload_active; assumption.
Qed.

Lemma Phong_offered_after_iteration r fe :
  Phong.offered (Phong_after_iteration r fe) =
  [("model", UMat4 (glm_rotate mat4_identity
                      (f32_add (Phong.rotationAngle r) (f32_lit 1 100)) y_axis));
   ("view", UMat4 (Phong.view r));
   ("projection", UMat4 (Phong.projection r));
   ("lightPos", UVec3 (Phong.lightPos r));
   ("lightColor", UVec3 (Phong.lightColor r));
   ("objectColor",
    UVec3 (default (Phong.objectColor r) (last_held Phong.color_keys (key_down fe))));
   ("viewPos", UVec3 (Phong.viewPos r))].
Proof.
  unfold Phong_after_iteration, Phong_after_input.
  destruct (last_held Phong.color_keys (key_down fe)); destruct r; reflexivity.
Qed.

Lemma Textured_offered_after_iteration r fe :
  Textured_offered (Textured_after_iteration r fe) =
  [("model", UMat4 (glm_rotate mat4_identity
                      (f32_add (Textured.rotationAngle r) (f32_lit 1 100)) y_axis));
   ("view", UMat4 (Textured.view r));
   ("projection", UMat4 (Textured.projection r));
   ("objectColor",
    UVec3 (default (Textured.objectColor r)
             (last_held Textured.color_keys (key_down fe))))].
Proof.
  unfold Textured_after_iteration, Textured_after_input.
  destruct (last_held Textured.color_keys (key_down fe)); destruct r; reflexivity.
Qed.

(** The frame an iteration draws shows what happened in that iteration.
    When the iteration ends, each uniform that is active in the program
    holds: for [model], the rotation by the angle advanced in this
    iteration; for [objectColor], the colour of the colour key that is down
    in this iteration (the last one in the order of [processInput]), or the
    previous colour when none is; for the others, the member's value, which
    the iteration does not change. *)
Theorem frame_shows_current_input :
  (forall fe r w p pr vao name v,
     gl_ready w = true ->
     Phong.shaderProgram r = Some p -> Phong.VAO r = Some vao ->
     programs w !! p = Some pr -> In name (pr_active pr) ->
     In (name, v)
        [("model", UMat4 (glm_rotate mat4_identity
                            (f32_add (Phong.rotationAngle r) (f32_lit 1 100)) y_axis));
         ("view", UMat4 (Phong.view r));
         ("projection", UMat4 (Phong.projection r));
         ("lightPos", UVec3 (Phong.lightPos r));
         ("lightColor", UVec3 (Phong.lightColor r));
         ("objectColor",
          UVec3 (default (Phong.objectColor r)
                   (last_held Phong.color_keys (key_down fe))));
         ("viewPos", UVec3 (Phong.viewPos r))] ->
     uniform_value (world (Phong.iteration fe r w)) p name = Some v) /\
  (forall fe r w p pr vao t name v,
     gl_ready w = true ->
     Textured.shaderProgram r = Some p -> Textured.VAO r = Some vao ->
     Textured.texture r = Some t ->
     programs w !! p = Some pr -> In name (pr_active pr) ->
     In (name, v)
        [("model", UMat4 (glm_rotate mat4_identity
                            (f32_add (Textured.rotationAngle r) (f32_lit 1 100)) y_axis));
         ("view", UMat4 (Textured.view r));
         ("projection", UMat4 (Textured.projection r));
         ("objectColor",
          UVec3 (default (Textured.objectColor r)
                   (last_held Textured.color_keys (key_down fe))))] ->
     uniform_value (world (Textured.iteration fe r w)) p name = Some v).
Proof.
  split.
  - intros fe r w p pr vao name v Hready Hp Hvao Hpr Hact Hin.
    rewrite <- Phong_offered_after_iteration, <- (Phong_iteration_object fe r w) in Hin.
    eapply uniform_value_uploaded; [apply Phong_offered_nodup|exact Hin|exact Hact|].
    apply (Phong_iteration_programs fe r w p pr vao); assumption.
  - intros fe r w p pr vao t name v Hready Hp Hvao Ht Hpr Hact Hin.
    rewrite <- Textured_offered_after_iteration,
      <- (Textured_iteration_object fe r w) in Hin.
    eapply uniform_value_uploaded; [apply Textured_offered_nodup|exact Hin|exact Hact|].
    apply (Textured_iteration_programs fe r w p pr vao t); assumption.
Qed.

(** After a successful startup, G is down in the first iteration: the frame
    drawn in that iteration is green. *)
Lemma frame_shows_current_input_witness :
  let i := Phong.init Phong.PhongTriangleRenderer (initial_world all_ok) in
  uniform_value (world (Phong.iteration (holding [KEY_G]) (object i) (world i)))
                3%N "objectColor" = Some (UVec3 Phong.green).
Proof.
  intros i.
  assert (H : exists pr, programs (world i) !! 3%N = Some pr /\
                         In "objectColor" (pr_active pr)).
  { vm_compute. eexists. split; [reflexivity|]. do 6 right. left. reflexivity. }
  destruct H as [pr [Hpr Hact]].
  apply (proj1 frame_shows_current_input (holding [KEY_G]) (object i) (world i)
           3%N pr 4%N "objectColor" (UVec3 Phong.green) eq_refl eq_refl eq_refl Hpr Hact).
  do 5 right. left. reflexivity.
Defined.

(* ================================================================= *)
(** ** Vertex data *)

Ltac settle_reads :=
  cbv zeta; split_all;
  [ reflexivity
  | reflexivity
  | match goal with |- Forall _ ?l =>
      let l' := eval vm_compute in l in change l with l' end;
    match goal with |- Forall (fun i => _ <= i < ?n) _ =>
      let n' := eval vm_compute in n in change n with n' end;
    repeat (constructor; [lia|]); constructor
  | match goal with |- List.NoDup ?l =>
      let l' := eval vm_compute in l in change l with l' end;
    apply NoDup_ListNoDup; apply (bool_decide_unpack _); vm_compute; reflexivity
  | reflexivity ].

(** In each of the four programs, the three vertices [render] draws are
    read from within the array that [setupBuffers] uploads: the attributes
    it declares and enables cover every float of the array exactly once. *)
Theorem vertex_reads_fit_buffer :
  reads_whole_buffer Phong.setupBuffers Phong.render Phong.vertices /\
  reads_whole_buffer Textured.setupBuffers Textured.render Textured.vertices /\
  reads_whole_buffer Simple.setupBuffers Simple.render Simple.vertices /\
  reads_whole_buffer Demo.setupBuffers Demo.render Demo.vertices.
Proof.
  split_all; intros r w Hready; destruct r; destruct_world w; try discriminate Hready.
  - settle_reads.
  - settle_reads.
  - destruct w_cb; destruct_escape w_frame; settle_reads.
  - destruct w_cb; destruct_escape w_frame; settle_reads.
Qed.

Lemma vertex_reads_fit_buffer_witness :
  uploaded (emitted Textured.setupBuffers Textured.TexturedTriangleRenderer ready_world) =
    [Textured.vertices] /\
  List.length
    (flat_map (fun d => flat_map (fun a => fetched a d)
                 (attributes (emitted Textured.setupBuffers
                                Textured.TexturedTriangleRenderer ready_world)))
       (drawn (emitted Textured.render Textured.TexturedTriangleRenderer ready_world)))
  = 15%nat.
Proof.
  destruct (proj1 (proj2 vertex_reads_fit_buffer) Textured.TexturedTriangleRenderer
              ready_world eq_refl) as (H1 & _ & _ & _ & H5).
  split; [exact H1|exact H5].
Defined.

(* ================================================================= *)
(** ** The texture *)

Local Open Scope list_scope.

(** Writing the first byte that has not been written. *)
Lemma store_byte_next pre v old rest :
  store_byte (Z.of_nat (List.length pre)) v (pre ++ old :: rest) =
  Some ((pre ++ [Some v]) ++ rest).
Proof.
  unfold store_byte. rewrite length_app. cbn [List.length].
  match goal with |- context [?a && ?b] =>
    assert (Hb : a && b = true)
      by (apply andb_true_iff; split; [apply Z.leb_le|apply Z.ltb_lt]; lia);
    rewrite Hb
  end.
  rewrite Nat2Z.id.
  replace (List.length pre) with (List.length pre + 0)%nat at 1 by lia.
  rewrite insert_app_r. cbn [insert list_insert]. rewrite <- app_assoc. reflexivity.
Qed.

Lemma fill_texel_next tw x y pre o1 o2 o3 rest :
  Z.of_nat (List.length pre) = (y * tw + x) * 3 ->
  fill_texel tw x y (pre ++ o1 :: o2 :: o3 :: rest) =
  Some ((pre ++ texel_bytes x y) ++ rest).
Proof.
  intros H. unfold fill_texel, texel_bytes. cbv zeta. rewrite <- H.
  destruct (Textured.textureData x y) as [[red green] blue].
  rewrite store_byte_next.
  replace (Z.of_nat (List.length pre) + 1) with (Z.of_nat (List.length (pre ++ [Some red])))
    by (rewrite length_app; cbn [List.length]; lia).
  rewrite store_byte_next.
  replace (Z.of_nat (List.length pre) + 2)
    with (Z.of_nat (List.length ((pre ++ [Some red]) ++ [Some green])))
    by (rewrite !length_app; cbn [List.length]; lia).
  rewrite store_byte_next.
  rewrite <- !app_assoc. reflexivity.
Qed.

Lemma texel_bytes_length x y : List.length (texel_bytes x y) = 3%nat.
Proof. unfold texel_bytes. destruct (Textured.textureData x y) as [[? ?] ?]. reflexivity. Qed.

Lemma row_bytes_length y x0 n :
  List.length (flat_map (fun x => texel_bytes x y) (seqZ x0 (Z.of_nat n))) = (3 * n)%nat.
Proof.
  revert x0. induction n as [|n IH]; intros x0; [reflexivity|].
  rewrite Nat2Z.inj_succ, seqZ_cons by lia. cbn [flat_map].
  rewrite length_app, texel_bytes_length, Z.pred_succ, IH. lia.
Qed.

(** The inner loop, from column [x0] on. *)
Lemma fill_row_next tw y n : forall x0 pre m,
  Z.of_nat (List.length pre) = (y * tw + x0) * 3 ->
  for_each (fun x => fill_texel tw x y) (seqZ x0 (Z.of_nat n))
           (pre ++ replicate (3 * n + m) None) =
  Some ((pre ++ flat_map (fun x => texel_bytes x y) (seqZ x0 (Z.of_nat n)))
          ++ replicate m None).
Proof.
  induction n as [|n IH]; intros x0 pre m H.
  - cbn. rewrite app_nil_r. reflexivity.
  - rewrite Nat2Z.inj_succ, seqZ_cons by lia. cbn [for_each flat_map].
    replace (3 * S n + m)%nat with (S (S (S (3 * n + m)))) by lia.
    cbn [replicate].
    rewrite (fill_texel_next tw x0 y pre _ _ _ _ H), Z.pred_succ.
    rewrite IH.
    + rewrite <- !app_assoc. reflexivity.
    + rewrite length_app, texel_bytes_length. lia.
Qed.

(** The outer loop, from row [y0] on. *)
Lemma fill_rows_next tw n : forall y0 pre m,
  Z.of_nat (List.length pre) = y0 * Z.of_nat tw * 3 ->
  for_each (fun y => for_each (fun x => fill_texel (Z.of_nat tw) x y) (seqZ 0 (Z.of_nat tw)))
           (seqZ y0 (Z.of_nat n))
           (pre ++ replicate (3 * tw * n + m) None) =
  Some ((pre ++ flat_map (fun y => flat_map (fun x => texel_bytes x y)
                                     (seqZ 0 (Z.of_nat tw)))
                   (seqZ y0 (Z.of_nat n)))
          ++ replicate m None).
Proof.
  induction n as [|n IH]; intros y0 pre m H.
  - cbn. rewrite Nat.mul_0_r, app_nil_r. reflexivity.
  - rewrite Nat2Z.inj_succ, (seqZ_cons y0 (Z.succ (Z.of_nat n))) by lia.
    cbn [for_each flat_map].
    replace (3 * tw * S n + m)%nat with (3 * tw + (3 * tw * n + m))%nat by lia.
    rewrite (fill_row_next (Z.of_nat tw) y0 tw 0 pre) by lia.
    rewrite Z.pred_succ, IH.
    + rewrite <- !app_assoc. reflexivity.
    + rewrite length_app, row_bytes_length. lia.
Qed.

(** The loops write within the array and fill it, for every size. *)
Lemma fill_textureData_result tw th :
  fill_textureData (Z.of_nat tw) (Z.of_nat th) =
  Some (texture_bytes (Z.of_nat tw) (Z.of_nat th)).
Proof.
  unfold fill_textureData, texture_bytes.
  pose proof (fill_rows_next tw th 0 [] 0%nat eq_refl) as H.
  cbn [app] in H. rewrite app_nil_r, Nat.add_0_r in H.
  replace (Z.to_nat (Z.of_nat tw * Z.of_nat th * 3)) with (3 * tw * th)%nat by lia.
  exact H.
Qed.

Lemma flat_map_lookup {A B} (f : A -> list B) (k : nat) l : forall i j a,
  (forall a, List.length (f a) = k) ->
  l !! i = Some a -> (j < k)%nat ->
  flat_map f l !! (i * k + j)%nat = f a !! j.
Proof.
  induction l as [|a0 l IH]; intros i j a Hk Hi Hj; [discriminate Hi|].
  cbn [flat_map]. destruct i as [|i]; cbn in Hi.
  - injection Hi as ->. cbn [Nat.mul Nat.add]. apply lookup_app_l. rewrite Hk. exact Hj.
  - rewrite lookup_app_r by (rewrite Hk; lia).
    rewrite Hk. replace (S i * k + j - k)%nat with (i * k + j)%nat by lia.
    apply IH; assumption.
Qed.

Lemma texel_bytes_lookup x y c :
  0 <= c < 3 ->
  texel_bytes x y !! Z.to_nat c = Some (Some (channel c (Textured.textureData x y))).
Proof.
  intros Hc. unfold texel_bytes, channel.
  destruct (Textured.textureData x y) as [[red green] blue].
  assert (c = 0 \/ c = 1 \/ c = 2) as [->|[->| ->]] by lia; reflexivity.
Qed.

Lemma texture_bytes_lookup (tw th : nat) x y c :
  0 <= x < Z.of_nat tw -> 0 <= y < Z.of_nat th -> 0 <= c < 3 ->
  texture_bytes (Z.of_nat tw) (Z.of_nat th) !! Z.to_nat ((y * Z.of_nat tw + x) * 3 + c) =
  Some (Some (channel c (Textured.textureData x y))).
Proof.
  intros Hx Hy Hc. unfold texture_bytes.
  replace (Z.to_nat ((y * Z.of_nat tw + x) * 3 + c))
    with (Z.to_nat y * (3 * tw) + (Z.to_nat x * 3 + Z.to_nat c))%nat by lia.
  rewrite (flat_map_lookup _ (3 * tw) _ _ _ y).
  - rewrite (flat_map_lookup _ 3 _ _ _ x).
    + apply texel_bytes_lookup, Hc.
    + intros a. apply texel_bytes_length.
    + rewrite lookup_seqZ_lt by lia. f_equal. lia.
    + lia.
  - intros a. apply row_bytes_length.
  - rewrite lookup_seqZ_lt by lia. f_equal. lia.
  - nia.
Qed.

Lemma texture_bytes_length (tw th : nat) :
  List.length (texture_bytes (Z.of_nat tw) (Z.of_nat th)) = (3 * tw * th)%nat.
Proof.
  unfold texture_bytes. generalize 0 at 2. induction th as [|th IH]; intros y0.
  - rewrite Nat.mul_0_r. reflexivity.
  - rewrite Nat2Z.inj_succ, (seqZ_cons y0 (Z.succ (Z.of_nat th))) by lia.
    cbn [flat_map]. rewrite length_app, row_bytes_length, Z.pred_succ, IH. lia.
Qed.

Lemma texture_bytes_written tw th : Forall is_Some (texture_bytes tw th).
Proof.
  unfold texture_bytes. apply Forall_flat_map, Forall_forall. intros y _.
  apply Forall_flat_map, Forall_forall. intros x _.
  unfold texel_bytes. destruct (Textured.textureData x y) as [[? ?] ?].
  repeat constructor; eexists; reflexivity.
Qed.

(** The two loops of [loadTexture] write within the array [textureData]
    and they write all of it, at the 64 x 64 texels of the program as at
    any other size: each of the width x height x 3 bytes is assigned, byte
    (y * width + x) * 3 + c being component c of the texel at (x, y). No
    byte that is uploaded is left uninitialised. *)
Theorem texture_is_filled : forall textureWidth textureHeight,
  0 <= textureWidth -> 0 <= textureHeight ->
  exists data,
    fill_textureData textureWidth textureHeight = Some data /\
    Z.of_nat (List.length data) = textureWidth * textureHeight * 3 /\
    Forall is_Some data /\
    forall x y c,
      0 <= x < textureWidth -> 0 <= y < textureHeight -> 0 <= c < 3 ->
      data !! Z.to_nat ((y * textureWidth + x) * 3 + c) =
      Some (Some (channel c (Textured.textureData x y))).
Proof.
  intros textureWidth textureHeight Hw Hh.
  rewrite <- (Z2Nat.id textureWidth Hw), <- (Z2Nat.id textureHeight Hh).
  generalize (Z.to_nat textureWidth) (Z.to_nat textureHeight). intros tw th.
  exists (texture_bytes (Z.of_nat tw) (Z.of_nat th)). split_all.
  - exact (fill_textureData_result tw th).
  - rewrite texture_bytes_length. lia.
  - apply texture_bytes_written.
  - intros x y c. exact (texture_bytes_lookup tw th x y c).
Qed.

(** The texture of the program: 12288 bytes. *)
Lemma texture_is_filled_witness :
  exists data,
    fill_textureData 64 64 = Some data /\
    Z.of_nat (List.length data) = 64 * 64 * 3 /\
    Forall is_Some data /\
    forall x y c,
      0 <= x < 64 -> 0 <= y < 64 -> 0 <= c < 3 ->
      data !! Z.to_nat ((y * 64 + x) * 3 + c) =
      Some (Some (channel c (Textured.textureData x y))).
Proof.
  apply (texture_is_filled 64 64); lia.
Defined.

Lemma textureData_parity x y :
  Textured.textureData x y =
  if (x / 8 + y / 8) mod 2 =? 0 then (255, 255, 255) else (255, 100, 100).
Proof. reflexivity. Qed.

Lemma parity_flips a : ((a + 1) mod 2 =? 0) = negb (a mod 2 =? 0).
Proof.
  destruct (Z.eqb_spec ((a + 1) mod 2) 0), (Z.eqb_spec (a mod 2) 0); cbn [negb];
    try reflexivity; exfalso; Z.div_mod_to_equations; lia.
Qed.

(** The texture is a checkerboard of 8 x 8 squares, white at the origin and
    light red next to it: the colour of a texel depends on its square only,
    squares that share a side differ, and the pattern repeats every 16
    texels in both directions, so that the 64 x 64 texture, which is
    repeated outside [0, 1], continues across its border as inside. *)
Theorem texture_is_checkerboard :
  Textured.textureData 0 0 = (255, 255, 255) /\
  (forall x y,
     Textured.textureData x y = (255, 255, 255) \/
     Textured.textureData x y = (255, 100, 100)) /\
  (forall x y x' y',
     0 <= x -> 0 <= y -> 0 <= x' -> 0 <= y' ->
     x / 8 = x' / 8 -> y / 8 = y' / 8 ->
     Textured.textureData x y = Textured.textureData x' y') /\
  (forall x y,
     0 <= x -> 0 <= y ->
     Textured.textureData (x + 8) y <> Textured.textureData x y /\
     Textured.textureData x (y + 8) <> Textured.textureData x y /\
     Textured.textureData (x + 16) y = Textured.textureData x y /\
     Textured.textureData x (y + 16) = Textured.textureData x y /\
     Textured.textureData ((x + 1) mod 64) y = Textured.textureData (x + 1) y /\
     Textured.textureData x ((y + 1) mod 64) = Textured.textureData x (y + 1)).
Proof.
  split; [reflexivity|]. split; [|split].
  - intros x y. rewrite textureData_parity.
    destruct ((x / 8 + y / 8) mod 2 =? 0); auto.
  - intros x y x' y' _ _ _ _ Hx Hy. rewrite !textureData_parity, Hx, Hy. reflexivity.
  - intros x y Hx Hy. rewrite !textureData_parity.
    replace ((x + 8) / 8) with (x / 8 + 1) by (Z.div_mod_to_equations; lia).
    replace ((y + 8) / 8) with (y / 8 + 1) by (Z.div_mod_to_equations; lia).
    replace ((x + 16) / 8) with (x / 8 + 2) by (Z.div_mod_to_equations; lia).
    replace ((y + 16) / 8) with (y / 8 + 2) by (Z.div_mod_to_equations; lia).
    replace (x / 8 + 1 + y / 8) with (x / 8 + y / 8 + 1) by lia.
    replace (x / 8 + (y / 8 + 1)) with (x / 8 + y / 8 + 1) by lia.
    rewrite parity_flips.
    replace ((x / 8 + 2 + y / 8) mod 2) with ((x / 8 + y / 8) mod 2)
      by (Z.div_mod_to_equations; lia).
    replace ((x / 8 + (y / 8 + 2)) mod 2) with ((x / 8 + y / 8) mod 2)
      by (Z.div_mod_to_equations; lia).
    replace (((x + 1) mod 64 / 8 + y / 8) mod 2) with (((x + 1) / 8 + y / 8) mod 2)
      by (Z.div_mod_to_equations; lia).
    replace ((x / 8 + (y + 1) mod 64 / 8) mod 2) with ((x / 8 + (y + 1) / 8) mod 2)
      by (Z.div_mod_to_equations; lia).
    destruct ((x / 8 + y / 8) mod 2 =? 0); cbn [negb];
      split_all; congruence.
Qed.

(** The last column of the texture and the column that follows it. *)
Lemma texture_is_checkerboard_witness :
  Textured.textureData (63 + 8) 5 <> Textured.textureData 63 5 /\
  Textured.textureData ((63 + 1) mod 64) 5 = Textured.textureData (63 + 1) 5.
Proof.
  destruct (proj2 (proj2 (proj2 texture_is_checkerboard)) 63 5)
    as (H1 & _ & _ & _ & H5 & _); [lia|lia|].
  split; [exact H1|exact H5].
Defined.

(* ================================================================= *)
(** ** More about the Phong fragment shader *)

Module ShaderBounds.
Import Reals PhongShader ShaderFacts.
Local Open Scope R_scope.

Lemma dot_scale s t (a b : vec3) : dot (scale s a) (scale t b) = s * t * dot a b.
Proof. unfold dot, scale; simpl; ring. Qed.

Lemma length_pos (a : vec3) : 0 < dot a a -> 0 < length a.
Proof. intros H. unfold length. apply sqrt_lt_R0, H. Qed.

(** A vector that is not zero is normalized to a unit vector. *)
Lemma normalized_unit (a : vec3) :
  0 < dot a a -> dot (normalize a) (normalize a) = 1.
Proof.
  intros H. pose proof (length_pos a H) as Hl.
  unfold normalize. rewrite dot_scale.
  assert (E : length a * length a = dot a a) by (unfold length; apply sqrt_sqrt; lra).
  rewrite <- E. field. lra.
Qed.

(** Cauchy and Schwarz, for unit vectors. *)
Lemma dot_unit_bounds (a b : vec3) :
  dot a a = 1 -> dot b b = 1 -> -1 <= dot a b <= 1.
Proof.
  intros Ha Hb.
  assert (H : dot a a * dot b b - dot a b * dot a b =
              (cx a * cy b - cy a * cx b) * (cx a * cy b - cy a * cx b) +
              (cx a * cz b - cz a * cx b) * (cx a * cz b - cz a * cx b) +
              (cy a * cz b - cz a * cy b) * (cy a * cz b - cz a * cy b))
    by (unfold dot; ring).
  rewrite Ha, Hb in H.
  pose proof (Rle_0_sqr (cx a * cy b - cy a * cx b)) as H1.
  pose proof (Rle_0_sqr (cx a * cz b - cz a * cx b)) as H2.
  pose proof (Rle_0_sqr (cy a * cz b - cz a * cy b)) as H3.
  unfold Rsqr in H1, H2, H3. nra.
Qed.

(** The reflection of a unit vector about a unit normal is a unit vector. *)
Lemma reflect_unit (L N : vec3) :
  dot N N = 1 -> dot L L = 1 ->
  dot (reflect (vneg L) N) (reflect (vneg L) N) = 1.
Proof.
  intros HN HL.
  assert (H : dot (reflect (vneg L) N) (reflect (vneg L) N) =
              dot L L + 4 * (dot N L * dot N L) * (dot N N - 1))
    by (unfold reflect, dot, vsub, scale, vneg; simpl; ring).
  rewrite H, HN, HL. ring.
Qed.

Lemma pow_unit_bounds (x : R) (n : nat) : 0 <= x <= 1 -> 0 <= x ^ n <= 1.
Proof.
  intros [H0 H1]. split; [apply pow_le, H0|].
  rewrite <- (pow1 n). apply pow_incr. lra.
Qed.

Lemma Rmax_unit_bounds (x : R) : x <= 1 -> 0 <= Rmax x 0 <= 1.
Proof. intros H. unfold Rmax. destruct (Rle_dec x 0); lra. Qed.

(** Where the normal is not zero and neither the light nor the viewer is at
    the fragment, the colour is the object colour times the light colour
    times a factor between 0.1 and 1.6: ambient 0.1, plus a diffuse part
    between 0 and 1, plus 0.5 times a specular part between 0 and 1. A
    fragment is never darker than the ambient term, and it can be brighter
    than the light colour itself. *)
Theorem light_factor_bounds
    (lightPos viewPos lightColor objectColor FragPos Normal : vec3) :
  0 < dot Normal Normal ->
  0 < dot (vsub lightPos FragPos) (vsub lightPos FragPos) ->
  0 < dot (vsub viewPos FragPos) (vsub viewPos FragPos) ->
  let d := diff lightPos FragPos Normal in
  let s := spec lightPos viewPos FragPos Normal in
  0 <= d <= 1 /\ 0 <= s <= 1 /\
  0.1 <= 0.1 + d + 0.5 * s <= 1.6 /\
  result lightPos viewPos lightColor objectColor FragPos Normal =
    vmul (scale (0.1 + d + 0.5 * s) lightColor) objectColor.
Proof.
  intros HN HL HV. cbv zeta.
  pose proof (normalized_unit _ HN) as UN.
  pose proof (normalized_unit _ HL) as UL.
  pose proof (normalized_unit _ HV) as UV.
  assert (Hd : 0 <= diff lightPos FragPos Normal <= 1).
  { unfold diff. apply Rmax_unit_bounds.
    apply (dot_unit_bounds (norm Normal) (lightDir lightPos FragPos)); assumption. }
  assert (Hs : 0 <= spec lightPos viewPos FragPos Normal <= 1).
  { unfold spec. apply pow_unit_bounds, Rmax_unit_bounds.
    apply (dot_unit_bounds (viewDir viewPos FragPos)
             (reflectDir lightPos FragPos Normal)); [exact UV|].
    unfold reflectDir. apply reflect_unit; assumption. }
  split; [exact Hd|]. split; [exact Hs|]. split; [lra|].
  unfold result, ambient, diffuse, specular, ambientStrength, specularStrength.
  apply vec3_eq; simpl; ring.
Qed.

(** The triangle of the program seen and lit from straight ahead. *)
Lemma light_factor_bounds_witness :
  0 <= diff (mk 0 0 2) zero facing_z <= 1 /\
  0 <= spec (mk 0 0 2) (mk 0 0 3) zero facing_z <= 1.
Proof.
  assert (H1 : 0 < dot facing_z facing_z) by (unfold dot, facing_z; simpl; lra).
  assert (H2 : 0 < dot (vsub (mk 0 0 2) zero) (vsub (mk 0 0 2) zero))
    by (unfold dot, vsub, zero; simpl; lra).
  assert (H3 : 0 < dot (vsub (mk 0 0 3) zero) (vsub (mk 0 0 3) zero))
    by (unfold dot, vsub, zero; simpl; lra).
  destruct (light_factor_bounds (mk 0 0 2) (mk 0 0 3) white white zero facing_z H1 H2 H3)
    as (Hd & Hs & _).
  split; [exact Hd|exact Hs].
Defined.







End ShaderBounds.

(* ================================================================= *)
(** ** The two ways of writing [createShaders] *)

(** triangle_demo.cpp moves the checks of the compile and link status into
    the methods [checkShaderCompilation] and [checkProgramLinking];
    simple_triangle.cpp has them inline. In every state, usable or not, the
    two versions of [createShaders] return the same result, make the same
    OpenGL calls, leave the same world but for the text of the lines on
    [cerr], and assign the same program handle. *)
Theorem createShaders_with_helpers :
  forall (rs : Simple.Renderer) (rd : Demo.Renderer) w,
    Simple.shaderProgram rs = Demo.shaderProgram rd ->
    let xs := Simple.createShaders rs w in
    let xd := Demo.createShaders rd w in
    result xd = result xs /\
    Demo.shaderProgram (object xd) = Simple.shaderProgram (object xs) /\
    set_trace [] (world xd) = set_trace [] (world xs) /\
    without_cerr (trace (world xd)) = without_cerr (trace (world xs)) /\
    List.length (List.filter is_cerr (trace (world xd))) =
    List.length (List.filter is_cerr (trace (world xs))).
Proof.
  intros rs rd w Hp. destruct rs as [win1 vao1 vbo1 p1], rd as [win2 p2 vao2 vbo2].
  cbn in Hp. subst p2.
  destruct_world w; cbv zeta.
  2: { destruct w_env as [i cw gl vs fs lk keeps ba ta il un].
       destruct vs, fs, lk;
         unfold Simple.createShaders, Demo.createShaders, Demo.checkShaderCompilation,
           Demo.checkProgramLinking;
         repeat (progress (unfold bind; cbn; rewrite ?lookup_alter_eq, ?lookup_insert_eq));
         split_all; reflexivity. }
  all: split_all; reflexivity.
Qed.

(** Both versions in a world where OpenGL is usable. *)
Lemma createShaders_with_helpers_witness :
  let w := ready_world in
  result (Demo.createShaders Demo.TriangleRenderer w) =
  result (Simple.createShaders Simple.SimpleTriangleRenderer w).
Proof.
  intros w.
  exact (proj1 (createShaders_with_helpers Simple.SimpleTriangleRenderer
                  Demo.TriangleRenderer w eq_refl)).
Defined.

(* ================================================================= *)
(** ** The viewport *)

Section LoopViewport.
Context {R : Type} (iteration : FrameEnv -> M R unit) (inv : R -> Prop).

Hypothesis step : forall fe r w,
  gl_ready w = true -> inv r ->
  effect (set_frame fe w) (world (iteration fe r w))
    (should_close w || closes fe) (viewport_after fe w) /\
  inv (object (iteration fe r w)).

Lemma log_viewport c w : viewport (log c w) = viewport w.
Proof. destruct w; reflexivity. Qed.

Lemma log_resize_cb c w : resize_cb (log c w) = resize_cb w.
Proof. destruct w; reflexivity. Qed.

Lemma set_frame_resize_cb fe w : resize_cb (set_frame fe w) = resize_cb w.
Proof. destruct w; reflexivity. Qed.

Lemma loop_viewport : viewport_follows_window (loop iteration) inv.
Proof.
  intros frames. induction frames as [|fe rest IH]; intros r w Hready Hinv Hcb Hsc Hopen.
  - rewrite loop_nil by exact Hready. cbn [world snd fold_left]. apply log_viewport.
  - cbn [existsb] in Hopen. apply orb_false_iff in Hopen as [Hfe Hrest].
    rewrite loop_cons, Hsc by exact Hready. cbn [fold_left].
    pose proof (step fe r (log GlfwWindowShouldClose w)) as Hstep.
    rewrite log_ready in Hstep. destruct (Hstep Hready Hinv) as [Heff Hinv'].
    destruct Heff as (Hr & _ & Hc & _ & _ & Hs & Hv).
    rewrite log_should_close, Hsc, Hfe in Hs.
    rewrite set_frame_resize_cb, log_resize_cb, Hcb in Hc.
    rewrite (IH _ _ Hr Hinv' Hc Hs Hrest), Hv.
    unfold viewport_after, resized. rewrite log_resize_cb, Hcb, log_viewport.
    destruct (resize_to fe) as [[? ?]|]; reflexivity.
Qed.

End LoopViewport.

(** In all four programs the viewport follows the window: it is set by the
    framebuffer-size callback and by nothing else. While the loop runs, the
    viewport is that of the last resize; [init] installs the callback and
    never sets the viewport itself, so until the first resize it is the one
    the context was created with. *)
Theorem viewport_is_last_resize :
  viewport_follows_window Phong.run Phong_assigned /\
  viewport_follows_window Textured.run Textured_assigned /\
  viewport_follows_window Simple.run (fun _ => True) /\
  viewport_follows_window Demo.run (fun _ => True) /\
  (forall e,
     startup_ok e = true ->
     let p := world (Phong.init Phong.PhongTriangleRenderer (initial_world e)) in
     let t := world (Textured.init Textured.TexturedTriangleRenderer (initial_world e)) in
     let s := world (Simple.init Simple.SimpleTriangleRenderer (initial_world e)) in
     let d := world (Demo.init Demo.TriangleRenderer (initial_world e)) in
     resize_cb p = true /\ resize_cb t = true /\ resize_cb s = true /\ resize_cb d = true /\
     existsb is_viewport (trace p) = false /\ existsb is_viewport (trace t) = false /\
     existsb is_viewport (trace s) = false /\ existsb is_viewport (trace d) = false).
Proof.
  split_all.
  - intros frames r w. rewrite Phong_run_loop.
    apply (loop_viewport Phong.iteration Phong_assigned Phong_step).
  - intros frames r w. rewrite Textured_run_loop.
    apply (loop_viewport Textured.iteration Textured_assigned Textured_step).
  - intros frames r w Hready Hr Hcb Hsc Hopen. rewrite Simple_run_eq by exact Hready.
    rewrite (loop_viewport Simple.iteration (fun _ => True) Simple_step);
      rewrite ?log_ready, ?log_resize_cb, ?log_should_close, ?log_viewport; trivial.
  - intros frames r w Hready Hr Hcb Hsc Hopen. rewrite Demo_run_eq by exact Hready.
    rewrite (loop_viewport Demo.iteration (fun _ => True) Demo_step);
      rewrite ?log_ready, ?log_resize_cb, ?log_should_close, ?log_viewport; trivial.
  - intros e Hok. destruct_env e; try discriminate Hok. cbv zeta. split_all; reflexivity.
Qed.

(** Two resizes, and an iteration without one. *)
Lemma viewport_is_last_resize_witness :
  viewport (world (Phong.run [resizing 640 480; resizing 1024 768; no_keys]
                     Phong_sample ready_world)) = (0, 0, 1024, 768).
Proof.
  exact (proj1 viewport_is_last_resize [resizing 640 480; resizing 1024 768; no_keys]
           Phong_sample ready_world eq_refl Phong_sample_assigned eq_refl eq_refl eq_refl).
Defined.

(* ================================================================= *)
(** ** What the loop animates *)

Lemma Phong_after_iteration_scene r fe :
  Phong_scene (Phong_after_iteration r fe) = Phong_scene r.
Proof.
  unfold Phong_after_iteration, Phong_after_input.
  destruct (last_held Phong.color_keys (key_down fe)); destruct r; reflexivity.
Qed.

Lemma Textured_after_iteration_scene r fe :
  Textured_scene (Textured_after_iteration r fe) = Textured_scene r.
Proof.
  unfold Textured_after_iteration, Textured_after_input.
  destruct (last_held Textured.color_keys (key_down fe)); destruct r; reflexivity.
Qed.

Lemma Textured_after_iteration_angle r fe :
  Textured.rotationAngle (Textured_after_iteration r fe) =
  f32_add (Textured.rotationAngle r) (f32_lit 1 100).
Proof.
  unfold Textured_after_iteration, Textured_after_input.
  destruct (last_held Textured.color_keys (key_down fe)); destruct r; reflexivity.
Qed.

Lemma Textured_after_iteration_model r fe :
  Textured.model (Textured_after_iteration r fe) =
  glm_rotate mat4_identity (Textured.rotationAngle (Textured_after_iteration r fe)) y_axis.
Proof.
  unfold Textured_after_iteration, Textured_after_input.
  destruct (last_held Textured.color_keys (key_down fe)); destruct r; reflexivity.
Qed.

Lemma Textured_fold_angle fes r :
  Textured.rotationAngle (fold_left Textured_after_iteration fes r) =
  accumulate (List.length fes) (Textured.rotationAngle r).
Proof.
  revert r. induction fes as [|fe fes IH]; intros r; [reflexivity|].
  cbn [fold_left List.length]. rewrite IH, Textured_after_iteration_angle.
  symmetry. exact (Nat.iter_succ_r _ (fun x => f32_add x (f32_lit 1 100)) _).
Qed.

(** The loop animates and nothing else. Whatever the user does, the
    iterations of the Phong and of the textured program leave the window
    and object handles, the window size, the light, the camera and the
    projection as they are; they change the object colour, the rotation
    angle and the model matrix only. The rotation does not depend on the
    input at all: after the same number of iterations the two programs,
    started at the same angle, are at the same angle, and in the textured
    program too the model matrix is the rotation by that angle about the y
    axis. *)
Theorem loop_animates_only :
  (forall fes r w,
     Phong_scene (object (Phong.iterations fes r w)) = Phong_scene r) /\
  (forall fes r w,
     Textured_scene (object (Textured.iterations fes r w)) = Textured_scene r) /\
  (forall fes r w,
     let x := Textured.iterations fes r w in
     Textured.rotationAngle (object x) =
       accumulate (List.length fes) (Textured.rotationAngle r) /\
     (fes <> [] ->
      Textured.model (object x) =
        glm_rotate mat4_identity (Textured.rotationAngle (object x)) y_axis)) /\
  (forall fes fes' rp rt wp wt,
     List.length fes = List.length fes' ->
     Phong.rotationAngle rp = Textured.rotationAngle rt ->
     Phong.rotationAngle (object (Phong.iterations fes rp wp)) =
     Textured.rotationAngle (object (Textured.iterations fes' rt wt))).
Proof.
  split_all.
  - intros fes r w. rewrite Phong_iterations_object. clear w. revert r.
    induction fes as [|fe fes IH]; intros r; [reflexivity|].
    cbn [fold_left]. rewrite IH. apply Phong_after_iteration_scene.
  - intros fes r w. rewrite Textured_iterations_object. clear w. revert r.
    induction fes as [|fe fes IH]; intros r; [reflexivity|].
    cbn [fold_left]. rewrite IH. apply Textured_after_iteration_scene.
  - intros fes r w. cbv zeta. rewrite Textured_iterations_object. split.
    + apply Textured_fold_angle.
    + intros Hne. clear w. revert r.
      induction fes as [|fe fes IH]; intros r; [congruence|].
      cbn [fold_left]. destruct fes as [|fe' fes'].
      * apply Textured_after_iteration_model.
      * apply IH. discriminate.
  - intros fes fes' rp rt wp wt Hlen Hang.
    rewrite Phong_iterations_object, Textured_iterations_object,
      Phong_fold_angle, Textured_fold_angle, Hlen, Hang. reflexivity.
Qed.

(** Three iterations each, with different input. *)
Lemma loop_animates_only_witness :
  Phong.rotationAngle
    (object (Phong.iterations [holding [KEY_R]; no_keys; resizing 320 200]
               Phong.PhongTriangleRenderer (initial_world all_ok))) =
  Textured.rotationAngle
    (object (Textured.iterations [no_keys; holding [KEY_W; KEY_B]; no_keys]
               Textured.TexturedTriangleRenderer (initial_world all_ok))).
Proof.
  apply (proj2 (proj2 (proj2 loop_animates_only))); reflexivity.
Defined.

(* ================================================================= *)
(** ** Shader objects *)

Lemma created_shaders_lifecycle cs : created_shaders cs = created_shaders (lifecycle cs).
Proof.
  unfold created_shaders. symmetry. apply omap_lifecycle.
  intros []; discriminate || reflexivity.
Qed.

Lemma deleted_shaders_lifecycle cs : deleted_shaders cs = deleted_shaders (lifecycle cs).
Proof.
  unfold deleted_shaders. symmetry. apply omap_lifecycle.
  intros []; discriminate || reflexivity.
Qed.

(** [createShaders] deletes the two shader objects at its very end, after a
    successful link. When a compilation or the link fails it returns at
    once: in all four programs the shader objects created up to then are
    never deleted; they are left to the destruction of the context. *)
Theorem shaders_leak_on_failure :
  deletes_shaders_on_success_only Phong.main /\
  deletes_shaders_on_success_only Textured.main /\
  deletes_shaders_on_success_only Simple.main /\
  deletes_shaders_on_success_only Demo.main.
Proof.
  split_all; intros e frames Hret; unfold returns in Hret; cbv zeta;
    (destruct (startup_ok e) eqn:Hok;
     [ cbn [negb orb] in Hret;
       rewrite created_shaders_lifecycle, deleted_shaders_lifecycle;
       first [ rewrite Phong_main_lifecycle by assumption
             | rewrite Textured_main_lifecycle by assumption
             | rewrite Simple_main_lifecycle by assumption
             | rewrite Demo_main_lifecycle by assumption ];
       destruct_env e; try discriminate Hok; split; reflexivity
     | clear Hret; destruct_env e; try discriminate Hok; split; reflexivity ]).
Qed.

(** The link fails: both shader objects exist and neither is deleted. *)
Lemma shaders_leak_on_failure_witness :
  let e := {| glfwInit_ok := true; createWindow_ok := true; gladLoad_ok := true;
              vertex_compile_ok := true; fragment_compile_ok := true; link_ok := false;
              link_keeps := fun _ => true;
              buffer_alloc_ok := true; texture_alloc_ok := true;
              info_log := fun _ => EmptyString; uninitialized := fun _ => 0%N |} in
  created_shaders (rev (trace (world (Simple.main e [])))) = [1%N; 2%N] /\
  deleted_shaders (rev (trace (world (Simple.main e [])))) = [].
Proof.
  intros e. exact (proj1 (proj2 (proj2 shaders_leak_on_failure)) e [] eq_refl).
Defined.

(* ================================================================= *)
(** ** The vertex shaders *)

Module VertexFacts.
Import Reals PhongShader ShaderFacts VertexShaders RNsatz.
Local Open Scope R_scope.

Lemma vec4_eq (a b : vec4) :
  x4 a = x4 b -> y4 a = y4 b -> z4 a = z4 b -> w4 a = w4 b -> a = b.
Proof. destruct a, b; simpl; intros; subst; reflexivity. Qed.

Lemma mat4_eq (a b : mat4) : r1 a = r1 b -> r2 a = r2 b -> r3 a = r3 b -> r4 a = r4 b -> a = b.
Proof. destruct a, b; simpl; intros; subst; reflexivity. Qed.

Ltac mat_eq := apply mat4_eq; apply vec4_eq.

Lemma mulMM_mulMV (a b : mat4) (v : vec4) : mulMV (mulMM a b) v = mulMV a (mulMV b v).
Proof.
  destruct a as [[] [] [] []], b as [[] [] [] []], v.
  apply vec4_eq; unfold mulMV, mulMM, dot4; simpl; ring.
Qed.

Lemma mulMM_assoc (a b c : mat4) : mulMM (mulMM a b) c = mulMM a (mulMM b c).
Proof.
  destruct a as [[] [] [] []], b as [[] [] [] []], c as [[] [] [] []].
  mat_eq; unfold mulMM, dot4; simpl; ring.
Qed.

Lemma mulMM_identity_l (a : mat4) : mulMM identity a = a.
Proof. destruct a as [[] [] [] []]. mat_eq; unfold mulMM, dot4; simpl; ring. Qed.

Lemma mulMM_identity_r (a : mat4) : mulMM a identity = a.
Proof. destruct a as [[] [] [] []]. mat_eq; unfold mulMM, dot4; simpl; ring. Qed.

(** [inverse] gives the inverse of every matrix that has one. *)
Lemma inverse_left (m : mat4) : det m <> 0 -> mulMM (inverse m) m = identity.
Proof.
  intros Hd. pose proof (Rinv_r _ Hd) as H.
  unfold inverse, Rdiv. cbv zeta.
  revert H. generalize (/ det m). intros i H. clear Hd.
  destruct m as [[] [] [] []].
  unfold det, cofactor, minor, det3, cross, dot, without, rows_without, odd in *; cbn in H.
  mat_eq; unfold mulMM, dot4, identity; cbn;
    [> refine (eq_trans _ H); ring | ring | ring | ring
     | ring | refine (eq_trans _ H); ring | ring | ring
     | ring | ring | refine (eq_trans _ H); ring | ring
     | ring | ring | ring | refine (eq_trans _ H); ring ].
Qed.

Lemma inverse_unique (m x : mat4) : det m <> 0 -> mulMM m x = identity -> x = inverse m.
Proof.
  intros Hd Hx.
  rewrite <- (mulMM_identity_l x), <- (inverse_left m Hd), mulMM_assoc, Hx.
  apply mulMM_identity_r.
Qed.

(** The square of a 3 x 3 determinant, by the pairwise products of the
    rows. *)
Lemma det3_square (a b c : vec3) :
  det3 a b c * det3 a b c =
  dot a a * (dot b b * dot c c - dot b c * dot b c)
  - dot a b * (dot a b * dot c c - dot b c * dot a c)
  + dot a c * (dot a b * dot b c - dot b b * dot a c).
Proof. destruct a, b, c. unfold det3, cross, dot; simpl; ring. Qed.

Lemma rigid_det (m : mat4) : rigid m -> det m <> 0.
Proof.
  intros (Ha & H11 & H22 & H33 & H12 & H13 & H23).
  assert (E : det m = det3 (xyz (r1 m)) (xyz (r2 m)) (xyz (r3 m))).
  { unfold affine in Ha. destruct m as [[] [] [] r]. cbn in Ha. subst r.
    unfold det, cofactor, minor, det3, cross, dot, without, rows_without, odd, xyz; cbn.
    ring. }
  pose proof (det3_square (xyz (r1 m)) (xyz (r2 m)) (xyz (r3 m))) as S.
  rewrite H11, H22, H33, H12, H13, H23, <- E in S.
  intros Z. rewrite Z in S. lra.
Qed.

Lemma rigid_inverse_right (m : mat4) : rigid m -> mulMM m (rigid_inverse m) = identity.
Proof.
  intros (Ha & H11 & H22 & H33 & H12 & H13 & H23).
  unfold affine in Ha. destruct m as [[a1 a2 a3 t1] [b1 b2 b3 t2] [d1 d2 d3 t3] r].
  cbn in Ha. subst r.
  unfold dot, xyz in *. cbn in *.
  mat_eq; unfold mulMM, rigid_inverse, dot4, dot, extend, xyz, identity; cbn;
    first [lra | nsatz].
Qed.

Lemma rigid_inverse_eq (m : mat4) : rigid m -> inverse m = rigid_inverse m.
Proof.
  intros H. symmetry. apply inverse_unique.
  - apply rigid_det, H.
  - apply rigid_inverse_right, H.
Qed.

(** The two programs place a vertex at the same position of the screen
    whenever the model matrix is affine: the Phong shader, which goes
    through the world position [FragPos] and drops its fourth component,
    then computes what the textured shader computes. *)
Theorem vertex_positions_agree (model view projection : mat4) (position : vec3) :
  affine model ->
  Phong_gl_Position model view projection position =
  Textured_gl_Position model view projection position.
Proof.
  unfold affine. intros Hm.
  unfold Phong_gl_Position, Textured_gl_Position, Phong_FragPos.
  rewrite (mulMM_mulMV (mulMM projection view) model). f_equal.
  apply vec4_eq; unfold extend, xyz, mulMV; simpl; try reflexivity.
  rewrite Hm. unfold dot4; simpl. ring.
Qed.

Lemma rotate_y_rigid angle : rigid (rotate_y angle).
Proof.
  unfold rigid, affine, rotate_y, xyz, dot; cbn.
  pose proof (sin2_cos2 angle) as H. unfold Rsqr in H.
  split_all; try reflexivity; try ring; lra.
Qed.

(** The model matrix of a frame. *)
Lemma vertex_positions_agree_witness :
  Phong_gl_Position (rotate_y 1) identity identity (mk 0 0.5 0) =
  Textured_gl_Position (rotate_y 1) identity identity (mk 0 0.5 0).
Proof. apply vertex_positions_agree. apply rotate_y_rigid. Defined.

(** For a model matrix that is a rigid motion, such as the rotation about
    the y axis that [render] sets, the matrix the shader applies to the
    normal, mat3(transpose(inverse(model))), is the rotation part of the
    model matrix itself: the normal turns with the triangle, and the world
    position is the rotated position plus the translation. *)
Theorem normal_turns_with_model (model : mat4) (position normal : vec3) :
  rigid model ->
  Phong_Normal model normal = mulM3V (upper3 model) normal /\
  Phong_FragPos model position =
    vadd (mulM3V (upper3 model) position) (xyz (c4 model)).
Proof.
  intros H. split.
  - unfold Phong_Normal. rewrite (rigid_inverse_eq model H).
    destruct model as [[] [] [] []]. reflexivity.
  - destruct H as (Ha & _). unfold affine in Ha.
    destruct model as [[] [] [] r]. cbn in Ha. subst r.
    destruct position.
    apply vec3_eq; unfold Phong_FragPos, mulMV, dot4, dot, extend, xyz, vadd, mulM3V, upper3, c4;
      cbn; unfold dot, xyz; cbn; ring.
Qed.

(** The normal (0, 0, 1) of the triangle after a rotation by the angle 1. *)
Lemma normal_turns_with_model_witness :
  Phong_Normal (rotate_y 1) (mk 0 0 1) = mk (sin 1) 0 (cos 1).
Proof.
  rewrite (proj1 (normal_turns_with_model (rotate_y 1) zero (mk 0 0 1) (rotate_y_rigid 1))).
  apply vec3_eq; unfold mulM3V, upper3, rotate_y, xyz, dot; simpl; ring.
Defined.

End VertexFacts.
